(** * The overseer daemon of [skills]: a shallow embedding of
      [src/skills/overseer.py] and the properties of its trigger state
      machine.

    Python values are modelled as follows.
    - [str] is [string]; one [ascii] stands for one code point below 256.
    - [bytes] is [string] as well, one [ascii] per byte.
    - [int] is [Z] (unbounded).
    - a value produced by [json.loads] is a [json]; a [dict] is an
      association list read with [dict_get].
    - an exception is an [exn]: its class and the text [str(e)].
    - the code of a method is a function in the monad [M]: it threads the
      [Overseer] object, may raise, and appends to a trace of the effects
      it has on the outside world (log lines, the worker subprocess).
    External libraries ([bytes.decode], [json.loads], [tiktoken], [str] on
    non-string values) are the fields of a [PyRuntime]; the file system and
    the behaviour of the worker subprocess are the [Env] an event is
    processed in.  Connection handlers are run one after another, as the
    single event loop of the daemon is described to do. *)

From Stdlib Require Import String Ascii List ZArith Lia Bool DecimalString.
Import ListNotations.

Set Warnings "-register-all".

Local Open Scope string_scope.
Local Open Scope Z_scope.
Local Open Scope list_scope.

(* ================================================================= *)
(** ** Python values *)

Inductive json : Type :=
| JNull
| JBool (b : bool)
| JInt (n : Z)
| JFloat (literal : string)
| JStr (s : string)
| JArr (items : list json)
| JObj (members : list (string * json)).

Inductive ExnClass : Type :=
| JSONDecodeError
| UnicodeDecodeError
| AttributeError
| TypeError
| ValueError
| OSError
| TimeoutExpired
| OtherException.

Record exn : Type := mkExn { exn_class : ExnClass; exn_msg : string }.

Inductive Res (A : Type) : Type :=
| Ret (a : A)
| Raise (e : exn).
Arguments Ret {A} a.
Arguments Raise {A} e.

Definition is_class (c : ExnClass) (e : exn) : bool :=
  match c, exn_class e with
  | JSONDecodeError, JSONDecodeError => true
  | UnicodeDecodeError, UnicodeDecodeError => true
  | AttributeError, AttributeError => true
  | TypeError, TypeError => true
  | ValueError, ValueError => true
  | OSError, OSError => true
  | TimeoutExpired, TimeoutExpired => true
  | OtherException, OtherException => true
  | _, _ => false
  end.

Arguments is_class : simpl never.

(** [type(v).__name__] *)
Definition type_name (v : json) : string :=
  match v with
  | JNull => "NoneType"
  | JBool _ => "bool"
  | JInt _ => "int"
  | JFloat _ => "float"
  | JStr _ => "str"
  | JArr _ => "list"
  | JObj _ => "dict"
  end.

Fixpoint dict_get (d : list (string * json)) (k : string) : option json :=
  match d with
  | [] => None
  | (k', v) :: d' => if String.eqb k' k then Some v else dict_get d' k
  end.

(** [v.get(k, default)]: only a [dict] has the method. *)
Definition py_get (v : json) (k : string) (default : json) : Res json :=
  match v with
  | JObj d => Ret (match dict_get d k with Some x => x | None => default end)
  | _ => Raise (mkExn AttributeError
                  ("'" ++ type_name v ++ "' object has no attribute 'get'")%string)
  end.

(** [k in d] and [d[k]], used by the source on a value that [get] has
    already accepted, hence on a [dict]. *)
Definition py_in (k : string) (v : json) : bool :=
  match v with
  | JObj d => match dict_get d k with Some _ => true | None => false end
  | _ => false
  end.

Definition py_item (v : json) (k : string) : json :=
  match v with
  | JObj d => match dict_get d k with Some x => x | None => JNull end
  | _ => JNull
  end.

(** [v == "literal"] *)
Definition json_eq_str (v : json) (s : string) : bool :=
  match v with
  | JStr t => String.eqb t s
  | _ => false
  end.

(** [len(l)] *)
Definition len {A : Type} (l : list A) : Z := Z.of_nat (length l).

(** [l[i:]], with Python's treatment of a negative start. *)
Definition slice_from {A : Type} (i : Z) (l : list A) : list A :=
  if i <? 0 then skipn (Z.to_nat (Z.max 0 (len l + i))) l
  else skipn (Z.to_nat i) l.

(** [str.isspace] on the code points below 256. *)
Definition isspace (c : ascii) : bool :=
  let n := nat_of_ascii c in
  ((9 <=? n) && (n <=? 13) || (28 <=? n) && (n <=? 32)
   || (n =? 133) || (n =? 160))%nat.

Fixpoint lstrip (s : string) : string :=
  match s with
  | EmptyString => EmptyString
  | String c r => if isspace c then lstrip r else s
  end.

Fixpoint rstrip (s : string) : string :=
  match s with
  | EmptyString => EmptyString
  | String c r =>
      match rstrip r with
      | EmptyString => if isspace c then EmptyString else String c EmptyString
      | r' => String c r'
      end
  end.

Definition strip (s : string) : string := rstrip (lstrip s).

Definition nonempty (s : string) : bool :=
  match s with EmptyString => false | _ => true end.

(** [pathlib.Path]: built from a [str] only; every [Path] is truthy. *)
Inductive Path : Type := MkPath (name : string).

Definition path_str (p : Path) : string := let (s) := p in s.

Definition Path_of (v : json) : Res Path :=
  match v with
  | JStr s => Ret (MkPath s)
  | _ => Raise (mkExn TypeError
                  ("expected str, bytes or os.PathLike object, not "
                     ++ type_name v)%string)
  end.

(* ================================================================= *)
(** ** The outside world *)

Definition bytes : Type := string.

(** The library functions the daemon calls. *)
Class PyRuntime : Type := {
  (** [data.decode()] *)
  decode : bytes -> Res string;
  (** [json.loads(text)] *)
  json_loads : string -> Res json;
  (** [tiktoken.get_encoding("cl100k_base").encode(text)] *)
  encode : string -> Res (list Z);
  (** [str(v)] for a value that is not a [str] *)
  py_repr : json -> string
}.

(** What [Path.exists] and [open] find at a path: nothing, a text file
    given by the lines its iteration yields, or something that exists and
    cannot be read (a directory, a file without permission). *)
Inductive FsEntry : Type :=
| Absent
| Regular (lines : list string)
| Blocked (e : exn).

(** The worker subprocess, as the results of the calls made on it. *)
Record Subprocess : Type := {
  sp_popen : Res unit;
  sp_stdin : Res unit;
  sp_communicate : Res (bytes * bytes);
  sp_returncode : Z
}.

Record Env : Type := {
  fs : Path -> FsEntry;
  worker : Subprocess
}.

(** The document written to the worker's standard input. *)
Record AgentContext : Type := {
  ctx_cwd : string;
  ctx_session_id : json;
  ctx_transcript_window : list json
}.

Inductive LogMsg : Type :=
| LogNoPath
| LogPathMissing (p : Path)
| LogNoNewMsgs (current last : Z)
| LogNewMsgs (new total : Z)
| LogAgentReturncode (rc : Z)
| LogAgentStdout (chars : Z) (head : string)
| LogAgentFailed (rc : Z) (head : string)
| LogTriggerFirstResponse
| LogTriggerTokenThreshold (tokens threshold : Z)
| LogTriggerPromptThreshold (prompts threshold : Z)
| LogEvent (name : json) (new_tokens total_tokens prompts responses : Z).

(** Effects, in the order they happen.  [PolicyCall] records that
    [_should_trigger_agent] was entered. *)
Inductive Effect : Type :=
| Log (m : LogMsg)
| Popen
| WriteStdin (context : AgentContext)
| Kill
| PolicyCall (event_name : json).

(* ================================================================= *)
(** ** The daemon object *)

Record Config : Type := {
  trigger_mode : string;
  token_threshold : Z;
  prompt_threshold : Z;
  trigger_on_first_response : bool
}.

Definition DEFAULT_CONFIG : Config :=
  {| trigger_mode := "tokens";
     token_threshold := 10000;
     prompt_threshold := 5;
     trigger_on_first_response := true |}.

Record Overseer : Type := {
  running : bool;
  session_id : json;
  transcript_path : option Path;
  cwd : option Path;
  active_agent : bool;
  prompt_count : Z;
  response_count : Z;
  tokens_since_last_trigger : Z;
  last_transcript_length : Z;
  config : Config
}.

(** [Overseer.__init__], for the configuration [_load_config] returned. *)
Definition init (cfg : Config) : Overseer :=
  {| running := false;
     session_id := JNull;
     transcript_path := None;
     cwd := None;
     active_agent := false;
     prompt_count := 0;
     response_count := 0;
     tokens_since_last_trigger := 0;
     last_transcript_length := 0;
     config := cfg |}.

Definition set_running (b : bool) (o : Overseer) : Overseer :=
  {| running := b; session_id := session_id o;
     transcript_path := transcript_path o; cwd := cwd o;
     active_agent := active_agent o; prompt_count := prompt_count o;
     response_count := response_count o;
     tokens_since_last_trigger := tokens_since_last_trigger o;
     last_transcript_length := last_transcript_length o;
     config := config o |}.

Definition set_session_id (v : json) (o : Overseer) : Overseer :=
  {| running := running o; session_id := v;
     transcript_path := transcript_path o; cwd := cwd o;
     active_agent := active_agent o; prompt_count := prompt_count o;
     response_count := response_count o;
     tokens_since_last_trigger := tokens_since_last_trigger o;
     last_transcript_length := last_transcript_length o;
     config := config o |}.

Definition set_transcript_path (p : option Path) (o : Overseer) : Overseer :=
  {| running := running o; session_id := session_id o;
     transcript_path := p; cwd := cwd o;
     active_agent := active_agent o; prompt_count := prompt_count o;
     response_count := response_count o;
     tokens_since_last_trigger := tokens_since_last_trigger o;
     last_transcript_length := last_transcript_length o;
     config := config o |}.

Definition set_cwd (p : option Path) (o : Overseer) : Overseer :=
  {| running := running o; session_id := session_id o;
     transcript_path := transcript_path o; cwd := p;
     active_agent := active_agent o; prompt_count := prompt_count o;
     response_count := response_count o;
     tokens_since_last_trigger := tokens_since_last_trigger o;
     last_transcript_length := last_transcript_length o;
     config := config o |}.

Definition set_active_agent (a : bool) (o : Overseer) : Overseer :=
  {| running := running o; session_id := session_id o;
     transcript_path := transcript_path o; cwd := cwd o;
     active_agent := a; prompt_count := prompt_count o;
     response_count := response_count o;
     tokens_since_last_trigger := tokens_since_last_trigger o;
     last_transcript_length := last_transcript_length o;
     config := config o |}.

Definition set_prompt_count (n : Z) (o : Overseer) : Overseer :=
  {| running := running o; session_id := session_id o;
     transcript_path := transcript_path o; cwd := cwd o;
     active_agent := active_agent o; prompt_count := n;
     response_count := response_count o;
     tokens_since_last_trigger := tokens_since_last_trigger o;
     last_transcript_length := last_transcript_length o;
     config := config o |}.

Definition set_response_count (n : Z) (o : Overseer) : Overseer :=
  {| running := running o; session_id := session_id o;
     transcript_path := transcript_path o; cwd := cwd o;
     active_agent := active_agent o; prompt_count := prompt_count o;
     response_count := n;
     tokens_since_last_trigger := tokens_since_last_trigger o;
     last_transcript_length := last_transcript_length o;
     config := config o |}.

Definition set_tokens_since_last_trigger (n : Z) (o : Overseer) : Overseer :=
  {| running := running o; session_id := session_id o;
     transcript_path := transcript_path o; cwd := cwd o;
     active_agent := active_agent o; prompt_count := prompt_count o;
     response_count := response_count o;
     tokens_since_last_trigger := n;
     last_transcript_length := last_transcript_length o;
     config := config o |}.

Definition set_last_transcript_length (n : Z) (o : Overseer) : Overseer :=
  {| running := running o; session_id := session_id o;
     transcript_path := transcript_path o; cwd := cwd o;
     active_agent := active_agent o; prompt_count := prompt_count o;
     response_count := response_count o;
     tokens_since_last_trigger := tokens_since_last_trigger o;
     last_transcript_length := n;
     config := config o |}.

(* ================================================================= *)
(** ** The monad of methods: state, exceptions and a trace *)

Definition M (A : Type) : Type := Overseer -> Res A * Overseer * list Effect.

Definition ret {A : Type} (a : A) : M A := fun o => (Ret a, o, []).

Definition raise {A : Type} (e : exn) : M A := fun o => (Raise e, o, []).

Definition bind {A B : Type} (m : M A) (f : A -> M B) : M B :=
  fun o =>
    match m o with
    | (Ret a, o1, t1) =>
        match f a o1 with
        | (r, o2, t2) => (r, o2, t1 ++ t2)
        end
    | (Raise e, o1, t1) => (Raise e, o1, t1)
    end.

Definition lift {A : Type} (r : Res A) : M A := fun o => (r, o, []).

Definition get : M Overseer := fun o => (Ret o, o, []).

Definition modify (f : Overseer -> Overseer) : M unit :=
  fun o => (Ret tt, f o, []).

Definition emit (e : Effect) : M unit := fun o => (Ret tt, o, [e]).

Definition _log (m : LogMsg) : M unit := emit (Log m).

(** [try: body  except <classes for which handles e>: handler e] *)
Definition try_except {A : Type} (body : M A) (handler : exn -> M A) : M A :=
  fun o =>
    match body o with
    | (Ret a, o1, t1) => (Ret a, o1, t1)
    | (Raise e, o1, t1) =>
        match handler e o1 with
        | (r, o2, t2) => (r, o2, t1 ++ t2)
        end
    end.

(** [try: body  finally: final] for a [final] that does not raise. *)
Definition try_finally {A : Type} (body : M A) (final : M unit) : M A :=
  fun o =>
    match body o with
    | (r, o1, t1) =>
        match final o1 with
        | (_, o2, t2) => (r, o2, t1 ++ t2)
        end
    end.

Declare Scope py_scope.
Delimit Scope py_scope with py.
Notation "x <- m ;; k" := (bind m (fun x => k))
  (at level 61, m at next level, right associativity) : py_scope.
Notation "m ;; k" := (bind m (fun _ => k))
  (at level 61, right associativity) : py_scope.
Local Open Scope py_scope.

Definition result_of {A : Type} (x : Res A * Overseer * list Effect) : Res A :=
  fst (fst x).
Definition state_of {A : Type} (x : Res A * Overseer * list Effect) : Overseer :=
  snd (fst x).
Definition trace_of {A : Type} (x : Res A * Overseer * list Effect) : list Effect :=
  snd x.

(** Sequencing of calls that may raise and touch no state. *)
Definition rbind {A B : Type} (r : Res A) (f : A -> Res B) : Res B :=
  match r with
  | Ret a => f a
  | Raise e => Raise e
  end.
Notation "x <~ r ;; k" := (rbind r (fun x => k))
  (at level 61, r at next level, right associativity) : py_scope.

(* ================================================================= *)
(** ** The methods of [Overseer] *)

Section Methods.

Context {rt : PyRuntime}.

(** [str(v)] *)
Definition py_str (v : json) : string :=
  match v with
  | JStr s => s
  | _ => py_repr v
  end.

(** [_count_tokens]: the encoder accepts a [str] only. *)
Definition _count_tokens (text : json) : Res Z :=
  match text with
  | JStr s => toks <~ encode s;; Ret (len toks)
  | _ => Raise (mkExn TypeError "expected string or bytes-like object")
  end.

(** The loop of [_read_transcript] over the lines of the open file. *)
Fixpoint read_lines (lines : list string) (messages : list json)
  : Res (list json) :=
  match lines with
  | [] => Ret messages
  | line :: rest =>
      let line := strip line in
      if nonempty line then
        match json_loads line with
        | Ret v => read_lines rest (messages ++ [v])
        | Raise e =>
            if is_class JSONDecodeError e then read_lines rest messages
            else Raise e
        end
      else read_lines rest messages
  end.

Definition _read_transcript (fs : Path -> FsEntry) : M (list json) :=
  o <- get;;
  match transcript_path o with
  | None => _log LogNoPath;; ret []
  | Some p =>
      match fs p with
      | Absent => _log (LogPathMissing p);; ret []
      | Blocked e => raise e
      | Regular lines => lift (read_lines lines [])
      end
  end.

Definition _read_transcript_window (fs : Path -> FsEntry) (max_messages : Z)
  : M (list json) :=
  messages <- _read_transcript fs;;
  ret (slice_from (- max_messages) messages).

(** The inner loop of [_calculate_new_tokens], over the elements of a
    list-valued assistant content. *)
Fixpoint sum_text_items (items : list json) (total_tokens : Z) : Res Z :=
  match items with
  | [] => Ret total_tokens
  | c :: rest =>
      ty <~ py_get c "type" JNull;;
      if json_eq_str ty "text" then
        text <~ py_get c "text" (JStr "");;
        n <~ _count_tokens text;;
        sum_text_items rest (total_tokens + n)
      else sum_text_items rest total_tokens
  end.

(** One iteration of the outer loop. *)
Definition add_message_tokens (msg : json) (total_tokens : Z) : Res Z :=
  msg_type <~ py_get msg "type" (JStr "");;
  if json_eq_str msg_type "human" then
    message <~ py_get msg "message" (JObj []);;
    content <~ py_get message "content" (JStr "");;
    n <~ _count_tokens (JStr (py_str content));;
    Ret (total_tokens + n)
  else if json_eq_str msg_type "assistant" then
    message <~ py_get msg "message" (JObj []);;
    content <~ py_get message "content" (JArr []);;
    match content with
    | JArr items => sum_text_items items total_tokens
    | _ =>
        n <~ _count_tokens (JStr (py_str content));;
        Ret (total_tokens + n)
    end
  else Ret total_tokens.

Fixpoint sum_message_tokens (new_messages : list json) (total_tokens : Z)
  : Res Z :=
  match new_messages with
  | [] => Ret total_tokens
  | msg :: rest =>
      t <~ add_message_tokens msg total_tokens;;
      sum_message_tokens rest t
  end.

Definition _calculate_new_tokens (fs : Path -> FsEntry) : M Z :=
  messages <- _read_transcript fs;;
  let current_length := len messages in
  o <- get;;
  if current_length <=? last_transcript_length o then
    _log (LogNoNewMsgs current_length (last_transcript_length o));;
    ret 0
  else
    let new_messages := slice_from (last_transcript_length o) messages in
    _log (LogNewMsgs (len new_messages) current_length);;
    modify (set_last_transcript_length current_length);;
    lift (sum_message_tokens new_messages 0).

Definition _build_agent_context (fs : Path -> FsEntry) : M AgentContext :=
  o <- get;;
  window <- _read_transcript_window fs 50;;
  ret {| ctx_cwd := match cwd o with Some p => path_str p | None => "." end;
         ctx_session_id := session_id o;
         ctx_transcript_window := window |}.

(** [_spawn_agent].  [sp_communicate] is the awaited call: the statements
    after it run once the worker has terminated. *)
Definition _spawn_agent (env : Env) : M (option string) :=
  context <- _build_agent_context (fs env);;
  try_finally
    (try_except
       (emit Popen;;
        lift (sp_popen (worker env));;
        modify (set_active_agent true);;
        emit (WriteStdin context);;
        lift (sp_stdin (worker env));;
        out <- lift (sp_communicate (worker env));;
        modify (set_tokens_since_last_trigger 0);;
        modify (set_prompt_count 0);;
        let returncode := sp_returncode (worker env) in
        _log (LogAgentReturncode returncode);;
        if returncode =? 0 then
          text <- lift (decode (fst out));;
          let output := strip text in
          _log (LogAgentStdout (Z.of_nat (String.length output))
                  (if nonempty output then substring 0 1000 output
                   else "(empty)"));;
          ret (Some output)
        else
          text <- lift (decode (snd out));;
          let stderr_text := strip text in
          _log (LogAgentFailed returncode (substring 0 500 stderr_text));;
          ret None)
       (fun e =>
          if is_class TimeoutExpired e then
            o <- get;;
            (if active_agent o then emit Kill else ret tt);;
            ret None
          else ret None))
    (modify (set_active_agent false)).

Definition _should_trigger_agent (event_name : json) : M bool :=
  emit (PolicyCall event_name);;
  o <- get;;
  if trigger_on_first_response (config o)
     && (json_eq_str event_name "Stop" && (response_count o =? 1))
  then _log LogTriggerFirstResponse;; ret true
  else if String.eqb (trigger_mode (config o)) "tokens" then
    let should := token_threshold (config o) <=? tokens_since_last_trigger o in
    (if should
     then _log (LogTriggerTokenThreshold (tokens_since_last_trigger o)
                  (token_threshold (config o)))
     else ret tt);;
    ret should
  else
    let should := prompt_threshold (config o) <=? prompt_count o in
    (if should
     then _log (LogTriggerPromptThreshold (prompt_count o)
                  (prompt_threshold (config o)))
     else ret tt);;
    ret should.

Definition _process_event (env : Env) (event : json) : M unit :=
  event_name <- lift (py_get event "hook_event_name" (JStr ""));;
  sid <- lift (py_get event "session_id" JNull);;
  modify (set_session_id sid);;
  (if py_in "transcript_path" event then
     p <- lift (Path_of (py_item event "transcript_path"));;
     modify (set_transcript_path (Some p))
   else ret tt);;
  (if py_in "cwd" event then
     p <- lift (Path_of (py_item event "cwd"));;
     modify (set_cwd (Some p))
   else ret tt);;
  new_tokens <- _calculate_new_tokens (fs env);;
  modify (fun o => set_tokens_since_last_trigger
                     (tokens_since_last_trigger o + new_tokens) o);;
  o <- get;;
  _log (LogEvent event_name new_tokens (tokens_since_last_trigger o)
          (prompt_count o) (response_count o));;
  if json_eq_str event_name "SessionEnd" then
    _spawn_agent env;;
    modify (set_running false)
  else if json_eq_str event_name "UserPromptSubmit" then
    modify (fun o => set_prompt_count (prompt_count o + 1) o)
  else if json_eq_str event_name "Stop" then
    modify (fun o => set_response_count (response_count o + 1) o);;
    fire <- _should_trigger_agent event_name;;
    if fire then _spawn_agent env;; ret tt else ret tt
  else ret tt.

(** The two halves of [_process_event], named so that facts about each
    can be stated: what every event goes through (lines 289 to 302), and
    the branch on the event name (lines 304 to 317).
    [process_event_split] shows that [_process_event] is the first followed
    by the second. *)
Definition process_event_head (env : Env) (event : json) : M json :=
  event_name <- lift (py_get event "hook_event_name" (JStr ""));;
  sid <- lift (py_get event "session_id" JNull);;
  modify (set_session_id sid);;
  (if py_in "transcript_path" event then
     p <- lift (Path_of (py_item event "transcript_path"));;
     modify (set_transcript_path (Some p))
   else ret tt);;
  (if py_in "cwd" event then
     p <- lift (Path_of (py_item event "cwd"));;
     modify (set_cwd (Some p))
   else ret tt);;
  new_tokens <- _calculate_new_tokens (fs env);;
  modify (fun o => set_tokens_since_last_trigger
                     (tokens_since_last_trigger o + new_tokens) o);;
  o <- get;;
  _log (LogEvent event_name new_tokens (tokens_since_last_trigger o)
          (prompt_count o) (response_count o));;
  ret event_name.

Definition process_event_branch (env : Env) (event_name : json) : M unit :=
  if json_eq_str event_name "SessionEnd" then
    _spawn_agent env;;
    modify (set_running false)
  else if json_eq_str event_name "UserPromptSubmit" then
    modify (fun o => set_prompt_count (prompt_count o + 1) o)
  else if json_eq_str event_name "Stop" then
    modify (fun o => set_response_count (response_count o + 1) o);;
    fire <- _should_trigger_agent event_name;;
    if fire then _spawn_agent env;; ret tt else ret tt
  else ret tt.

(** What the peer of a connection gets: the response text, or nothing when
    the handler dies before the [try] statement. *)
Inductive Reply : Type :=
| Responded (response : string)
| Crashed (e : exn).

(** The body of the [try] statement of [_handle_client]. *)
Definition handle_message (env : Env) (message : string) : M unit :=
  event <- lift (json_loads message);;
  _process_event env event.

Definition _handle_client (env : Env) (data : bytes) (o : Overseer)
  : Reply * Overseer * list Effect :=
  match decode data with
  | Raise e => (Crashed e, o, [])
  | Ret message =>
      match handle_message env message o with
      | (Ret _, o1, t) => (Responded "ok", o1, t)
      | (Raise e, o1, t) => (Responded ("error: " ++ exn_msg e)%string, o1, t)
      end
  end.

(** A run of the server: the connections it handles, in order. *)
Record Served : Type := {
  sv_env : Env;
  sv_data : bytes;
  sv_before : Overseer;
  sv_reply : Reply;
  sv_after : Overseer;
  sv_trace : list Effect
}.

Definition serve_one (c : Env * bytes) (o : Overseer) : Served :=
  match _handle_client (fst c) (snd c) o with
  | (r, o1, t) =>
      {| sv_env := fst c; sv_data := snd c; sv_before := o;
         sv_reply := r; sv_after := o1; sv_trace := t |}
  end.

Fixpoint serve (conns : list (Env * bytes)) (o : Overseer) : list Served :=
  match conns with
  | [] => []
  | c :: rest =>
      let r := serve_one c o in
      r :: serve rest (sv_after r)
  end.

Definition final_state (o : Overseer) (run : list Served) : Overseer :=
  fold_left (fun _ r => sv_after r) run o.

End Methods.

(* ================================================================= *)
(** ** Shapes of events and transcript entries *)

(** An event object: its name and further fields. *)
Definition ev (name : string) (fields : list (string * json)) : json :=
  JObj (("hook_event_name", JStr name) :: fields).

Definition human_entry (text : string) : json :=
  JObj [("type", JStr "human"); ("message", JObj [("content", JStr text)])].

Definition assistant_entry (content : json) : json :=
  JObj [("type", JStr "assistant"); ("message", JObj [("content", content)])].

Definition text_item (text : string) : json :=
  JObj [("type", JStr "text"); ("text", JStr text)].

(* ================================================================= *)
(** ** A runtime to run the model on concrete inputs

    [Sample.runtime] stands for the libraries where a concrete run is
    needed: it decodes ASCII, loads exactly the texts that [json_dumps]
    (the client side of the protocol, [send_event]) prints for the values
    listed in [Sample.known], rejects every other text the way [json.loads]
    rejects a text that starts no JSON value, and counts one token per
    character. *)

Module Sample.

Definition dq : string := String (ascii_of_nat 34) EmptyString.

Definition quoted (s : string) : string := (dq ++ s ++ dq)%string.

(** [json.dumps(v)] for values whose strings need no escape. *)
Fixpoint json_dumps (v : json) : string :=
  match v with
  | JNull => "null"
  | JBool true => "true"
  | JBool false => "false"
  | JInt n => NilZero.string_of_int (Z.to_int n)
  | JFloat literal => literal
  | JStr s => quoted s
  | JArr items => ("[" ++ String.concat ", " (map json_dumps items) ++ "]")%string
  | JObj members =>
      ("{" ++ String.concat ", "
                (map (fun kv => (quoted (fst kv) ++ ": " ++ json_dumps (snd kv))%string)
                   members)
           ++ "}")%string
  end.

(** An assistant entry whose content list holds a plain string. *)
Definition odd_entry : json := assistant_entry (JArr [JStr "hello"]).

Definition known : list json :=
  [ ev "UserPromptSubmit" [];
    ev "Stop" [];
    ev "SessionEnd" [];
    ev "Stop" [("transcript_path", JStr "/t/log.jsonl")];
    ev "Stop" [("transcript_path", JStr "/t")];
    ev "Stop" [("transcript_path", JStr "/t/odd.jsonl")];
    ev "SessionEnd" [("transcript_path", JStr "/t")];
    ev "Stop" [("session_id", JStr "abc"); ("transcript_path", JStr "/t")];
    ev "UserPromptSubmit"
       [("session_id", JStr "abc"); ("transcript_path", JStr "/t/log.jsonl");
        ("cwd", JStr "/work")];
    human_entry "hi";
    assistant_entry (JArr [text_item "hello"]);
    odd_entry ].

Definition loads (text : string) : Res json :=
  match find (fun v => String.eqb (json_dumps v) text) known with
  | Some v => Ret v
  | None =>
      Raise (mkExn JSONDecodeError "Expecting value: line 1 column 1 (char 0)")
  end.

Definition is_ascii (s : string) : bool :=
  forallb (fun c => (nat_of_ascii c <? 128)%nat) (list_ascii_of_string s).

Definition runtime : PyRuntime :=
  {| decode := fun data =>
       if is_ascii data then Ret data
       else Raise (mkExn UnicodeDecodeError "'utf-8' codec can't decode bytes");
     json_loads := loads;
     encode := fun text =>
       Ret (map (fun c => Z.of_nat (nat_of_ascii c)) (list_ascii_of_string text));
     py_repr := json_dumps |}.

(** A worker that exits with status 0 and prints a summary. *)
Definition worker_ok : Subprocess :=
  {| sp_popen := Ret tt; sp_stdin := Ret tt;
     sp_communicate := Ret ("summary", "");
     sp_returncode := 0 |}.

(** A worker that exits with status 1. *)
Definition worker_failing : Subprocess :=
  {| sp_popen := Ret tt; sp_stdin := Ret tt;
     sp_communicate := Ret ("", "boom");
     sp_returncode := 1 |}.

(** A worker that is still running after 300 seconds. *)
Definition worker_timeout : Subprocess :=
  {| sp_popen := Ret tt; sp_stdin := Ret tt;
     sp_communicate :=
       Raise (mkExn TimeoutExpired "Command timed out after 300 seconds");
     sp_returncode := 0 |}.

(** A file system with a transcript of two entries around a malformed
    line, a transcript of one entry and a malformed line, a one-entry
    transcript that holds [odd_entry], and a directory. *)
Definition disk (p : Path) : FsEntry :=
  let name := path_str p in
  if String.eqb name "/t/log.jsonl" then
    Regular [ (json_dumps (human_entry "hi") ++ String (ascii_of_nat 10) "")%string;
              "not json";
              (json_dumps (assistant_entry (JArr [text_item "hello"])))%string ]
  else if String.eqb name "/t/two.jsonl" then
    Regular [ (json_dumps (human_entry "hi") ++ String (ascii_of_nat 10) "")%string;
              "not json" ]
  else if String.eqb name "/t/odd.jsonl" then
    Regular [ json_dumps odd_entry ]
  else if String.eqb name "/t" then
    Blocked (mkExn OSError "[Errno 21] Is a directory: '/t'")
  else Absent.

Definition env_ok : Env := {| fs := disk; worker := worker_ok |}.
Definition env_timeout : Env := {| fs := disk; worker := worker_timeout |}.

(** What a client sends for an event: [json.dumps(event).encode()]. *)
Definition send (event : json) : bytes := json_dumps event.

(** The daemon right after [run] has set [running]. *)
Definition fresh : Overseer := set_running true (init DEFAULT_CONFIG).

Definition at_path (name : string) (o : Overseer) : Overseer :=
  set_transcript_path (Some (MkPath name)) o.

(** Tokens mode with threshold 100, after three prompts, four responses
    and 120 tokens, in a session named abc. *)
Definition busy : Overseer :=
  {| running := true;
     session_id := JStr "abc";
     transcript_path := None;
     cwd := None;
     active_agent := false;
     prompt_count := 3;
     response_count := 4;
     tokens_since_last_trigger := 120;
     last_transcript_length := 0;
     config := {| trigger_mode := "tokens"; token_threshold := 100;
                  prompt_threshold := 3;
                  trigger_on_first_response := true |} |}.

(** Prompts mode with threshold 3, after two prompts and four responses. *)
Definition prompting : Overseer :=
  {| running := true;
     session_id := JNull;
     transcript_path := None;
     cwd := None;
     active_agent := false;
     prompt_count := 2;
     response_count := 4;
     tokens_since_last_trigger := 120;
     last_transcript_length := 0;
     config := {| trigger_mode := "prompts"; token_threshold := 100;
                  prompt_threshold := 3;
                  trigger_on_first_response := true |} |}.

(** A session: a prompt, then two [Stop] events. *)
Definition c0 : Env * bytes := (env_ok, send (ev "UserPromptSubmit" [])).
Definition c1 : Env * bytes := (env_ok, send (ev "Stop" [])).
Definition c2 : Env * bytes := (env_ok, send (ev "Stop" [])).

Definition r0 : Served := @serve_one runtime c0 fresh.
Definition r1 : Served := @serve_one runtime c1 (sv_after r0).
Definition r2 : Served := @serve_one runtime c2 (sv_after r1).

(** A session whose first [Stop] event names a directory as the
    transcript, and whose second names the transcript. *)
Definition b0 : Env * bytes :=
  (env_ok, send (ev "Stop" [("transcript_path", JStr "/t")])).
Definition b1 : Env * bytes :=
  (env_ok, send (ev "Stop" [("transcript_path", JStr "/t/log.jsonl")])).

Definition q0 : Served := @serve_one runtime b0 fresh.
Definition q1 : Served := @serve_one runtime b1 (sv_after q0).

End Sample.

(* ================================================================= *)
(** ** The trigger policy as the specification words it *)

Definition tokenThreshold_reached (tokensSinceLastTrigger : Z) (cfg : Config)
  : bool := token_threshold cfg <=? tokensSinceLastTrigger.

Definition promptThreshold_reached (promptCount : Z) (cfg : Config) : bool :=
  prompt_threshold cfg <=? promptCount.

(** Rule 1, then the token rule in tokens mode, else the prompt rule. *)
Definition trigger_policy (event_name : json)
  (responseCount promptCount tokensSinceLastTrigger : Z) (cfg : Config) : bool :=
  if trigger_on_first_response cfg && json_eq_str event_name "Stop"
     && (responseCount =? 1)
  then true
  else if String.eqb (trigger_mode cfg) "tokens"
       then tokenThreshold_reached tokensSinceLastTrigger cfg
       else promptThreshold_reached promptCount cfg.

(* ================================================================= *)
(** ** Observations on a trace *)

Definition is_popen (e : Effect) : bool :=
  match e with Popen => true | _ => false end.

Definition is_policy_call (e : Effect) : bool :=
  match e with PolicyCall _ => true | _ => false end.

Definition is_first_response_log (e : Effect) : bool :=
  match e with Log LogTriggerFirstResponse => true | _ => false end.

(** The worker was dispatched: [subprocess.Popen] was called. *)
Definition dispatched (t : list Effect) : bool := existsb is_popen t.

(** The trigger policy was consulted. *)
Definition consulted (t : list Effect) : bool := existsb is_policy_call t.

(** The policy fired through its first-response rule. *)
Definition first_response_fired (t : list Effect) : bool :=
  existsb is_first_response_log t.

(** A relation [R] between the object before and after a call is kept by
    the method [m]. *)
Definition respects (R : Overseer -> Overseer -> Prop) {A : Type} (m : M A)
  : Prop :=
  forall o, R o (state_of (m o)).

(** The number of times the worker was dispatched. *)
Definition dispatch_count (t : list Effect) : nat :=
  length (filter is_popen t).

(** An effect that is none of the three observed above. *)
Definition plain (e : Effect) : bool :=
  negb (is_popen e) && negb (is_policy_call e)
  && negb (is_first_response_log e).

(** Every effect of the method [m] satisfies [P]. *)
Definition emits (P : Effect -> bool) {A : Type} (m : M A) : Prop :=
  forall o, forallb P (trace_of (m o)) = true.

Definition is_ok (r : Reply) : bool :=
  match r with
  | Responded response => String.eqb response "ok"
  | Crashed _ => false
  end.

Section Observations.

Context {rt : PyRuntime}.

(** The [hook_event_name] of the event a connection carries, when its
    bytes decode and parse to an object. *)
Definition event_name_of (data : bytes) : option json :=
  match decode data with
  | Ret message =>
      match json_loads message with
      | Ret event =>
          match py_get event "hook_event_name" (JStr "") with
          | Ret event_name => Some event_name
          | Raise _ => None
          end
      | Raise _ => None
      end
  | Raise _ => None
  end.

(** The connection carries a [Stop] event. *)
Definition is_stop (data : bytes) : bool :=
  match event_name_of data with
  | Some event_name => json_eq_str event_name "Stop"
  | None => false
  end.

(** The connection carried a [Stop] event and was answered ["ok"]. *)
Definition stop_acknowledged (r : Served) : bool :=
  is_stop (sv_data r) && is_ok (sv_reply r).

End Observations.

(** [keeps f]: the call leaves [f] of the object as it was;
    [grows f]: the call does not decrease it. *)
Definition keeps {B : Type} (f : Overseer -> B) : Overseer -> Overseer -> Prop :=
  fun o o' => f o = f o'.

Definition grows (f : Overseer -> Z) : Overseer -> Overseer -> Prop :=
  fun o o' => f o <= f o'.

(* ================================================================= *)
(** ** Predicates for the further properties *)


(** The worker ran to its end: it was started, fed, and [communicate]
    returned. *)
Definition worker_completed (w : Subprocess) : Prop :=
  sp_popen w = Ret tt /\ sp_stdin w = Ret tt
  /\ exists out, sp_communicate w = Ret out.

Definition is_kill (e : Effect) : bool :=
  match e with Kill => true | _ => false end.

(** The contexts written to the standard input of workers, in order. *)
Fixpoint written_contexts (t : list Effect) : list AgentContext :=
  match t with
  | [] => []
  | WriteStdin c :: t' => c :: written_contexts t'
  | _ :: t' => written_contexts t'
  end.

(** The context [_build_agent_context] builds from the object and the
    transcript it read. *)
Definition context_of (o : Overseer) (messages : list json) : AgentContext :=
  {| ctx_cwd := match cwd o with Some p => path_str p | None => "." end;
     ctx_session_id := session_id o;
     ctx_transcript_window := slice_from (- (50)) messages |}.



(* ================================================================= *)
(** ** The singleton marker

    The PID file and the socket of the daemon, as the class methods of
    [Overseer] read and write them.  [int] on a string and the probe
    [os.kill(pid, 0)] are the fields of an [OsRuntime].  A PID file that
    exists holds a text; files that vanish between two calls of one
    method are not modelled. *)

Inductive KillOutcome : Type :=
| KillOk
| KillNoProcess               (* ProcessLookupError *)
| KillOther (e : exn).        (* PermissionError, OverflowError, ... *)

Class OsRuntime : Type := {
  (** [int(text)]: [None] when it raises [ValueError] *)
  py_int : string -> option Z;
  (** [os.kill(pid, 0)] *)
  os_kill0 : Z -> KillOutcome
}.

(** [str(n)] for an [int]. *)
Definition str_of_int (n : Z) : string := NilZero.string_of_int (Z.to_int n).

Record Marker : Type := {
  pid_file : option string;
  socket_file : bool
}.

(** The handle of a worker at shutdown: what [poll] and [wait(timeout=5)]
    give. *)
Record AgentProc : Type := {
  ap_poll : option Z;
  ap_wait : Res Z
}.

Inductive AgentSignal : Type :=
| AgentTerminate
| AgentKill.

(** What connecting to the socket gives: [ConnectionRefusedError] or
    [FileNotFoundError], the bytes of the response, or another failure. *)
Inductive Connection : Type :=
| ConnRefused
| ConnAnswered (response : bytes)
| ConnFailed (e : exn).

Section Singleton.

Context {rt : PyRuntime} {os : OsRuntime}.

Definition _cleanup_stale (w : Marker) : Marker :=
  {| pid_file := None; socket_file := false |}.

Definition is_running (w : Marker) : Res bool * Marker :=
  match pid_file w with
  | None => (Ret false, w)
  | Some text =>
      match py_int (strip text) with
      | None => (Ret false, _cleanup_stale w)
      | Some pid =>
          match os_kill0 pid with
          | KillOk => (Ret true, w)
          | KillNoProcess => (Ret false, _cleanup_stale w)
          | KillOther e => (Raise e, w)
          end
      end
  end.

Definition get_pid (w : Marker) : Res (option Z) :=
  match pid_file w with
  | None => Ret None
  | Some text =>
      match py_int (strip text) with
      | Some pid => Ret (Some pid)
      | None =>
          Raise (mkExn ValueError
                   ("invalid literal for int() with base 10: '"
                      ++ strip text ++ "'")%string)
      end
  end.

Definition _write_pid (pid : Z) (w : Marker) : Marker :=
  {| pid_file := Some (str_of_int pid); socket_file := socket_file w |}.

Definition _cleanup (proc : AgentProc) (o : Overseer) (w : Marker)
  : Res unit * Marker * list AgentSignal :=
  let stop_agent : Res unit * list AgentSignal :=
    if active_agent o then
      match ap_poll proc with
      | None =>
          match ap_wait proc with
          | Ret _ => (Ret tt, [AgentTerminate])
          | Raise e =>
              if is_class TimeoutExpired e
              then (Ret tt, [AgentTerminate; AgentKill])
              else (Raise e, [AgentTerminate])
          end
      | Some _ => (Ret tt, [])
      end
    else (Ret tt, []) in
  match stop_agent with
  | (Ret _, signals) =>
      (Ret tt, {| pid_file := None; socket_file := false |}, signals)
  | (Raise e, signals) => (Raise e, w, signals)
  end.

Definition send_event (conn : Connection) (w : Marker)
  : Res (option string) * Marker :=
  match is_running w with
  | (Raise e, w') => (Raise e, w')
  | (Ret false, w') => (Ret None, w')
  | (Ret true, w') =>
      match conn with
      | ConnRefused => (Ret None, w')
      | ConnFailed e => (Raise e, w')
      | ConnAnswered response =>
          match decode response with
          | Ret text => (Ret (Some text), w')
          | Raise e => (Raise e, w')
          end
      end
  end.

End Singleton.

(** An [OsRuntime] for concrete runs: [int] of a plain run of decimal
    digits, and a process table in which only process 4242 lives. *)
Module SampleOs.

Definition digit_of (c : ascii) : option Z :=
  let n := nat_of_ascii c in
  if ((48 <=? n) && (n <=? 57))%nat then Some (Z.of_nat n - 48) else None.

Fixpoint digits (s : string) (acc : Z) : option Z :=
  match s with
  | EmptyString => Some acc
  | String c r =>
      match digit_of c with
      | Some d => digits r (10 * acc + d)
      | None => None
      end
  end.

Definition int_of (s : string) : option Z :=
  match s with
  | EmptyString => None
  | _ => digits s 0
  end.

Definition runtime : OsRuntime :=
  {| py_int := int_of;
     os_kill0 := fun pid => if pid =? 4242 then KillOk else KillNoProcess |}.

Definition live : Marker := {| pid_file := Some "4242"; socket_file := true |}.
Definition stale : Marker := {| pid_file := Some "17"; socket_file := true |}.
Definition garbled : Marker :=
  {| pid_file := Some "not a pid"; socket_file := true |}.


(** A transcript before and after two lines were appended to it. *)
Definition first_lines : list string :=
  [Sample.json_dumps (human_entry "hi")].

Definition more_lines : list string :=
  ["not json";
   Sample.json_dumps (assistant_entry (JArr [text_item "hello"]))].

Definition disk_before (p : Path) : FsEntry := Regular first_lines.
Definition disk_after (p : Path) : FsEntry :=
  Regular (first_lines ++ more_lines).

(** A configuration file that sets the mode and one threshold. *)
Definition config_object : list (string * json) :=
  [("trigger_mode", JStr "prompts"); ("prompt_threshold", JInt 3)].

Definition config_text : string := Sample.json_dumps (JObj config_object).

(** [Sample.runtime] with a [json.loads] that also knows [config_text]. *)
Definition config_runtime : PyRuntime :=
  {| decode := @decode Sample.runtime;
     json_loads := fun text =>
       if String.eqb text config_text then Ret (JObj config_object)
       else Sample.loads text;
     encode := @encode Sample.runtime;
     py_repr := @py_repr Sample.runtime |}.

End SampleOs.

(* ================================================================= *)
(** ** The configuration file

    [Overseer._load_config] and the [config] subcommand of [cli.py] work
    on the configuration as a [dict]; the record [Config] above is such a
    [dict] whose four values have the types the defaults have. *)

(** [d[k] = v] *)
Fixpoint dict_set (d : list (string * json)) (k : string) (v : json)
  : list (string * json) :=
  match d with
  | [] => [(k, v)]
  | (k', v') :: d' =>
      if String.eqb k' k then (k', v) :: d' else (k', v') :: dict_set d' k v
  end.

(** [{**a, **b}] *)
Definition dict_merge (a b : list (string * json)) : list (string * json) :=
  fold_left (fun d kv => dict_set d (fst kv) (snd kv)) b a.

Definition DEFAULT_CONFIG_dict : list (string * json) :=
  [ ("trigger_mode", JStr "tokens");
    ("token_threshold", JInt 10000);
    ("prompt_threshold", JInt 5);
    ("trigger_on_first_response", JBool true) ].

(** The typed reading of a configuration [dict]. *)
Definition config_of_dict (d : list (string * json)) : option Config :=
  match dict_get d "trigger_mode", dict_get d "token_threshold",
        dict_get d "prompt_threshold", dict_get d "trigger_on_first_response"
  with
  | Some (JStr mode), Some (JInt tokens), Some (JInt prompts),
    Some (JBool first) =>
      Some {| trigger_mode := mode; token_threshold := tokens;
              prompt_threshold := prompts;
              trigger_on_first_response := first |}
  | _, _, _, _ => None
  end.

Section ConfigFile.

Context {rt : PyRuntime}.

(** [_load_config], given the text of the configuration file if the
    file exists. *)
Definition _load_config (file : option string) : Res (list (string * json)) :=
  match file with
  | Some text =>
      config <~ json_loads text;;
      match config with
      | JObj d => Ret (dict_merge DEFAULT_CONFIG_dict d)
      | _ => Raise (mkExn TypeError
                      ("'" ++ type_name config
                           ++ "' object is not a mapping")%string)
      end
  | None => Ret DEFAULT_CONFIG_dict
  end.

End ConfigFile.

(** [str.lower] on the code points below 256. *)
Definition lower_char (c : ascii) : ascii :=
  let n := nat_of_ascii c in
  if ((65 <=? n) && (n <=? 90)
      || (192 <=? n) && (n <=? 222) && negb (n =? 215))%nat
  then ascii_of_nat (n + 32) else c.

Fixpoint lower (s : string) : string :=
  match s with
  | EmptyString => EmptyString
  | String c r => String (lower_char c) (lower r)
  end.

Module Cli.

(** What [config set] did: saved a configuration and printed a line,
    printed an error and saved nothing, or raised. *)
Inductive SetOutcome : Type :=
| Saved (config : list (string * json)) (printed : string)
| Rejected (printed : string)
| Raised (e : exn).

(** [str(v)] of the values [config set] stores. *)
Definition show (v : json) : string :=
  match v with
  | JStr s => s
  | JInt n => str_of_int n
  | JBool true => "True"
  | JBool false => "False"
  | _ => ""
  end.

Section Set_.

Context {os : OsRuntime}.

Definition to_int (value : string) : Res json :=
  match py_int value with
  | Some n => Ret (JInt n)
  | None =>
      Raise (mkExn ValueError
               ("invalid literal for int() with base 10: '" ++ value ++ "'")%string)
  end.

(** The [set] action of [config_cmd], on the configuration
    [load_config] returned. *)
Definition config_set (config : list (string * json)) (key value : string)
  : SetOutcome :=
  let save (v : json) :=
    Saved (dict_set config key v) ("Set " ++ key ++ " = " ++ show v)%string in
  if String.eqb key "trigger_mode" then
    if negb (String.eqb value "tokens" || String.eqb value "prompts") then
      Rejected "Error: trigger_mode must be 'tokens' or 'prompts'"
    else save (JStr value)
  else if String.eqb key "token_threshold" then
    match to_int value with Ret v => save v | Raise e => Raised e end
  else if String.eqb key "prompt_threshold" then
    match to_int value with Ret v => save v | Raise e => Raised e end
  else if String.eqb key "trigger_on_first_response" then
    let v := lower value in
    save (JBool (String.eqb v "true" || String.eqb v "1" || String.eqb v "yes"))
  else Rejected ("Error: unknown config key '" ++ key ++ "'")%string.

End Set_.

(** The hook entry [init] installs for a command. *)
Definition hook_entry (command : string) : json :=
  JArr [JObj [("hooks",
               JArr [JObj [("type", JStr "command");
                           ("command", JStr command)]])]].

(** [container[key] = value] on something that is not a [dict]. *)
Definition item_assignment_error (container : json) : exn :=
  match container with
  | JArr _ =>
      mkExn TypeError "list indices must be integers or slices, not str"
  | _ =>
      mkExn TypeError
        ("'" ++ type_name container
             ++ "' object does not support item assignment")%string
  end.

(** The body of [init] between [load_settings] and [save_settings], on
    the settings [dict] that was loaded: what is saved. *)
Definition init_settings (settings : list (string * json))
  : Res (list (string * json)) :=
  let settings :=
    match dict_get settings "hooks" with
    | None => dict_set settings "hooks" (JObj [])
    | Some _ => settings
    end in
  match dict_get settings "hooks" with
  | Some (JObj hooks) =>
      let hooks := dict_set hooks "SessionStart"
                     (hook_entry "skills daemon start") in
      let hooks := dict_set hooks "UserPromptSubmit"
                     (hook_entry "skills daemon notify") in
      let hooks := dict_set hooks "Stop" (hook_entry "skills daemon notify") in
      let hooks := dict_set hooks "SessionEnd"
                     (hook_entry "skills daemon notify") in
      Ret (dict_set settings "hooks" (JObj hooks))
  | Some other => Raise (item_assignment_error other)
  | None => Raise (item_assignment_error JNull)
  end.

End Cli.

(* ================================================================= *)
(** ** The worker's view of the transcript window ([agent.py]) *)

Module Agent.

Section Format.

Context {rt : PyRuntime}.

(** [content[:500]] inside an f-string. *)
Definition head500 (content : json) : Res string :=
  match content with
  | JStr s => Ret (substring 0 500 s)
  | JArr items => Ret (py_repr (JArr (firstn 500 items)))
  | JObj _ => Raise (mkExn TypeError "unhashable type: 'slice'")
  | _ => Raise (mkExn TypeError
                  ("'" ++ type_name content
                       ++ "' object is not subscriptable")%string)
  end.

(** The list comprehension over the elements of an assistant content. *)
Fixpoint text_parts (items : list json) : Res (list json) :=
  match items with
  | [] => Ret []
  | c :: rest =>
      ty <~ py_get c "type" JNull;;
      if json_eq_str ty "text" then
        text <~ py_get c "text" (JStr "");;
        parts <~ text_parts rest;;
        Ret (text :: parts)
      else text_parts rest
  end.

(** [" ".join(parts)]: every part has to be a [str]. *)
Fixpoint join_space (parts : list json) (index : Z) : Res string :=
  match parts with
  | [] => Ret ""
  | JStr s :: rest =>
      tail <~ join_space rest (index + 1);;
      Ret (match rest with [] => s | _ => s ++ " " ++ tail end)%string
  | v :: _ =>
      Raise (mkExn TypeError
               ("sequence item " ++ str_of_int index
                  ++ ": expected str instance, " ++ type_name v ++ " found")%string)
  end.

(** The line of one entry, if it gives one. *)
Definition format_entry (msg : json) : Res (option string) :=
  msg_type <~ py_get msg "type" (JStr "unknown");;
  if json_eq_str msg_type "human" then
    message <~ py_get msg "message" (JObj []);;
    content <~ py_get message "content" (JStr "");;
    shown <~ head500 content;;
    Ret (Some ("USER: " ++ shown)%string)
  else if json_eq_str msg_type "assistant" then
    message <~ py_get msg "message" (JObj []);;
    content <~ py_get message "content" (JArr []);;
    text <~ match content with
            | JArr items =>
                parts <~ text_parts items;;
                join_space parts 0
            | _ => Ret (py_str content)
            end;;
    Ret (Some ("ASSISTANT: " ++ substring 0 500 text)%string)
  else Ret None.

(** The loop that collects the lines. *)
Fixpoint format_lines (window : list json) (lines : list string)
  : Res (list string) :=
  match window with
  | [] => Ret lines
  | msg :: rest =>
      line <~ format_entry msg;;
      format_lines rest (match line with
                         | Some l => lines ++ [l]
                         | None => lines
                         end)
  end.

Definition blank_line : string :=
  String (ascii_of_nat 10) (String (ascii_of_nat 10) EmptyString).

Definition _format_transcript_window (window : list json) : Res string :=
  match window with
  | [] => Ret "(no conversation context)"
  | _ =>
      lines <~ format_lines window [];;
      Ret (match lines with
           | [] => "(no conversation context)"
           | _ => String.concat blank_line lines
           end)
  end.

End Format.

End Agent.

(* ================================================================= *)
(** ** Running a method step by step *)

Lemma bind_assoc {A B C : Type} (m : M A) (f : A -> M B) (g : B -> M C)
  (o : Overseer) :
  bind (bind m f) g o = bind m (fun a => bind (f a) g) o.
Proof.
  unfold bind.
  destruct (m o) as [[[a | e] o1] t1]; [| reflexivity].
  destruct (f a o1) as [[[b | e] o2] t2]; [| reflexivity].
  destruct (g b o2) as [[r o3] t3]. rewrite app_assoc. reflexivity.
Qed.

Lemma bind_ext {A B : Type} (m : M A) (f g : A -> M B) (o : Overseer) :
  (forall a o', f a o' = g a o') -> bind m f o = bind m g o.
Proof.
  intro H. unfold bind.
  destruct (m o) as [[[a | e] o1] t1]; [| reflexivity].
  rewrite H. reflexivity.
Qed.

Lemma bind_ret_l {A B : Type} (a : A) (f : A -> M B) (o : Overseer) :
  bind (ret a) f o = f a o.
Proof.
  unfold bind, ret. destruct (f a o) as [[r o2] t2]. reflexivity.
Qed.

Lemma bind_lift_ret {A B : Type} (a : A) (f : A -> M B) (o : Overseer) :
  bind (lift (Ret a)) f o = f a o.
Proof.
  unfold bind, lift. destruct (f a o) as [[r o2] t2]. reflexivity.
Qed.

Lemma bind_lift_raise {A B : Type} (e : exn) (f : A -> M B) (o : Overseer) :
  bind (lift (Raise e)) f o = (Raise e, o, []).
Proof. reflexivity. Qed.

Lemma bind_modify {B : Type} (g : Overseer -> Overseer) (f : unit -> M B)
  (o : Overseer) :
  bind (modify g) f o = f tt (g o).
Proof.
  unfold bind, modify. destruct (f tt (g o)) as [[r o2] t2]. reflexivity.
Qed.

Lemma bind_get {B : Type} (f : Overseer -> M B) (o : Overseer) :
  bind get f o = f o o.
Proof.
  unfold bind, get. destruct (f o o) as [[r o2] t2]. reflexivity.
Qed.

Lemma bind_run {A B : Type} (m : M A) (f : A -> M B) (o o1 : Overseer)
  (r : Res A) (t1 : list Effect) :
  m o = (r, o1, t1) ->
  bind m f o =
  match r with
  | Ret a => match f a o1 with (r2, o2, t2) => (r2, o2, t1 ++ t2) end
  | Raise e => (Raise e, o1, t1)
  end.
Proof. intro H. unfold bind. rewrite H. destruct r; reflexivity. Qed.

(** A run of [bind m f] that returns went through a run of [m] that
    returned. *)
Lemma bind_ret_inv {A B : Type} (m : M A) (f : A -> M B) (o o2 : Overseer)
  (b : B) (t : list Effect) :
  bind m f o = (Ret b, o2, t) ->
  exists a o1 t1 t2,
    m o = (Ret a, o1, t1) /\ f a o1 = (Ret b, o2, t2) /\ t = t1 ++ t2.
Proof.
  unfold bind.
  destruct (m o) as [[[a | e] o1] t1]; [| discriminate].
  destruct (f a o1) as [[r o2'] t2] eqn:Hf. intro H.
  inversion H; subst. exists a, o1, t1, t2. auto.
Qed.

Section Emits.

Variable P : Effect -> bool.

Lemma emits_ret {A : Type} (a : A) : emits P (ret a).
Proof. intro o. reflexivity. Qed.

Lemma emits_raise {A : Type} (e : exn) : emits P (@raise A e).
Proof. intro o. reflexivity. Qed.

Lemma emits_lift {A : Type} (r : Res A) : emits P (lift r).
Proof. intro o. reflexivity. Qed.

Lemma emits_get : emits P get.
Proof. intro o. reflexivity. Qed.

Lemma emits_modify (f : Overseer -> Overseer) : emits P (modify f).
Proof. intro o. reflexivity. Qed.

Lemma emits_emit (e : Effect) : P e = true -> emits P (emit e).
Proof. intros H o. simpl. rewrite H. reflexivity. Qed.

Lemma emits_log (m : LogMsg) : P (Log m) = true -> emits P (_log m).
Proof. apply emits_emit. Qed.

Lemma emits_bind {A B : Type} (m : M A) (f : A -> M B) :
  emits P m -> (forall a, emits P (f a)) -> emits P (bind m f).
Proof.
  intros Hm Hf o. specialize (Hm o). unfold emits, trace_of, bind in *.
  destruct (m o) as [[[a | e] o1] t1]; simpl in *; [| exact Hm].
  specialize (Hf a o1).
  destruct (f a o1) as [[r o2] t2]. simpl in *.
  rewrite forallb_app, Hm, Hf. reflexivity.
Qed.

Lemma emits_try_except {A : Type} (body : M A) (handler : exn -> M A) :
  emits P body -> (forall e, emits P (handler e)) ->
  emits P (try_except body handler).
Proof.
  intros Hm Hf o. specialize (Hm o). unfold emits, trace_of, try_except in *.
  destruct (body o) as [[[a | e] o1] t1]; simpl in *; [exact Hm |].
  specialize (Hf e o1).
  destruct (handler e o1) as [[r o2] t2]. simpl in *.
  rewrite forallb_app, Hm, Hf. reflexivity.
Qed.

Lemma emits_try_finally {A : Type} (body : M A) (final : M unit) :
  emits P body -> emits P final -> emits P (try_finally body final).
Proof.
  intros Hm Hf o. specialize (Hm o). unfold emits, trace_of, try_finally in *.
  destruct (body o) as [[r o1] t1]; simpl in *.
  specialize (Hf o1).
  destruct (final o1) as [[r2 o2] t2]. simpl in *.
  rewrite forallb_app, Hm, Hf. reflexivity.
Qed.

End Emits.

Ltac emits_step :=
  first
    [ apply emits_ret
    | apply emits_raise
    | apply emits_lift
    | apply emits_get
    | apply emits_modify
    | apply emits_log; reflexivity
    | apply emits_emit; reflexivity
    | apply emits_bind; [| intros]
    | apply emits_try_except; [| intros]
    | apply emits_try_finally
    | match goal with
      | |- emits _ (if ?b then _ else _) => destruct b
      | |- emits _ (match ?x with _ => _ end) => destruct x
      end ].

Ltac emits_auto := cbv zeta; repeat emits_step.

(* ================================================================= *)
(** ** Frame conditions, compositionally *)

Section Frames.

Variable R : Overseer -> Overseer -> Prop.
Hypothesis R_refl : forall o, R o o.
Hypothesis R_trans : forall a b c, R a b -> R b c -> R a c.

Lemma respects_ret {A : Type} (a : A) : respects R (ret a).
Proof. intro o. apply R_refl. Qed.

Lemma respects_raise {A : Type} (e : exn) : respects R (@raise A e).
Proof. intro o. apply R_refl. Qed.

Lemma respects_lift {A : Type} (r : Res A) : respects R (lift r).
Proof. intro o. apply R_refl. Qed.

Lemma respects_get : respects R get.
Proof. intro o. apply R_refl. Qed.

Lemma respects_emit (e : Effect) : respects R (emit e).
Proof. intro o. apply R_refl. Qed.

Lemma respects_log (m : LogMsg) : respects R (_log m).
Proof. intro o. apply R_refl. Qed.

Lemma respects_modify (f : Overseer -> Overseer) :
  (forall o, R o (f o)) -> respects R (modify f).
Proof. intros H o. apply H. Qed.

Lemma respects_bind {A B : Type} (m : M A) (f : A -> M B) :
  respects R m -> (forall a, respects R (f a)) -> respects R (bind m f).
Proof.
  intros Hm Hf o. unfold state_of, bind.
  specialize (Hm o). unfold respects, state_of in Hm, Hf.
  destruct (m o) as [[r o1] t1]. simpl in Hm.
  destruct r as [a | e]; simpl; auto.
  specialize (Hf a o1). unfold state_of in Hf.
  destruct (f a o1) as [[r2 o2] t2]. simpl in *. eauto.
Qed.

Lemma respects_try_except {A : Type} (body : M A) (handler : exn -> M A) :
  respects R body -> (forall e, respects R (handler e)) ->
  respects R (try_except body handler).
Proof.
  intros Hm Hf o. unfold state_of, try_except.
  specialize (Hm o). unfold state_of in Hm.
  destruct (body o) as [[r o1] t1]. simpl in Hm.
  destruct r as [a | e]; simpl; auto.
  specialize (Hf e o1). unfold state_of in Hf.
  destruct (handler e o1) as [[r2 o2] t2]. simpl in *. eauto.
Qed.

Lemma respects_try_finally {A : Type} (body : M A) (final : M unit) :
  respects R body -> respects R final -> respects R (try_finally body final).
Proof.
  intros Hm Hf o. unfold state_of, try_finally.
  specialize (Hm o). unfold state_of in Hm.
  destruct (body o) as [[r o1] t1]. simpl in Hm.
  specialize (Hf o1). unfold state_of in Hf.
  destruct (final o1) as [[r2 o2] t2]. simpl in *. eauto.
Qed.

End Frames.

Ltac frame_side :=
  lazymatch goal with
  | |- respects _ _ => fail
  | |- _ =>
      solve [ assumption
            | intros; match goal with H : forall _, _ |- _ => apply H end
            | intros; unfold keeps, grows in *; simpl;
              first [ reflexivity | congruence | lia ] ]
  end.

Ltac respects_step :=
  first
    [ apply respects_ret; frame_side
    | apply respects_raise; frame_side
    | apply respects_lift; frame_side
    | apply respects_get; frame_side
    | apply respects_emit; frame_side
    | apply respects_log; frame_side
    | apply respects_modify; frame_side
    | apply respects_bind; try frame_side; intros
    | apply respects_try_except; try frame_side; intros
    | apply respects_try_finally; try frame_side
    | match goal with
      | |- respects _ (if ?b then _ else _) => destruct b
      | |- respects _ (match ?x with _ => _ end) => destruct x
      end ].

Ltac respects_auto := cbv zeta; repeat respects_step.

(* ================================================================= *)
(** ** Reading the transcript *)

Section Facts.

Context {rt : PyRuntime}.

Lemma read_transcript_state (fs : Path -> FsEntry) (o : Overseer) :
  state_of (_read_transcript fs o) = o.
Proof.
  unfold _read_transcript, bind, get, state_of.
  destruct (transcript_path o) as [p |]; [destruct (fs p) |]; reflexivity.
Qed.

(** The transcript read depends on the object through its path only. *)
Lemma read_transcript_path (fs : Path -> FsEntry) (o o' : Overseer) :
  transcript_path o = transcript_path o' ->
  result_of (_read_transcript fs o') = result_of (_read_transcript fs o).
Proof.
  intro H. unfold _read_transcript, bind, get, result_of. simpl. rewrite H.
  destruct (transcript_path o') as [p |]; [destruct (fs p) |]; reflexivity.
Qed.

Lemma read_lines_app (pre post : list string) (acc : list json) :
  read_lines (pre ++ post) acc =
  match read_lines pre acc with
  | Ret acc' => read_lines post acc'
  | Raise e => Raise e
  end.
Proof.
  revert acc. induction pre as [| line pre IH]; intro acc; simpl.
  - reflexivity.
  - destruct (nonempty (strip line)); [| apply IH].
    destruct (json_loads (strip line)) as [v | e]; [apply IH |].
    destruct (is_class JSONDecodeError e); [apply IH | reflexivity].
Qed.


(** The equation of [_calculate_new_tokens]. *)
Lemma calculate_new_tokens_run (fs : Path -> FsEntry) (o : Overseer) :
  _calculate_new_tokens fs o =
  match _read_transcript fs o with
  | (Raise e, _, t) => (Raise e, o, t)
  | (Ret messages, _, t) =>
      if len messages <=? last_transcript_length o then
        (Ret 0, o,
         t ++ [Log (LogNoNewMsgs (len messages) (last_transcript_length o))])
      else
        (sum_message_tokens (slice_from (last_transcript_length o) messages) 0,
         set_last_transcript_length (len messages) o,
         t ++ [Log (LogNewMsgs
                      (len (slice_from (last_transcript_length o) messages))
                      (len messages))])
  end.
Proof.
  unfold _calculate_new_tokens, bind at 1.
  pose proof (read_transcript_state fs o) as Hst. unfold state_of in Hst.
  destruct (_read_transcript fs o) as [[r o1] t]. simpl in Hst. subst o1.
  destruct r as [messages | e]; [| reflexivity].
  unfold bind, get, _log, emit, modify, lift, ret. simpl.
  destruct (len messages <=? last_transcript_length o); simpl.
  - reflexivity.
  - destruct (sum_message_tokens _ 0); reflexivity.
Qed.

Lemma calculate_new_tokens_grows (fs : Path -> FsEntry) :
  respects (grows last_transcript_length) (_calculate_new_tokens fs).
Proof.
  intro o. unfold grows, state_of. rewrite calculate_new_tokens_run.
  destruct (_read_transcript fs o) as [[r o1] t].
  destruct r as [messages | e]; [| simpl; lia].
  destruct (len messages <=? last_transcript_length o) eqn:Hle; simpl.
  - lia.
  - apply Z.leb_gt in Hle. lia.
Qed.

(* ================================================================= *)
(** ** What each method may change *)

(** [_spawn_agent] writes [active_agent], [tokens_since_last_trigger] and
    [prompt_count] only. *)
Lemma spawn_agent_frame (R : Overseer -> Overseer -> Prop) (env : Env) :
  (forall o, R o o) ->
  (forall a b c, R a b -> R b c -> R a c) ->
  (forall o a, R o (set_active_agent a o)) ->
  (forall o n, R o (set_tokens_since_last_trigger n o)) ->
  (forall o n, R o (set_prompt_count n o)) ->
  respects R (_spawn_agent env).
Proof.
  intros Hrefl Htrans Ha Ht Hp.
  unfold _spawn_agent, _build_agent_context, _read_transcript_window,
    _read_transcript.
  respects_auto.
Qed.

Lemma should_trigger_agent_state (event_name : json) (o : Overseer) :
  state_of (_should_trigger_agent event_name o) = o.
Proof.
  unfold _should_trigger_agent, bind, emit, get, _log, ret, state_of. simpl.
  repeat match goal with
         | |- context [if ?b then _ else _] => destruct b; simpl
         end; reflexivity.
Qed.

Lemma process_event_grows (env : Env) (event : json) :
  respects (grows last_transcript_length) (_process_event env event).
Proof.
  unfold _process_event, _should_trigger_agent.
  cbv zeta.
  repeat first [ apply calculate_new_tokens_grows
               | apply spawn_agent_frame; frame_side
               | respects_step ].
Qed.

Lemma handle_client_grows (env : Env) (data : bytes) (o : Overseer) :
  last_transcript_length o
  <= last_transcript_length (snd (fst (_handle_client env data o))).
Proof.
  unfold _handle_client.
  destruct (decode data) as [message | e]; [| simpl; lia].
  assert (H : respects (grows last_transcript_length)
                (handle_message env message)).
  { unfold handle_message. apply respects_bind; try frame_side.
    - apply respects_lift; frame_side.
    - intro event. apply process_event_grows. }
  specialize (H o). unfold grows, state_of in H.
  destruct (handle_message env message o) as [[r o1] t].
  destruct r; simpl in *; exact H.
Qed.

Lemma serve_one_before (c : Env * bytes) (o : Overseer) :
  sv_before (serve_one c o) = o.
Proof.
  unfold serve_one.
  destruct (_handle_client (fst c) (snd c) o) as [[r o1] t]. reflexivity.
Qed.

Lemma serve_one_after (c : Env * bytes) (o : Overseer) :
  sv_after (serve_one c o) = snd (fst (_handle_client (fst c) (snd c) o)).
Proof.
  unfold serve_one.
  destruct (_handle_client (fst c) (snd c) o) as [[r o1] t]. reflexivity.
Qed.

Lemma serve_grows (conns : list (Env * bytes)) (o : Overseer) :
  Forall (fun r => last_transcript_length (sv_before r)
                   <= last_transcript_length (sv_after r))
         (serve conns o)
  /\ last_transcript_length o
     <= last_transcript_length (final_state o (serve conns o)).
Proof.
  revert o. induction conns as [| c rest IH]; intro o.
  - split; [constructor | unfold final_state; simpl; lia].
  - assert (Hstep : last_transcript_length o
                    <= last_transcript_length (sv_after (serve_one c o))).
    { rewrite serve_one_after. apply handle_client_grows. }
    destruct (IH (sv_after (serve_one c o))) as [IH1 IH2].
    split.
    + simpl. constructor; [| exact IH1].
      rewrite serve_one_before. exact Hstep.
    + unfold final_state in *. simpl. lia.
Qed.

Lemma plain_trace (t : list Effect) :
  forallb plain t = true ->
  dispatched t = false /\ consulted t = false
  /\ first_response_fired t = false /\ dispatch_count t = 0%nat.
Proof.
  unfold dispatched, consulted, first_response_fired, dispatch_count.
  induction t as [| e t IH]; simpl; [auto |].
  intro H. apply andb_prop in H. destruct H as [He Ht].
  destruct (IH Ht) as (H1 & H2 & H3 & H4).
  unfold plain in He.
  destruct (is_popen e), (is_policy_call e), (is_first_response_log e);
    simpl in *; try discriminate; auto.
Qed.

Lemma read_transcript_plain (fs : Path -> FsEntry) :
  emits plain (_read_transcript fs).
Proof. unfold _read_transcript. emits_auto. Qed.

Lemma calculate_new_tokens_plain (fs : Path -> FsEntry) :
  emits plain (_calculate_new_tokens fs).
Proof.
  unfold _calculate_new_tokens.
  repeat first [ apply read_transcript_plain | emits_step ].
Qed.

(** [_calculate_new_tokens] writes the watermark only. *)
Lemma calculate_new_tokens_frame (R : Overseer -> Overseer -> Prop)
  (fs : Path -> FsEntry) :
  (forall o, R o o) ->
  (forall o n, R o (set_last_transcript_length n o)) ->
  respects R (_calculate_new_tokens fs).
Proof.
  intros Hrefl Hset o. unfold state_of. rewrite calculate_new_tokens_run.
  destruct (_read_transcript fs o) as [[[messages | e] o1] t]; simpl; auto.
  destruct (len messages <=? last_transcript_length o); simpl; auto.
Qed.

(** A successful [_calculate_new_tokens] has read the transcript, and the
    object it leaves reads the same transcript. *)
Lemma calculate_new_tokens_readable (fs : Path -> FsEntry) (o o1 : Overseer)
  (n : Z) (t : list Effect) :
  _calculate_new_tokens fs o = (Ret n, o1, t) ->
  transcript_path o1 = transcript_path o
  /\ exists messages, result_of (_read_transcript fs o) = Ret messages.
Proof.
  rewrite calculate_new_tokens_run. unfold result_of.
  destruct (_read_transcript fs o) as [[[messages | e] o'] t']; simpl;
    [| discriminate].
  destruct (len messages <=? last_transcript_length o); intro H;
    inversion H; subst; simpl; eauto.
Qed.

(** [_spawn_agent] raises only what reading the transcript window raises;
    otherwise it calls [Popen] once and returns. *)
Lemma spawn_agent_run (env : Env) (o : Overseer) :
  match _read_transcript (fs env) o with
  | (Raise e, _, t) => _spawn_agent env o = (Raise e, o, t)
  | (Ret _, _, t) =>
      exists r o' t',
        _spawn_agent env o = (Ret r, o', t ++ Popen :: t')
        /\ forallb plain t' = true
        /\ response_count o' = response_count o
        /\ running o' = running o
  end.
Proof.
  pose proof (read_transcript_state (fs env) o) as Hst. unfold state_of in Hst.
  destruct (_read_transcript (fs env) o) as [[[messages | e] o1] t] eqn:Hread;
    simpl in Hst; subst o1;
    unfold _spawn_agent, _build_agent_context, _read_transcript_window;
    rewrite bind_assoc, bind_get, !bind_assoc;
    rewrite (bind_run _ _ _ _ _ _ Hread); [| reflexivity].
  rewrite !bind_ret_l.
  unfold try_finally, try_except, bind, emit, lift, modify, _log, emit, get,
    ret.
  simpl.
  destruct (sp_popen (worker env)), (sp_stdin (worker env)),
    (sp_communicate (worker env)) as [out | e'];
    simpl;
    try (destruct (sp_returncode (worker env) =? 0); simpl;
         [destruct (decode (fst out)) | destruct (decode (snd out))]; simpl);
    repeat match goal with
           | |- context [if ?b then _ else _] => destruct b; simpl
           end;
    repeat eexists; simpl; rewrite ?app_nil_r; reflexivity.
Qed.

(* ================================================================= *)
(** ** The two halves of [_process_event] *)

Lemma process_event_split (env : Env) (event : json) (o : Overseer) :
  _process_event env event o
  = bind (process_event_head env event) (process_event_branch env) o.
Proof.
  unfold _process_event, process_event_head, process_event_branch.
  symmetry.
  repeat (rewrite bind_assoc; apply bind_ext; intros; cbv beta).
  rewrite bind_ret_l. reflexivity.
Qed.

(** The first half writes the three session fields, the watermark and the
    token counter only. *)
Lemma process_event_head_frame (R : Overseer -> Overseer -> Prop)
  (env : Env) (event : json) :
  (forall o, R o o) ->
  (forall a b c, R a b -> R b c -> R a c) ->
  (forall o v, R o (set_session_id v o)) ->
  (forall o p, R o (set_transcript_path p o)) ->
  (forall o p, R o (set_cwd p o)) ->
  (forall o n, R o (set_last_transcript_length n o)) ->
  (forall o n, R o (set_tokens_since_last_trigger n o)) ->
  respects R (process_event_head env event).
Proof.
  intros Hrefl Htrans Hs Hp Hc Hl Ht.
  unfold process_event_head. cbv zeta.
  repeat first [ apply calculate_new_tokens_frame; frame_side
               | respects_step ].
Qed.

Lemma process_event_head_plain (env : Env) (event : json) :
  emits plain (process_event_head env event).
Proof.
  unfold process_event_head.
  repeat first [ apply calculate_new_tokens_plain | emits_step ].
Qed.

(** When the first half returns, it returns the event name, and the
    transcript can be read from the object it leaves. *)
Lemma process_event_head_returns (env : Env) (event : json)
  (o o1 : Overseer) (event_name : json) (t : list Effect) :
  process_event_head env event o = (Ret event_name, o1, t) ->
  py_get event "hook_event_name" (JStr "") = Ret event_name
  /\ exists messages, result_of (_read_transcript (fs env) o1) = Ret messages.
Proof.
  unfold process_event_head. intro H.
  apply bind_ret_inv in H. destruct H as (name & oa & ta & ta' & Ha & H & _).
  unfold lift in Ha. inversion Ha; subst. clear Ha.
  apply bind_ret_inv in H. destruct H as (sid & ob & tb & tb' & Hb & H & _).
  clear Hb.
  apply bind_ret_inv in H. destruct H as (u1 & oc & tc & tc' & Hc & H & _).
  clear Hc.
  apply bind_ret_inv in H. destruct H as (u2 & od & td & td' & Hd & H & _).
  clear Hd.
  apply bind_ret_inv in H. destruct H as (u3 & oe & te & te' & He & H & _).
  clear He.
  apply bind_ret_inv in H. destruct H as (n & o6 & tf & tf' & Hf & H & _).
  apply calculate_new_tokens_readable in Hf.
  destruct Hf as (Hpath & messages & Hread).
  apply bind_ret_inv in H. destruct H as (u4 & og & tg & tg' & Hg & H & _).
  unfold modify in Hg. inversion Hg; subst. clear Hg.
  apply bind_ret_inv in H. destruct H as (oh & oi & th & th' & Hh & H & _).
  unfold get in Hh. inversion Hh; subst. clear Hh.
  apply bind_ret_inv in H. destruct H as (u5 & oj & tj & tj' & Hj & H & _).
  unfold _log, emit in Hj. inversion Hj; subst. clear Hj.
  unfold ret in H. inversion H; subst.
  split; [assumption |].
  exists messages. rewrite <- Hread.
  apply read_transcript_path. simpl. symmetry. exact Hpath.
Qed.

(* ================================================================= *)
(** ** The trigger policy *)

Lemma should_trigger_agent_result (event_name : json) (o : Overseer) :
  result_of (_should_trigger_agent event_name o)
  = Ret (trigger_policy event_name (response_count o) (prompt_count o)
           (tokens_since_last_trigger o) (config o)).
Proof.
  unfold _should_trigger_agent, trigger_policy, tokenThreshold_reached,
    promptThreshold_reached, bind, emit, get, _log, ret, result_of.
  simpl. rewrite <- andb_assoc.
  repeat match goal with
         | |- context [if ?b then _ else _] => destruct b; simpl
         end; reflexivity.
Qed.

(** C4: the decision of [_should_trigger_agent] is the function
    [trigger_policy] of the event name, the response count, the prompt
    count, the tokens since the last trigger and the configuration, and the
    call changes nothing in the object.  Its rules apply in order: the
    first-response rule (configured, event [Stop], response count 1) gives
    true; otherwise in tokens mode the decision is true exactly when the
    tokens since the last trigger reach the token threshold; otherwise it
    is true exactly when the prompt count reaches the prompt threshold. *)
Theorem should_trigger_agent_policy (event_name : json) (o : Overseer) :
  let decision := result_of (_should_trigger_agent event_name o) in
  let first_response :=
    trigger_on_first_response (config o) = true
    /\ json_eq_str event_name "Stop" = true
    /\ response_count o = 1 in
  decision = Ret (trigger_policy event_name (response_count o)
                    (prompt_count o) (tokens_since_last_trigger o) (config o))
  /\ state_of (_should_trigger_agent event_name o) = o
  /\ (first_response -> decision = Ret true)
  /\ (~ first_response -> trigger_mode (config o) = "tokens" ->
      (decision = Ret true
       <-> token_threshold (config o) <= tokens_since_last_trigger o)
      /\ (decision = Ret false
          <-> tokens_since_last_trigger o < token_threshold (config o)))
  /\ (~ first_response -> trigger_mode (config o) <> "tokens" ->
      (decision = Ret true
       <-> prompt_threshold (config o) <= prompt_count o)
      /\ (decision = Ret false
          <-> prompt_count o < prompt_threshold (config o))).
Proof.
  cbv zeta. rewrite should_trigger_agent_result.
  split; [reflexivity |].
  split; [apply should_trigger_agent_state |].
  unfold trigger_policy, tokenThreshold_reached, promptThreshold_reached.
  split; [| split].
  - intros (H1 & H2 & H3). rewrite H1, H2, H3. reflexivity.
  - intros Hno Hmode.
    destruct (trigger_on_first_response (config o)
              && json_eq_str event_name "Stop"
              && (response_count o =? 1)) eqn:Hr.
    + exfalso. apply Hno.
      apply andb_prop in Hr. destruct Hr as [Hr H3].
      apply andb_prop in Hr. destruct Hr as [H1 H2].
      apply Z.eqb_eq in H3. auto.
    + apply String.eqb_eq in Hmode. rewrite Hmode.
      destruct (token_threshold (config o) <=? tokens_since_last_trigger o)
        eqn:Hle.
      * apply Z.leb_le in Hle.
        repeat split; intro; try reflexivity; try lia; try discriminate.
      * apply Z.leb_gt in Hle.
        repeat split; intro; try reflexivity; try lia; try discriminate.
  - intros Hno Hmode.
    destruct (trigger_on_first_response (config o)
              && json_eq_str event_name "Stop"
              && (response_count o =? 1)) eqn:Hr.
    + exfalso. apply Hno.
      apply andb_prop in Hr. destruct Hr as [Hr H3].
      apply andb_prop in Hr. destruct Hr as [H1 H2].
      apply Z.eqb_eq in H3. auto.
    + apply String.eqb_neq in Hmode. rewrite Hmode.
      destruct (prompt_threshold (config o) <=? prompt_count o) eqn:Hle.
      * apply Z.leb_le in Hle.
        repeat split; intro; try reflexivity; try lia; try discriminate.
      * apply Z.leb_gt in Hle.
        repeat split; intro; try reflexivity; try lia; try discriminate.
Qed.

(* ================================================================= *)
(** ** The transcript reader *)


Lemma slice_from_suffix {A : Type} (i : Z) (l : list A) :
  exists pre, l = pre ++ slice_from i l.
Proof.
  unfold slice_from.
  destruct (i <? 0);
    match goal with
    | |- context [skipn ?n l] => exists (firstn n l)
    end; symmetry; apply firstn_skipn.
Qed.

(** For a positive window size the windowed read is a suffix of the
    transcript of at most that many entries. *)
Lemma read_transcript_window_positive (fs : Path -> FsEntry) (n : Z)
  (o : Overseer) (messages : list json) :
  0 < n ->
  result_of (_read_transcript fs o) = Ret messages ->
  exists window,
    result_of (_read_transcript_window fs n o) = Ret window
    /\ len window <= n
    /\ exists pre, messages = pre ++ window.
Proof.
  intros Hn Hread. exists (slice_from (- n) messages).
  split; [| split].
  - unfold _read_transcript_window, bind, ret, result_of in *.
    destruct (_read_transcript fs o) as [[r o1] t]. simpl in *.
    rewrite Hread. reflexivity.
  - unfold slice_from, len.
    replace (- n <? 0) with true by (symmetry; apply Z.ltb_lt; lia).
    rewrite length_skipn. unfold len. lia.
  - apply slice_from_suffix.
Qed.

Lemma read_transcript_window_zero (fs : Path -> FsEntry) (o : Overseer) :
  result_of (_read_transcript_window fs 0 o)
  = result_of (_read_transcript fs o).
Proof.
  unfold _read_transcript_window, bind, ret, result_of.
  destruct (_read_transcript fs o) as [[r o1] t]. simpl.
  destruct r; reflexivity.
Qed.

(* ================================================================= *)
(** ** The watermark *)

(** C6: when the transcript is no longer than the watermark,
    [_calculate_new_tokens] returns 0 and leaves the object, hence the
    watermark, as it was; when it is longer, the watermark becomes the
    transcript length, whether or not the token count that follows raises;
    over any run of the server the watermark never decreases, connection
    by connection and from start to end; and a call made right after
    another with the same transcript returns 0 and changes nothing, so
    with no new entries both calls return 0. *)
Theorem watermark_never_decreases :
  (forall fs o messages,
      result_of (_read_transcript fs o) = Ret messages ->
      len messages <= last_transcript_length o ->
      result_of (_calculate_new_tokens fs o) = Ret 0
      /\ state_of (_calculate_new_tokens fs o) = o)
  /\ (forall fs o messages,
         result_of (_read_transcript fs o) = Ret messages ->
         last_transcript_length o < len messages ->
         last_transcript_length (state_of (_calculate_new_tokens fs o))
         = len messages)
  /\ (forall fs o,
         last_transcript_length o
         <= last_transcript_length (state_of (_calculate_new_tokens fs o)))
  /\ (forall conns o,
         Forall (fun r => last_transcript_length (sv_before r)
                          <= last_transcript_length (sv_after r))
                (serve conns o)
         /\ last_transcript_length o
            <= last_transcript_length (final_state o (serve conns o)))
  /\ (forall fs o messages,
         result_of (_read_transcript fs o) = Ret messages ->
         let first := _calculate_new_tokens fs o in
         let second := _calculate_new_tokens fs (state_of first) in
         result_of second = Ret 0 /\ state_of second = state_of first)
  /\ (forall fs o messages,
         result_of (_read_transcript fs o) = Ret messages ->
         len messages <= last_transcript_length o ->
         let first := _calculate_new_tokens fs o in
         let second := _calculate_new_tokens fs (state_of first) in
         result_of first = Ret 0 /\ result_of second = Ret 0
         /\ last_transcript_length (state_of second)
            = last_transcript_length o).
Proof.
  assert (A : forall fs o messages,
             result_of (_read_transcript fs o) = Ret messages ->
             len messages <= last_transcript_length o ->
             result_of (_calculate_new_tokens fs o) = Ret 0
             /\ state_of (_calculate_new_tokens fs o) = o).
  { intros fs o messages Hread Hle.
    rewrite calculate_new_tokens_run. unfold result_of, state_of in *.
    destruct (_read_transcript fs o) as [[r o1] t]. simpl in Hread. subst r.
    apply Z.leb_le in Hle. rewrite Hle. split; reflexivity. }
  assert (B : forall fs o messages,
             result_of (_read_transcript fs o) = Ret messages ->
             last_transcript_length o < len messages ->
             last_transcript_length (state_of (_calculate_new_tokens fs o))
             = len messages).
  { intros fs o messages Hread Hlt.
    rewrite calculate_new_tokens_run. unfold result_of, state_of in *.
    destruct (_read_transcript fs o) as [[r o1] t]. simpl in Hread. subst r.
    apply Z.leb_gt in Hlt. rewrite Hlt. reflexivity. }
  assert (E : forall fs o messages,
             result_of (_read_transcript fs o) = Ret messages ->
             let first := _calculate_new_tokens fs o in
             let second := _calculate_new_tokens fs (state_of first) in
             result_of second = Ret 0 /\ state_of second = state_of first).
  { intros fs o messages Hread. cbv zeta.
    destruct (Z_le_gt_dec (len messages) (last_transcript_length o))
      as [Hle | Hgt].
    - destruct (A fs o messages Hread Hle) as [_ Hst]. rewrite Hst.
      apply (A fs o messages Hread Hle).
    - assert (Hlt : last_transcript_length o < len messages) by lia.
      pose proof (B fs o messages Hread Hlt) as Hw.
      apply (A fs _ messages).
      + rewrite <- Hread. apply read_transcript_path.
        rewrite calculate_new_tokens_run. unfold result_of, state_of in *.
        destruct (_read_transcript fs o) as [[r o1] t]. simpl in Hread.
        subst r. apply Z.leb_gt in Hlt. rewrite Hlt. reflexivity.
      + rewrite Hw. lia. }
  split; [exact A |]. split; [exact B |].
  split; [intros fs o; apply (calculate_new_tokens_grows fs o) |].
  split; [intros conns o; apply serve_grows |].
  split; [exact E |].
  intros fs o messages Hread Hle. cbv zeta.
  destruct (A fs o messages Hread Hle) as [Hres Hst].
  split; [exact Hres |]. rewrite Hst. split; [exact Hres |].
  rewrite Hst. reflexivity.
Qed.

(* ================================================================= *)
(** ** What each event does *)

Lemma json_eq_str_true (v : json) (s : string) :
  json_eq_str v s = true -> v = JStr s.
Proof.
  destruct v; simpl; try discriminate.
  intro H. apply String.eqb_eq in H. subst. reflexivity.
Qed.

Lemma popen_trace (t t' : list Effect) :
  forallb plain t = true -> forallb plain t' = true ->
  dispatch_count (t ++ Popen :: t') = 1%nat
  /\ dispatched (t ++ Popen :: t') = true
  /\ consulted (t ++ Popen :: t') = false
  /\ first_response_fired (t ++ Popen :: t') = false.
Proof.
  intros Ht Ht'.
  destruct (plain_trace t Ht) as (H1 & H2 & H3 & H4).
  destruct (plain_trace t' Ht') as (H1' & H2' & H3' & H4').
  unfold dispatch_count, dispatched, consulted, first_response_fired in *.
  rewrite filter_app, length_app, !existsb_app. simpl.
  rewrite ?H1, ?H2, ?H3, ?H4, ?H1', ?H2', ?H3', ?H4'.
  rewrite ?orb_true_r. auto.
Qed.

(** The trace of [_should_trigger_agent]: the call itself, then the log
    line of the rule that fired, if one did. *)
Lemma should_trigger_agent_run (event_name : json) (o : Overseer) :
  exists logs,
    _should_trigger_agent event_name o
    = (Ret (trigger_policy event_name (response_count o) (prompt_count o)
              (tokens_since_last_trigger o) (config o)),
       o, PolicyCall event_name :: logs)
    /\ dispatched logs = false
    /\ dispatch_count logs = 0%nat
    /\ first_response_fired logs
       = trigger_on_first_response (config o)
         && json_eq_str event_name "Stop" && (response_count o =? 1)
    /\ (first_response_fired logs = true ->
        trigger_policy event_name (response_count o) (prompt_count o)
          (tokens_since_last_trigger o) (config o) = true).
Proof.
  unfold _should_trigger_agent, trigger_policy, tokenThreshold_reached,
    promptThreshold_reached, bind, emit, get, _log, emit, ret.
  simpl. rewrite <- andb_assoc.
  destruct (trigger_on_first_response (config o)
            && (json_eq_str event_name "Stop" && (response_count o =? 1)));
    simpl.
  - eexists. split; [reflexivity |]. simpl. auto.
  - destruct (String.eqb (trigger_mode (config o)) "tokens"); simpl.
    + destruct (token_threshold (config o) <=? tokens_since_last_trigger o);
        simpl; eexists; (split; [reflexivity |]); simpl;
        repeat split; auto; discriminate.
    + destruct (prompt_threshold (config o) <=? prompt_count o);
        simpl; eexists; (split; [reflexivity |]); simpl;
        repeat split; auto; discriminate.
Qed.

(** [SessionEnd]: the worker is dispatched once, the policy is not
    consulted, and the daemon is told to stop. *)
Lemma branch_session_end (env : Env) (event_name : json) (o1 : Overseer)
  (messages : list json) :
  json_eq_str event_name "SessionEnd" = true ->
  result_of (_read_transcript (fs env) o1) = Ret messages ->
  exists o2 t2,
    process_event_branch env event_name o1 = (Ret tt, o2, t2)
    /\ dispatch_count t2 = 1%nat /\ dispatched t2 = true
    /\ consulted t2 = false /\ first_response_fired t2 = false
    /\ running o2 = false
    /\ response_count o2 = response_count o1.
Proof.
  intros Hname Hread. unfold process_event_branch. rewrite Hname.
  pose proof (spawn_agent_run env o1) as Hspawn.
  pose proof (read_transcript_plain (fs env) o1) as Hplain.
  unfold result_of, trace_of in *.
  destruct (_read_transcript (fs env) o1) as [[r o'] t]. simpl in *. subst r.
  destruct Hspawn as (r & o2 & t' & Hrun & Hplain' & Hrc & Hrun').
  rewrite (bind_run _ _ _ _ _ _ Hrun). unfold modify.
  eexists. eexists. split; [reflexivity |]. rewrite app_nil_r.
  destruct (popen_trace t t' Hplain Hplain') as (H1 & H2 & H3 & H4).
  simpl. auto 10.
Qed.

(** [Stop]: the response count goes up by one, the policy is consulted on
    the new counters, and the worker is dispatched exactly when it says
    so. *)
Lemma branch_stop (env : Env) (event_name : json) (o1 : Overseer)
  (messages : list json) :
  json_eq_str event_name "Stop" = true ->
  result_of (_read_transcript (fs env) o1) = Ret messages ->
  exists o2 t2,
    process_event_branch env event_name o1 = (Ret tt, o2, t2)
    /\ response_count o2 = response_count o1 + 1
    /\ running o2 = running o1
    /\ consulted t2 = true
    /\ first_response_fired t2
       = trigger_on_first_response (config o1)
         && (response_count o1 + 1 =? 1)
    /\ dispatched t2
       = trigger_policy event_name (response_count o1 + 1) (prompt_count o1)
           (tokens_since_last_trigger o1) (config o1).
Proof.
  intros Hname Hread. unfold process_event_branch.
  pose proof (json_eq_str_true _ _ Hname) as Hn. subst event_name.
  change (json_eq_str (JStr "Stop") "SessionEnd") with false.
  change (json_eq_str (JStr "Stop") "UserPromptSubmit") with false.
  change (json_eq_str (JStr "Stop") "Stop") with true.
  cbv iota. rewrite bind_modify.
  set (o1' := set_response_count (response_count o1 + 1) o1).
  destruct (should_trigger_agent_run (JStr "Stop") o1')
    as (logs & Hrun & Hd & Hdc & Hf & Hft).
  rewrite (bind_run _ _ _ _ _ _ Hrun).
  simpl response_count in *. simpl prompt_count in *.
  simpl tokens_since_last_trigger in *. simpl config in *.
  simpl json_eq_str in Hf. rewrite andb_true_r in Hf.
  destruct (trigger_policy (JStr "Stop") (response_count o1 + 1)
              (prompt_count o1) (tokens_since_last_trigger o1) (config o1))
    eqn:Hpol.
  - pose proof (spawn_agent_run env o1') as Hspawn.
    pose proof (read_transcript_plain (fs env) o1') as Hplain.
    assert (Hread' : result_of (_read_transcript (fs env) o1') = Ret messages).
    { rewrite <- Hread. apply read_transcript_path. reflexivity. }
    unfold result_of, trace_of in *.
    destruct (_read_transcript (fs env) o1') as [[r o'] t]. simpl in *.
    subst r.
    destruct Hspawn as (r & o2 & t' & Hrun' & Hplain' & Hrc & Hrunning).
    rewrite ?Hpol.
    rewrite (bind_run _ _ _ _ _ _ Hrun'). unfold ret.
    eexists. eexists. split; [reflexivity |].
    destruct (popen_trace t t' Hplain Hplain') as (H1 & H2 & H3 & H4).
    unfold dispatch_count, dispatched, consulted, first_response_fired in *.
    simpl. rewrite app_nil_r, !(existsb_app _ logs), H2, H4, Hf, Hd.
    rewrite Hrc, Hrunning. simpl. rewrite orb_false_r. auto.
  - simpl. rewrite ?Hpol.
    unfold ret. eexists. eexists. split; [reflexivity |].
    unfold dispatch_count, dispatched, consulted, first_response_fired in *.
    simpl. rewrite app_nil_r. rewrite Hd, Hf. auto.
Qed.

(** Any other event name: no dispatch, no policy, no response counted. *)
Lemma branch_other (env : Env) (event_name : json) (o1 : Overseer) :
  json_eq_str event_name "SessionEnd" = false ->
  json_eq_str event_name "Stop" = false ->
  exists o2,
    process_event_branch env event_name o1 = (Ret tt, o2, [])
    /\ response_count o2 = response_count o1
    /\ running o2 = running o1.
Proof.
  intros H1 H2. unfold process_event_branch. rewrite H1, H2.
  destruct (json_eq_str event_name "UserPromptSubmit");
    eexists; split; try reflexivity; simpl; auto.
Qed.

(** The two ways [_process_event] ends: its first half raised, and
    nothing was dispatched or counted; or it returned the event name and
    the branch ran on an object from which the transcript can be read. *)
Lemma process_event_cases (env : Env) (event : json) (o : Overseer) :
  (exists e o1 t1,
      _process_event env event o = (Raise e, o1, t1)
      /\ forallb plain t1 = true
      /\ response_count o1 = response_count o
      /\ running o1 = running o)
  \/ (exists event_name o1 t1 o2 t2 messages,
         py_get event "hook_event_name" (JStr "") = Ret event_name
         /\ process_event_branch env event_name o1 = (Ret tt, o2, t2)
         /\ _process_event env event o = (Ret tt, o2, t1 ++ t2)
         /\ forallb plain t1 = true
         /\ response_count o1 = response_count o
         /\ running o1 = running o
         /\ config o1 = config o
         /\ result_of (_read_transcript (fs env) o1) = Ret messages).
Proof.
  rewrite process_event_split.
  pose proof (process_event_head_plain env event o) as Hplain.
  assert (Hrc : respects (keeps response_count) (process_event_head env event))
    by (apply process_event_head_frame; frame_side).
  assert (Hrun : respects (keeps running) (process_event_head env event))
    by (apply process_event_head_frame; frame_side).
  assert (Hcfg : respects (keeps config) (process_event_head env event))
    by (apply process_event_head_frame; frame_side).
  specialize (Hrc o). specialize (Hrun o). specialize (Hcfg o).
  unfold keeps, state_of, trace_of in *.
  destruct (process_event_head env event o) as [[[event_name | e] o1] t1]
    eqn:Hhead; simpl in *.
  - right.
    destruct (process_event_head_returns _ _ _ _ _ _ Hhead)
      as (Hname & messages & Hread).
    assert (Hbranch : exists o2 t2,
               process_event_branch env event_name o1 = (Ret tt, o2, t2)).
    { destruct (json_eq_str event_name "SessionEnd") eqn:Hse.
      - destruct (branch_session_end env _ _ _ Hse Hread)
          as (o2 & t2 & H & _). eauto.
      - destruct (json_eq_str event_name "Stop") eqn:Hst.
        + destruct (branch_stop env _ _ _ Hst Hread) as (o2 & t2 & H & _).
          eauto.
        + destruct (branch_other env _ o1 Hse Hst) as (o2 & H & _). eauto. }
    destruct Hbranch as (o2 & t2 & Hbranch).
    exists event_name, o1, t1, o2, t2, messages.
    rewrite (bind_run _ _ _ _ _ _ Hhead), Hbranch. auto 10.
  - left. exists e, o1, t1.
    rewrite (bind_run _ _ _ _ _ _ Hhead). auto.
Qed.

Lemma plain_prefix (t1 t2 : list Effect) :
  forallb plain t1 = true ->
  dispatched (t1 ++ t2) = dispatched t2
  /\ consulted (t1 ++ t2) = consulted t2
  /\ first_response_fired (t1 ++ t2) = first_response_fired t2
  /\ dispatch_count (t1 ++ t2) = dispatch_count t2.
Proof.
  intro H. destruct (plain_trace t1 H) as (H1 & H2 & H3 & H4).
  unfold dispatched, consulted, first_response_fired, dispatch_count in *.
  rewrite !existsb_app, filter_app, length_app, H1, H2, H3, H4. auto.
Qed.

(** [_process_event] never writes the configuration. *)
Lemma process_event_config (env : Env) (event : json) :
  respects (keeps config) (_process_event env event).
Proof.
  unfold _process_event, _should_trigger_agent.
  cbv zeta.
  repeat first [ apply calculate_new_tokens_frame; frame_side
               | apply spawn_agent_frame; frame_side
               | respects_step ].
Qed.

(** C7, as the code has it: a [SessionEnd] event whose handling raises
    nothing dispatches the worker, exactly once, without the trigger
    policy being consulted and whatever the counters and the configuration
    are, and leaves [running] false; and whenever the trigger policy is
    consulted the event being processed is a [Stop] event. *)
Theorem session_end_dispatches (env : Env) (event : json) (o : Overseer) :
  let run := _process_event env event o in
  (forall event_name,
      py_get event "hook_event_name" (JStr "") = Ret event_name ->
      json_eq_str event_name "SessionEnd" = true ->
      result_of run = Ret tt ->
      dispatched (trace_of run) = true
      /\ dispatch_count (trace_of run) = 1%nat
      /\ consulted (trace_of run) = false
      /\ running (state_of run) = false)
  /\ (consulted (trace_of run) = true ->
      py_get event "hook_event_name" (JStr "") = Ret (JStr "Stop")).
Proof.
  cbv zeta.
  destruct (process_event_cases env event o)
    as [(e & o1 & t1 & Hrun & Hplain & _)
       | (name & o1 & t1 & o2 & t2 & messages & Hname & Hbranch & Hrun
          & Hplain & _ & _ & _ & Hread)];
    rewrite Hrun; unfold result_of, state_of, trace_of; simpl.
  - split; [intros; discriminate |].
    destruct (plain_trace t1 Hplain) as (_ & H & _).
    rewrite H. discriminate.
  - destruct (plain_prefix t1 t2 Hplain) as (Hd & Hc & _ & Hn).
    rewrite Hd, Hc, Hn. split.
    + intros event_name Hname' Hse _.
      rewrite Hname in Hname'. inversion Hname'; subst.
      destruct (branch_session_end env _ _ _ Hse Hread)
        as (o2' & t2' & Hb & H1 & H2 & H3 & _ & H5 & _).
      rewrite Hbranch in Hb. inversion Hb; subst. auto.
    + intro Hcons. rewrite Hname. f_equal.
      destruct (json_eq_str name "SessionEnd") eqn:Hse.
      * destruct (branch_session_end env _ _ _ Hse Hread)
          as (o2' & t2' & Hb & _ & _ & H3 & _).
        rewrite Hbranch in Hb. inversion Hb; subst. congruence.
      * destruct (json_eq_str name "Stop") eqn:Hst.
        -- apply json_eq_str_true. exact Hst.
        -- destruct (branch_other env _ o1 Hse Hst) as (o2' & Hb & _).
           rewrite Hbranch in Hb. inversion Hb; subst. discriminate.
Qed.

(* ================================================================= *)
(** ** The first-response rule over a run of the server *)

(** One connection: a [Stop] event answered ["ok"] counts one response
    and fires the first-response rule exactly when that rule is configured
    and the response is the first; any other connection counts nothing
    and does not fire the rule. *)
Lemma serve_one_cases (c : Env * bytes) (o : Overseer) :
  let r := serve_one c o in
  config (sv_after r) = config o
  /\ (stop_acknowledged r = true ->
      response_count (sv_after r) = response_count o + 1
      /\ first_response_fired (sv_trace r)
         = trigger_on_first_response (config o)
           && (response_count o + 1 =? 1)
      /\ (first_response_fired (sv_trace r) = true ->
          dispatched (sv_trace r) = true))
  /\ (stop_acknowledged r = false ->
      response_count (sv_after r) = response_count o
      /\ first_response_fired (sv_trace r) = false).
Proof.
  destruct c as [env data]. cbv zeta.
  unfold serve_one, stop_acknowledged, is_stop, event_name_of, _handle_client,
    handle_message.
  simpl fst. simpl snd.
  destruct (decode data) as [message | e] eqn:Hdec; simpl; rewrite ?Hdec;
    [| repeat split; auto; discriminate].
  destruct (json_loads message) as [event | e] eqn:Hloads.
  2:{ rewrite bind_lift_raise. simpl. rewrite ?Hdec, ?Hloads.
      repeat split; auto; discriminate. }
  rewrite bind_lift_ret.
  pose proof (process_event_config env event o) as Hcfg.
  unfold keeps, state_of in Hcfg.
  destruct (process_event_cases env event o)
    as [(e & o1 & t1 & Hrun & Hplain & Hrc & _)
       | (name & o1 & t1 & o2 & t2 & messages & Hname & Hbranch & Hrun
          & Hplain & Hrc & _ & Hcfg1 & Hread)];
    rewrite Hrun in *; simpl in *; rewrite ?Hdec, ?Hloads.
  - destruct (plain_trace t1 Hplain) as (_ & _ & Hf & _).
    split; [auto |]. rewrite andb_false_r.
    split; [discriminate | auto].
  - rewrite Hname, andb_true_r.
    destruct (plain_prefix t1 t2 Hplain) as (Hd & _ & Hf & _).
    rewrite Hd, Hf. split; [auto |]. split; intro Hst.
    + destruct (branch_stop env _ _ _ Hst Hread)
        as (o2' & t2' & Hb & H1 & _ & _ & H4 & H5).
      rewrite Hbranch in Hb. inversion Hb; subst.
      rewrite H1, H4, H5, Hrc, Hcfg1.
      split; [reflexivity |]. split; [reflexivity |].
      intro Hfire. unfold trigger_policy. rewrite Hst.
      apply andb_prop in Hfire. destruct Hfire as [Hfire1 Hfire2].
      rewrite Hfire1, Hfire2. reflexivity.
    + destruct (json_eq_str name "SessionEnd") eqn:Hse.
      * destruct (branch_session_end env _ _ _ Hse Hread)
          as (o2' & t2' & Hb & _ & _ & _ & H4 & _ & H6).
        rewrite Hbranch in Hb. inversion Hb; subst.
        rewrite H6, H4. auto.
      * destruct (branch_other env _ o1 Hse Hst) as (o2' & Hb & H1 & _).
        rewrite Hbranch in Hb. inversion Hb; subst.
        rewrite H1. auto.
Qed.

Lemma filter_none {A : Type} (f : A -> bool) (l : list A) :
  length (filter f l) = 0%nat <-> forallb (fun x => negb (f x)) l = true.
Proof.
  induction l as [| x l IH]; simpl; [tauto |].
  destruct (f x); simpl; [split; discriminate | exact IH].
Qed.

(** Along a run, the response count is the number of [Stop] events
    answered ["ok"] so far, and the configuration stays. *)
Lemma serve_response_count (conns : list (Env * bytes)) (o : Overseer)
  (pre post : list Served) (r : Served) :
  serve conns o = pre ++ r :: post ->
  config (sv_before r) = config o
  /\ response_count (sv_before r)
     = response_count o + Z.of_nat (length (filter stop_acknowledged pre))
  /\ exists c, r = serve_one c (sv_before r).
Proof.
  revert conns o. induction pre as [| x pre IH]; intros conns o Hrun.
  - destruct conns as [| c rest]; [discriminate |].
    simpl in Hrun. inversion Hrun; subst.
    rewrite serve_one_before. simpl.
    split; [reflexivity |]. split; [lia |]. exists c. reflexivity.
  - destruct conns as [| c rest]; [discriminate |].
    simpl in Hrun. inversion Hrun as [[Hx Hrest]].
    destruct (IH _ _ Hrest) as (Hcfg & Hrc & Hc).
    destruct (serve_one_cases c o) as (Hcfg0 & Hack & Hnack).
    cbv zeta in *. rewrite Hcfg, Hrc.
    split; [exact Hcfg0 |]. split; [| exact Hc].
    simpl. destruct (stop_acknowledged (serve_one c o)) eqn:Hs.
    + destruct (Hack eq_refl) as (H1 & _). rewrite H1. simpl length. lia.
    + destruct (Hnack eq_refl) as (H1 & _). rewrite H1. lia.
Qed.

(** C5, as the code has it: with [trigger_on_first_response] set, in any
    run of the server from a fresh daemon the first-response rule fires on
    a connection exactly when that connection is the first [Stop] event
    answered ["ok"] (the first whose handling raises nothing), hence at
    most once; when it fires the worker is dispatched, whatever the
    trigger mode, the thresholds and the counters are. *)
Theorem first_response_once (cfg : Config) (conns : list (Env * bytes))
  (pre post : list Served) (r : Served) :
  trigger_on_first_response cfg = true ->
  serve conns (set_running true (init cfg)) = pre ++ r :: post ->
  (first_response_fired (sv_trace r) = true
   <-> stop_acknowledged r = true
       /\ forallb (fun x => negb (stop_acknowledged x)) pre = true)
  /\ (first_response_fired (sv_trace r) = true ->
      dispatched (sv_trace r) = true).
Proof.
  intros Hcfg Hrun.
  destruct (serve_response_count _ _ _ _ _ Hrun) as (Hc & Hrc & c & Hr).
  simpl in Hc, Hrc.
  destruct (serve_one_cases c (sv_before r)) as (_ & Hack & Hnack).
  cbv zeta in *. rewrite <- Hr in *.
  rewrite Hc, Hcfg, Hrc in Hack. simpl in Hack.
  rewrite <- filter_none.
  destruct (stop_acknowledged r) eqn:Hs.
  - destruct (Hack eq_refl) as (_ & Hf & Hd).
    split; [| exact Hd]. rewrite Hf. split.
    + intro H. apply Z.eqb_eq in H. split; [reflexivity | lia].
    + intros [_ H]. apply Z.eqb_eq. rewrite H. reflexivity.
  - destruct (Hnack eq_refl) as (_ & Hf). rewrite Hf.
    split; [| discriminate].
    split; [discriminate | intros [H _]; discriminate].
Qed.

(* ================================================================= *)
(** ** The worker dispatch and the counters *)

(** C1: what [_spawn_agent] does to the counters.  When [communicate]
    returns, whatever the exit status, both counters are 0 afterwards.
    When [communicate] raises (the 300 second timeout or anything else),
    or when starting the worker or writing its input raised, the method
    returns [None] with both counters as they were: no reset happens. *)
Theorem spawn_agent_counters (env : Env) (o : Overseer)
  (messages : list json) :
  result_of (_read_transcript (fs env) o) = Ret messages ->
  let run := _spawn_agent env o in
  (forall out,
      sp_popen (worker env) = Ret tt -> sp_stdin (worker env) = Ret tt ->
      sp_communicate (worker env) = Ret out ->
      tokens_since_last_trigger (state_of run) = 0
      /\ prompt_count (state_of run) = 0)
  /\ (forall e,
         sp_popen (worker env) = Ret tt -> sp_stdin (worker env) = Ret tt ->
         sp_communicate (worker env) = Raise e ->
         result_of run = Ret None
         /\ tokens_since_last_trigger (state_of run)
            = tokens_since_last_trigger o
         /\ prompt_count (state_of run) = prompt_count o)
  /\ (forall e,
         sp_popen (worker env) = Raise e \/ sp_stdin (worker env) = Raise e ->
         result_of run = Ret None
         /\ tokens_since_last_trigger (state_of run)
            = tokens_since_last_trigger o
         /\ prompt_count (state_of run) = prompt_count o).
Proof.
  intro Hread. cbv zeta.
  pose proof (read_transcript_state (fs env) o) as Hst.
  unfold state_of, result_of in *.
  destruct (_read_transcript (fs env) o) as [[r o1] t] eqn:Hrun.
  simpl in Hst, Hread. subst o1 r.
  unfold _spawn_agent, _build_agent_context, _read_transcript_window.
  rewrite bind_assoc, bind_get, !bind_assoc.
  rewrite (bind_run _ _ _ _ _ _ Hrun). rewrite !bind_ret_l.
  unfold try_finally, try_except, bind, emit, lift, modify, _log, emit, get,
    ret.
  simpl.
  split; [| split].
  - intros out Hp Hs Hc. rewrite Hp, Hs, Hc. simpl.
    destruct (sp_returncode (worker env) =? 0); simpl;
      [destruct (decode (fst out)) as [text | e]
      | destruct (decode (snd out)) as [text | e]]; simpl;
      try (destruct (is_class TimeoutExpired e); simpl);
      auto.
  - intros e Hp Hs Hc. rewrite Hp, Hs, Hc. simpl.
    destruct (is_class TimeoutExpired e); simpl; auto.
  - intros e [Hp | Hs].
    + rewrite Hp. simpl.
      destruct (is_class TimeoutExpired e); simpl;
        [destruct (active_agent o); simpl |]; auto.
    + rewrite Hs. destruct (sp_popen (worker env)) as [u | e']; simpl.
      * destruct (is_class TimeoutExpired e); simpl; auto.
      * destruct (is_class TimeoutExpired e'); simpl;
          [destruct (active_agent o); simpl |]; auto.
Qed.

(* ================================================================= *)
(** ** The session fields *)

(** C2: what [_process_event] does to the three session fields on an
    event object.  [session_id] is always overwritten, with the event's
    value or with [None] when the event has no such field;
    [transcript_path] and [cwd] stay as they were when the event lacks
    them. *)
Theorem process_event_session_fields (env : Env)
  (d : list (string * json)) (o : Overseer) :
  let o' := state_of (_process_event env (JObj d) o) in
  session_id o'
  = match dict_get d "session_id" with Some v => v | None => JNull end
  /\ (dict_get d "session_id" = None -> session_id o' = JNull)
  /\ (dict_get d "transcript_path" = None ->
      transcript_path o' = transcript_path o)
  /\ (dict_get d "cwd" = None -> cwd o' = cwd o).
Proof.
  cbv zeta.
  assert (Hsid : session_id (state_of (_process_event env (JObj d) o))
                 = match dict_get d "session_id" with
                   | Some v => v
                   | None => JNull
                   end).
  { unfold _process_event. cbn [py_get].
    rewrite !bind_lift_ret, bind_modify.
    match goal with
    | |- session_id (state_of (?m ?o1)) = _ =>
        assert (H : respects (keeps session_id) m)
    end.
    { unfold _should_trigger_agent. cbv zeta.
      repeat first [ apply calculate_new_tokens_frame; frame_side
                   | apply spawn_agent_frame; frame_side
                   | respects_step ]. }
    rewrite <- H. reflexivity. }
  split; [exact Hsid |].
  split; [intro H; rewrite Hsid, H; reflexivity |].
  split; intro Habsent.
  - assert (H : respects (keeps transcript_path) (_process_event env (JObj d))).
    { unfold _process_event, _should_trigger_agent. cbn [py_in].
      rewrite Habsent. cbv zeta.
      repeat first [ apply calculate_new_tokens_frame; frame_side
                   | apply spawn_agent_frame; frame_side
                   | respects_step ]. }
    symmetry. apply H.
  - assert (H : respects (keeps cwd) (_process_event env (JObj d))).
    { unfold _process_event, _should_trigger_agent. cbn [py_in].
      rewrite Habsent. cbv zeta.
      repeat first [ apply calculate_new_tokens_frame; frame_side
                   | apply spawn_agent_frame; frame_side
                   | respects_step ]. }
    symmetry. apply H.
Qed.

(* ================================================================= *)
(** ** The response of a connection *)

(** C3, as the code has it: for a connection whose bytes decode, the
    response is ["ok"] when parsing and processing the event raise nothing
    and ["error: "] followed by the text of the exception otherwise, and
    the object is left as the handling left it.  When it is the parsing of
    the inbound text that raises, or the event is not an object, the
    object is exactly as before the connection and nothing was logged or
    dispatched. *)
Theorem handle_client_reply (env : Env) (data : bytes) (o : Overseer)
  (message : string) :
  decode data = Ret message ->
  let run := handle_message env message o in
  let served := _handle_client env data o in
  fst (fst served)
  = match result_of run with
    | Ret _ => Responded "ok"
    | Raise e => Responded ("error: " ++ exn_msg e)%string
    end
  /\ snd (fst served) = state_of run
  /\ snd served = trace_of run
  /\ (forall e,
         json_loads message = Raise e ->
         served = (Responded ("error: " ++ exn_msg e)%string, o, []))
  /\ (forall event e,
         json_loads message = Ret event ->
         py_get event "hook_event_name" (JStr "") = Raise e ->
         served = (Responded ("error: " ++ exn_msg e)%string, o, [])).
Proof.
  intro Hdec. cbv zeta. unfold _handle_client. rewrite Hdec.
  split; [| split; [| split; [| split]]].
  - unfold result_of.
    destruct (handle_message env message o) as [[[u | e] o1] t]; reflexivity.
  - unfold state_of.
    destruct (handle_message env message o) as [[[u | e] o1] t]; reflexivity.
  - unfold trace_of.
    destruct (handle_message env message o) as [[[u | e] o1] t]; reflexivity.
  - intros e Hloads. unfold handle_message. rewrite Hloads.
    rewrite bind_lift_raise. reflexivity.
  - intros event e Hloads Hget. unfold handle_message. rewrite Hloads.
    rewrite bind_lift_ret. unfold _process_event. rewrite Hget.
    rewrite bind_lift_raise. reflexivity.
Qed.

(* ================================================================= *)
(** ** A transcript of valid JSON that makes the token count raise *)

Lemma read_single_line (fs : Path -> FsEntry) (o : Overseer) (p : Path)
  (line : string) (v : json) :
  transcript_path o = Some p -> fs p = Regular [line] ->
  nonempty (strip line) = true -> json_loads (strip line) = Ret v ->
  _read_transcript fs o = (Ret [v], o, []).
Proof.
  intros Hp Hfs Hne Hloads.
  unfold _read_transcript, bind, get, lift. simpl. rewrite Hp, Hfs. simpl.
  rewrite Hne, Hloads. reflexivity.
Qed.

Lemma calculate_new_tokens_odd (fs : Path -> FsEntry) (o : Overseer)
  (p : Path) (line s : string) (rest : list json) :
  transcript_path o = Some p -> fs p = Regular [line] ->
  nonempty (strip line) = true ->
  json_loads (strip line) = Ret (assistant_entry (JArr (JStr s :: rest))) ->
  last_transcript_length o = 0 ->
  _calculate_new_tokens fs o
  = (Raise (mkExn AttributeError "'str' object has no attribute 'get'"),
     set_last_transcript_length 1 o,
     [Log (LogNewMsgs 1 1)]).
Proof.
  intros Hp Hfs Hne Hloads Hw.
  rewrite calculate_new_tokens_run.
  rewrite (read_single_line fs o p line _ Hp Hfs Hne Hloads).
  rewrite Hw. reflexivity.
Qed.

(** C10: a transcript whose only line is valid JSON, an assistant entry
    whose content list starts with a plain string, makes
    [_calculate_new_tokens] raise [AttributeError] instead of returning a
    count; the connection that triggered it is answered
    ["error: 'str' object has no attribute 'get'"]; the watermark has
    moved past the entry all the same, no token of it was added to the
    counter, and the next calculation over the same transcript counts 0:
    the entry is never counted. *)
Theorem non_object_content_raises (env : Env) (data : bytes)
  (message : string) (d : list (string * json)) (o : Overseer) (p : Path)
  (line s : string) (rest : list json) :
  decode data = Ret message ->
  json_loads message = Ret (JObj d) ->
  dict_get d "transcript_path" = None ->
  dict_get d "cwd" = None ->
  transcript_path o = Some p ->
  fs env p = Regular [line] ->
  nonempty (strip line) = true ->
  json_loads (strip line) = Ret (assistant_entry (JArr (JStr s :: rest))) ->
  last_transcript_length o = 0 ->
  let served := _handle_client env data o in
  let after := snd (fst served) in
  result_of (_calculate_new_tokens (fs env) o)
  = Raise (mkExn AttributeError "'str' object has no attribute 'get'")
  /\ last_transcript_length (state_of (_calculate_new_tokens (fs env) o)) = 1
  /\ fst (fst served)
     = Responded "error: 'str' object has no attribute 'get'"
  /\ last_transcript_length after = 1
  /\ tokens_since_last_trigger after = tokens_since_last_trigger o
  /\ result_of (_calculate_new_tokens (fs env) after) = Ret 0.
Proof.
  intros Hdec Hloads Htp Hcwd Hp Hfs Hne Hline Hw. cbv zeta.
  rewrite (calculate_new_tokens_odd (fs env) o p line s rest Hp Hfs Hne Hline Hw).
  split; [reflexivity |]. split; [reflexivity |].
  unfold _handle_client, handle_message. rewrite Hdec, Hloads.
  rewrite bind_lift_ret. unfold _process_event. cbn [py_get py_in].
  rewrite Htp, Hcwd. rewrite !bind_lift_ret, bind_modify, !bind_ret_l.
  match goal with
  | |- context [bind (_calculate_new_tokens (fs env)) _ ?o1] =>
      rewrite (bind_run _ _ _ _ _ _
                 (calculate_new_tokens_odd (fs env) o1 p line s rest
                    Hp Hfs Hne Hline Hw))
  end.
  simpl. split; [reflexivity |]. split; [reflexivity |].
  split; [reflexivity |].
  match goal with
  | |- result_of (_calculate_new_tokens _ ?o2) = _ =>
      assert (Hread : _read_transcript (fs env) o2
                      = (Ret [assistant_entry (JArr (JStr s :: rest))], o2, []))
        by (apply (read_single_line (fs env) o2 p line); assumption);
      rewrite calculate_new_tokens_run, Hread
  end.
  reflexivity.
Qed.

End Facts.

(* ================================================================= *)
(** ** The theorems at work on concrete runs *)

Ltac by_running := vm_compute; repeat split; try reflexivity; try discriminate.

Lemma should_trigger_agent_policy_witness :
  result_of (_should_trigger_agent (JStr "Stop")
               (set_response_count 1 Sample.fresh)) = Ret true
  /\ (result_of (_should_trigger_agent (JStr "Stop") Sample.busy) = Ret true
      <-> 100 <= 120)
  /\ (result_of (_should_trigger_agent (JStr "Stop") Sample.prompting)
      = Ret false <-> 2 < 3).
Proof.
  split; [| split].
  - pose proof (should_trigger_agent_policy (JStr "Stop")
                  (set_response_count 1 Sample.fresh)) as H.
    cbv zeta in H. destruct H as (_ & _ & H & _).
    apply H. repeat split.
  - pose proof (should_trigger_agent_policy (JStr "Stop") Sample.busy) as H.
    cbv zeta in H. destruct H as (_ & _ & _ & H & _).
    apply H; [| reflexivity].
    intros (_ & _ & Hrc). discriminate Hrc.
  - pose proof (should_trigger_agent_policy (JStr "Stop") Sample.prompting)
      as H.
    cbv zeta in H. destruct H as (_ & _ & _ & _ & H).
    apply H; [| discriminate].
    intros (_ & _ & Hrc). discriminate Hrc.
Defined.


Lemma watermark_never_decreases_witness :
  (result_of (@_calculate_new_tokens Sample.runtime Sample.disk
                (set_last_transcript_length 2
                   (Sample.at_path "/t/log.jsonl" Sample.fresh))) = Ret 0
   /\ state_of (@_calculate_new_tokens Sample.runtime Sample.disk
                  (set_last_transcript_length 2
                     (Sample.at_path "/t/log.jsonl" Sample.fresh)))
      = set_last_transcript_length 2
          (Sample.at_path "/t/log.jsonl" Sample.fresh))
  /\ last_transcript_length
       (state_of (@_calculate_new_tokens Sample.runtime Sample.disk
                    (Sample.at_path "/t/log.jsonl" Sample.fresh))) = 2
  /\ result_of
       (@_calculate_new_tokens Sample.runtime Sample.disk
          (state_of (@_calculate_new_tokens Sample.runtime Sample.disk
                       (Sample.at_path "/t/log.jsonl" Sample.fresh)))) = Ret 0.
Proof.
  destruct (@watermark_never_decreases Sample.runtime)
    as (A & B & _ & _ & E & _).
  split; [| split].
  - apply (A Sample.disk _
             [human_entry "hi"; assistant_entry (JArr [text_item "hello"])]);
      by_running.
  - apply (B Sample.disk _
             [human_entry "hi"; assistant_entry (JArr [text_item "hello"])]);
      by_running.
  - apply (E Sample.disk _
             [human_entry "hi"; assistant_entry (JArr [text_item "hello"])]).
    by_running.
Defined.

Lemma session_end_dispatches_witness :
  dispatched (trace_of (@_process_event Sample.runtime Sample.env_ok
                          (ev "SessionEnd" []) Sample.fresh)) = true
  /\ dispatch_count (trace_of (@_process_event Sample.runtime Sample.env_ok
                                 (ev "SessionEnd" []) Sample.fresh)) = 1%nat
  /\ consulted (trace_of (@_process_event Sample.runtime Sample.env_ok
                            (ev "SessionEnd" []) Sample.fresh)) = false
  /\ running (state_of (@_process_event Sample.runtime Sample.env_ok
                          (ev "SessionEnd" []) Sample.fresh)) = false.
Proof.
  pose proof (@session_end_dispatches Sample.runtime Sample.env_ok
                (ev "SessionEnd" []) Sample.fresh) as H.
  cbv zeta in H. destruct H as [H _].
  apply (H (JStr "SessionEnd")); by_running.
Defined.

Lemma first_response_once_witness :
  @serve Sample.runtime [Sample.c0; Sample.c1; Sample.c2] Sample.fresh
  = [Sample.r0] ++ Sample.r1 :: [Sample.r2]
  /\ first_response_fired (sv_trace Sample.r1) = true
  /\ dispatched (sv_trace Sample.r1) = true
  /\ first_response_fired (sv_trace Sample.r2) = false.
Proof.
  assert (Hrun : @serve Sample.runtime [Sample.c0; Sample.c1; Sample.c2]
                   Sample.fresh
                 = [Sample.r0] ++ Sample.r1 :: [Sample.r2]) by by_running.
  destruct (@first_response_once Sample.runtime DEFAULT_CONFIG
              [Sample.c0; Sample.c1; Sample.c2] [Sample.r0] [Sample.r2]
              Sample.r1 eq_refl Hrun) as [Hiff Hd].
  assert (Hfire : first_response_fired (sv_trace Sample.r1) = true).
  { apply Hiff. by_running. }
  split; [exact Hrun |]. split; [exact Hfire |].
  split; [exact (Hd Hfire) | by_running].
Defined.

Lemma spawn_agent_counters_witness :
  result_of (@_spawn_agent Sample.runtime Sample.env_timeout Sample.busy)
  = Ret None
  /\ tokens_since_last_trigger
       (state_of (@_spawn_agent Sample.runtime Sample.env_timeout Sample.busy))
     = 120
  /\ prompt_count
       (state_of (@_spawn_agent Sample.runtime Sample.env_timeout Sample.busy))
     = 3.
Proof.
  assert (Hread : result_of (@_read_transcript Sample.runtime
                               (fs Sample.env_timeout) Sample.busy) = Ret [])
    by by_running.
  pose proof (@spawn_agent_counters Sample.runtime Sample.env_timeout
                Sample.busy [] Hread) as H.
  cbv zeta in H. destruct H as (_ & H & _).
  apply (H (mkExn TimeoutExpired "Command timed out after 300 seconds"));
    by_running.
Defined.

Lemma process_event_session_fields_witness :
  session_id Sample.busy = JStr "abc"
  /\ session_id (state_of (@_process_event Sample.runtime Sample.env_ok
                             (ev "UserPromptSubmit" []) Sample.busy)) = JNull
  /\ transcript_path (state_of (@_process_event Sample.runtime Sample.env_ok
                                  (ev "UserPromptSubmit" []) Sample.busy))
     = transcript_path Sample.busy.
Proof.
  pose proof (@process_event_session_fields Sample.runtime Sample.env_ok
                [("hook_event_name", JStr "UserPromptSubmit")] Sample.busy)
    as H.
  cbv zeta in H. destruct H as (_ & Hsid & Hpath & _).
  split; [reflexivity |].
  split; [apply Hsid; by_running | apply Hpath; by_running].
Defined.

Lemma handle_client_reply_witness :
  fst (fst (@_handle_client Sample.runtime Sample.env_ok
              (Sample.send (ev "UserPromptSubmit" [])) Sample.fresh))
  = Responded "ok"
  /\ @_handle_client Sample.runtime Sample.env_ok "not json" Sample.fresh
     = (Responded "error: Expecting value: line 1 column 1 (char 0)",
        Sample.fresh, []).
Proof.
  split.
  - assert (Hdec : @decode Sample.runtime
                      (Sample.send (ev "UserPromptSubmit" []))
                    = Ret (Sample.send (ev "UserPromptSubmit" [])))
      by by_running.
    pose proof (@handle_client_reply Sample.runtime Sample.env_ok
                  (Sample.send (ev "UserPromptSubmit" [])) Sample.fresh
                  (Sample.send (ev "UserPromptSubmit" [])) Hdec) as H.
    cbv zeta in H. destruct H as (H & _). rewrite H. by_running.
  - assert (Hdec : @decode Sample.runtime "not json" = Ret "not json")
      by by_running.
    pose proof (@handle_client_reply Sample.runtime Sample.env_ok
                  "not json" Sample.fresh "not json" Hdec) as H.
    cbv zeta in H. destruct H as (_ & _ & _ & H & _).
    apply (H (mkExn JSONDecodeError
                "Expecting value: line 1 column 1 (char 0)")).
    by_running.
Defined.

Lemma non_object_content_raises_witness :
  result_of (@_calculate_new_tokens Sample.runtime Sample.disk
               (Sample.at_path "/t/odd.jsonl" Sample.fresh))
  = Raise (mkExn AttributeError "'str' object has no attribute 'get'")
  /\ fst (fst (@_handle_client Sample.runtime Sample.env_ok
                 (Sample.send (ev "Stop" []))
                 (Sample.at_path "/t/odd.jsonl" Sample.fresh)))
     = Responded "error: 'str' object has no attribute 'get'"
  /\ last_transcript_length
       (snd (fst (@_handle_client Sample.runtime Sample.env_ok
                    (Sample.send (ev "Stop" []))
                    (Sample.at_path "/t/odd.jsonl" Sample.fresh)))) = 1
  /\ result_of
       (@_calculate_new_tokens Sample.runtime Sample.disk
          (snd (fst (@_handle_client Sample.runtime Sample.env_ok
                       (Sample.send (ev "Stop" []))
                       (Sample.at_path "/t/odd.jsonl" Sample.fresh)))))
     = Ret 0.
Proof.
  pose proof (@non_object_content_raises Sample.runtime Sample.env_ok
                (Sample.send (ev "Stop" [])) (Sample.send (ev "Stop" []))
                [("hook_event_name", JStr "Stop")]
                (Sample.at_path "/t/odd.jsonl" Sample.fresh)
                (MkPath "/t/odd.jsonl") (Sample.json_dumps Sample.odd_entry)
                "hello" []) as H.
  cbv zeta in H.
  assert (Hdec : @decode Sample.runtime (Sample.send (ev "Stop" []))
                 = Ret (Sample.send (ev "Stop" []))) by by_running.
  assert (Hloads : @json_loads Sample.runtime (Sample.send (ev "Stop" []))
                   = Ret (JObj [("hook_event_name", JStr "Stop")]))
    by by_running.
  assert (Hfs : fs Sample.env_ok (MkPath "/t/odd.jsonl")
                = Regular [Sample.json_dumps Sample.odd_entry])
    by by_running.
  assert (Hne : nonempty (strip (Sample.json_dumps Sample.odd_entry)) = true)
    by by_running.
  assert (Hline : @json_loads Sample.runtime
                    (strip (Sample.json_dumps Sample.odd_entry))
                  = Ret (assistant_entry (JArr [JStr "hello"])))
    by by_running.
  destruct (H Hdec Hloads eq_refl eq_refl eq_refl Hfs Hne Hline eq_refl)
    as (H1 & _ & H3 & H4 & _ & H6).
  auto.
Defined.

(* ================================================================= *)
(** ** Where the code departs from the claims *)

(** C3, counterexample: an event that names a directory as the transcript
    is answered with an error, and yet the session fields have changed;
    an event over a transcript that makes the token count raise is
    answered with an error, and yet the watermark has moved. *)
Lemma handler_exception_changes_state :
  fst (fst (@_handle_client Sample.runtime Sample.env_ok
              (Sample.send (ev "Stop" [("session_id", JStr "abc");
                                       ("transcript_path", JStr "/t")]))
              Sample.fresh))
  = Responded "error: [Errno 21] Is a directory: '/t'"
  /\ session_id Sample.fresh = JNull
  /\ session_id
       (snd (fst (@_handle_client Sample.runtime Sample.env_ok
                    (Sample.send (ev "Stop" [("session_id", JStr "abc");
                                             ("transcript_path", JStr "/t")]))
                    Sample.fresh))) = JStr "abc"
  /\ transcript_path Sample.fresh = None
  /\ transcript_path
       (snd (fst (@_handle_client Sample.runtime Sample.env_ok
                    (Sample.send (ev "Stop" [("session_id", JStr "abc");
                                             ("transcript_path", JStr "/t")]))
                    Sample.fresh))) = Some (MkPath "/t")
  /\ fst (fst (@_handle_client Sample.runtime Sample.env_ok
                 (Sample.send
                    (ev "Stop" [("transcript_path", JStr "/t/odd.jsonl")]))
                 Sample.fresh))
     = Responded "error: 'str' object has no attribute 'get'"
  /\ last_transcript_length Sample.fresh = 0
  /\ last_transcript_length
       (snd (fst (@_handle_client Sample.runtime Sample.env_ok
                    (Sample.send
                       (ev "Stop" [("transcript_path", JStr "/t/odd.jsonl")]))
                    Sample.fresh))) = 1.
Proof. by_running. Qed.

(** C5, counterexample: the first [Stop] event of a session names a
    directory as the transcript; its handling raises, nothing is
    dispatched and the rule does not fire.  The rule fires on the second
    [Stop] event. *)
Lemma first_stop_may_not_dispatch :
  @serve Sample.runtime [Sample.b0; Sample.b1] Sample.fresh
  = [Sample.q0; Sample.q1]
  /\ @is_stop Sample.runtime (sv_data Sample.q0) = true
  /\ sv_reply Sample.q0 = Responded "error: [Errno 21] Is a directory: '/t'"
  /\ dispatched (sv_trace Sample.q0) = false
  /\ first_response_fired (sv_trace Sample.q0) = false
  /\ @is_stop Sample.runtime (sv_data Sample.q1) = true
  /\ first_response_fired (sv_trace Sample.q1) = true
  /\ dispatched (sv_trace Sample.q1) = true.
Proof. by_running. Qed.

(** C7, counterexample: a [SessionEnd] event that names a directory as
    the transcript raises before the branch on the event name: no worker
    is dispatched and [running] stays true. *)
Lemma session_end_may_not_dispatch :
  result_of (@_process_event Sample.runtime Sample.env_ok
               (ev "SessionEnd" [("transcript_path", JStr "/t")])
               Sample.fresh)
  = Raise (mkExn OSError "[Errno 21] Is a directory: '/t'")
  /\ dispatched (trace_of (@_process_event Sample.runtime Sample.env_ok
                             (ev "SessionEnd" [("transcript_path", JStr "/t")])
                             Sample.fresh)) = false
  /\ running (state_of (@_process_event Sample.runtime Sample.env_ok
                          (ev "SessionEnd" [("transcript_path", JStr "/t")])
                          Sample.fresh)) = true.
Proof. by_running. Qed.

(** C9: with a window size of 0 the windowed read returns the whole
    transcript, [messages[-0:]] being [messages[0:]]; on the sample
    transcript of two entries it returns both. *)
Theorem window_zero_returns_everything :
  (forall (rt : PyRuntime) fs o,
      result_of (@_read_transcript_window rt fs 0 o)
      = result_of (@_read_transcript rt fs o))
  /\ result_of (@_read_transcript_window Sample.runtime Sample.disk 0
                  (Sample.at_path "/t/log.jsonl" Sample.fresh))
     = Ret [human_entry "hi"; assistant_entry (JArr [text_item "hello"])].
Proof.
  split; [intros; apply read_transcript_window_zero | by_running].
Qed.

(* ================================================================= *)
(** ** Counting tokens *)

Section Counting.

Context {rt : PyRuntime}.

Lemma count_tokens_nonneg (text : json) (n : Z) :
  _count_tokens text = Ret n -> 0 <= n.
Proof.
  destruct text; simpl; try discriminate.
  destruct (encode s) as [toks | e]; simpl; [| discriminate].
  intro H. inversion H. unfold len. lia.
Qed.

(** The inner loop adds to the running total what it adds to 0. *)
Lemma sum_text_items_shift (items : list json) (t : Z) :
  sum_text_items items t
  = match sum_text_items items 0 with
    | Ret n => Ret (t + n)
    | Raise e => Raise e
    end.
Proof.
  revert t. induction items as [| c items IH]; intro t; simpl.
  - f_equal. lia.
  - destruct (py_get c "type" JNull) as [ty | e]; simpl; [| reflexivity].
    destruct (json_eq_str ty "text"); [| apply IH].
    destruct (py_get c "text" (JStr "")) as [text | e]; simpl; [| reflexivity].
    destruct (_count_tokens text) as [n | e]; simpl; [| reflexivity].
    rewrite (IH (t + n)), (IH n).
    destruct (sum_text_items items 0); [f_equal; lia | reflexivity].
Qed.

Lemma sum_text_items_nonneg (items : list json) (t r : Z) :
  sum_text_items items t = Ret r -> t <= r.
Proof.
  revert t. induction items as [| c items IH]; intro t; simpl.
  - intro H. inversion H. lia.
  - destruct (py_get c "type" JNull) as [ty | e]; simpl; [| discriminate].
    destruct (json_eq_str ty "text"); [| apply IH].
    destruct (py_get c "text" (JStr "")) as [text | e]; simpl; [| discriminate].
    destruct (_count_tokens text) as [n | e] eqn:Hn; simpl; [| discriminate].
    intro H. apply IH in H. apply count_tokens_nonneg in Hn. lia.
Qed.

Lemma add_message_tokens_shift (msg : json) (t : Z) :
  add_message_tokens msg t
  = match add_message_tokens msg 0 with
    | Ret n => Ret (t + n)
    | Raise e => Raise e
    end.
Proof.
  unfold add_message_tokens.
  destruct (py_get msg "type" (JStr "")) as [ty | e]; simpl; [| reflexivity].
  destruct (json_eq_str ty "human").
  { destruct (py_get msg "message" (JObj [])) as [m | e]; simpl;
      [| reflexivity].
    destruct (py_get m "content" (JStr "")) as [c | e]; simpl; [| reflexivity].
    destruct (encode (py_str c)); simpl; reflexivity. }
  destruct (json_eq_str ty "assistant"); [| f_equal; lia].
  destruct (py_get msg "message" (JObj [])) as [m | e]; simpl; [| reflexivity].
  destruct (py_get m "content" (JArr [])) as [c | e]; simpl; [| reflexivity].
  destruct c; try (destruct (encode _); simpl; reflexivity).
  apply sum_text_items_shift.
Qed.

Lemma add_message_tokens_nonneg (msg : json) (t r : Z) :
  add_message_tokens msg t = Ret r -> t <= r.
Proof.
  unfold add_message_tokens.
  destruct (py_get msg "type" (JStr "")) as [ty | e]; simpl; [| discriminate].
  destruct (json_eq_str ty "human").
  { destruct (py_get msg "message" (JObj [])) as [m | e]; simpl;
      [| discriminate].
    destruct (py_get m "content" (JStr "")) as [c | e]; simpl; [| discriminate].
    destruct (encode (py_str c)); simpl; [| discriminate].
    intro H. inversion H. unfold len. lia. }
  destruct (json_eq_str ty "assistant");
    [| intro H; inversion H; lia].
  destruct (py_get msg "message" (JObj [])) as [m | e]; simpl; [| discriminate].
  destruct (py_get m "content" (JArr [])) as [c | e]; simpl; [| discriminate].
  destruct c;
    try (destruct (encode _); simpl; [| discriminate];
         intro H; inversion H; unfold len; lia).
  apply sum_text_items_nonneg.
Qed.

Lemma sum_message_tokens_app (a b : list json) (t : Z) :
  sum_message_tokens (a ++ b) t
  = match sum_message_tokens a t with
    | Ret t' => sum_message_tokens b t'
    | Raise e => Raise e
    end.
Proof.
  revert t. induction a as [| msg a IH]; intro t; simpl; [reflexivity |].
  destruct (add_message_tokens msg t); simpl; [apply IH | reflexivity].
Qed.

Lemma sum_message_tokens_shift (msgs : list json) (t : Z) :
  sum_message_tokens msgs t
  = match sum_message_tokens msgs 0 with
    | Ret n => Ret (t + n)
    | Raise e => Raise e
    end.
Proof.
  revert t. induction msgs as [| msg msgs IH]; intro t; simpl.
  - f_equal. lia.
  - rewrite (add_message_tokens_shift msg t).
    destruct (add_message_tokens msg 0) as [n | e]; simpl; [| reflexivity].
    rewrite (IH (t + n)), (IH n).
    destruct (sum_message_tokens msgs 0); [f_equal; lia | reflexivity].
Qed.

Lemma sum_message_tokens_nonneg (msgs : list json) (t r : Z) :
  sum_message_tokens msgs t = Ret r -> t <= r.
Proof.
  revert t. induction msgs as [| msg msgs IH]; intro t; simpl.
  - intro H. inversion H. lia.
  - destruct (add_message_tokens msg t) as [t' | e] eqn:Ht; simpl;
      [| discriminate].
    intro H. apply IH in H. apply add_message_tokens_nonneg in Ht. lia.
Qed.

(** X1: the token count of a list of messages is additive: counting
    [a ++ b] succeeds exactly when counting [a] and counting [b] both do
    (or [a] fails first), and then gives the sum of the two counts; and a
    count never is negative. *)
Theorem sum_message_tokens_additive (a b : list json) :
  sum_message_tokens (a ++ b) 0
  = match sum_message_tokens a 0 with
    | Ret n1 =>
        match sum_message_tokens b 0 with
        | Ret n2 => Ret (n1 + n2)
        | Raise e => Raise e
        end
    | Raise e => Raise e
    end
  /\ (forall n, sum_message_tokens a 0 = Ret n -> 0 <= n).
Proof.
  split.
  - rewrite sum_message_tokens_app.
    destruct (sum_message_tokens a 0) as [n1 | e]; [| reflexivity].
    apply sum_message_tokens_shift.
  - intros n H. apply sum_message_tokens_nonneg in H. exact H.
Qed.

(** X2: an entry that is an object whose [type] is neither ["human"] nor
    ["assistant"] (or is missing) counts for nothing and raises nothing,
    wherever it stands in the list. *)
Theorem other_entries_count_zero (a b : list json)
  (d : list (string * json)) :
  json_eq_str (match dict_get d "type" with Some v => v | None => JStr "" end)
    "human" = false ->
  json_eq_str (match dict_get d "type" with Some v => v | None => JStr "" end)
    "assistant" = false ->
  sum_message_tokens (a ++ JObj d :: b) 0 = sum_message_tokens (a ++ b) 0.
Proof.
  intros Hh Ha. rewrite !sum_message_tokens_app.
  destruct (sum_message_tokens a 0) as [n | e]; [| reflexivity].
  simpl. unfold add_message_tokens. cbn [py_get rbind].
  rewrite Hh, Ha. reflexivity.
Qed.

Lemma read_lines_acc (lines : list string) (acc : list json) :
  read_lines lines acc
  = match read_lines lines [] with
    | Ret m => Ret (acc ++ m)
    | Raise e => Raise e
    end.
Proof.
  revert acc. induction lines as [| line lines IH]; intro acc; simpl.
  - rewrite app_nil_r. reflexivity.
  - destruct (nonempty (strip line)); [| apply IH].
    destruct (json_loads (strip line)) as [v | e].
    + rewrite (IH (acc ++ [v])), (IH [v]).
      destruct (read_lines lines []); [| reflexivity].
      rewrite <- app_assoc. reflexivity.
    + destruct (is_class JSONDecodeError e); [apply IH | reflexivity].
Qed.

Lemma read_regular (fs : Path -> FsEntry) (o : Overseer) (p : Path)
  (lines : list string) :
  transcript_path o = Some p -> fs p = Regular lines ->
  _read_transcript fs o = (read_lines lines [], o, []).
Proof.
  intros Hp Hfs. unfold _read_transcript, bind, get, lift. simpl.
  rewrite Hp, Hfs. reflexivity.
Qed.

Lemma slice_from_app {A : Type} (w : Z) (a b : list A) :
  0 <= w <= len a -> slice_from w (a ++ b) = slice_from w a ++ b.
Proof.
  unfold slice_from, len. intro H.
  replace (w <? 0) with false by (symmetry; apply Z.ltb_ge; lia).
  rewrite skipn_app.
  replace (Z.to_nat w - length a)%nat with 0%nat by lia. reflexivity.
Qed.

Lemma slice_from_all {A : Type} (a : list A) : slice_from (len a) a = [].
Proof.
  unfold slice_from, len.
  replace (Z.of_nat (length a) <? 0) with false
    by (symmetry; apply Z.ltb_ge; lia).
  rewrite Nat2Z.id. apply skipn_all.
Qed.

(** X3: the transcript is only ever appended to, and the watermark makes
    counting incremental: whenever counting the tokens of a transcript
    [l1 ++ l2] in one call succeeds, counting after [l1] was written and
    again after [l2] was appended succeeds too, the two counts add up to
    the count of the single call, and the object ends the same.  No entry
    is counted twice and none is missed. *)
Theorem counting_in_two_steps (fs1 fs2 : Path -> FsEntry) (o : Overseer)
  (p : Path) (l1 l2 : list string) (n : Z) :
  transcript_path o = Some p ->
  0 <= last_transcript_length o ->
  fs1 p = Regular l1 ->
  fs2 p = Regular (l1 ++ l2) ->
  result_of (_calculate_new_tokens fs2 o) = Ret n ->
  exists n1 n2,
    result_of (_calculate_new_tokens fs1 o) = Ret n1
    /\ result_of (_calculate_new_tokens fs2
                    (state_of (_calculate_new_tokens fs1 o))) = Ret n2
    /\ n = n1 + n2
    /\ state_of (_calculate_new_tokens fs2
                   (state_of (_calculate_new_tokens fs1 o)))
       = state_of (_calculate_new_tokens fs2 o).
Proof.
  intros Hp Hw Hfs1 Hfs2 Honce.
  (* both parts of the transcript can be read *)
  assert (Hparts : exists m1 m2,
             read_lines l1 [] = Ret m1 /\ read_lines l2 [] = Ret m2).
  { unfold result_of in Honce. rewrite calculate_new_tokens_run in Honce.
    rewrite (read_regular fs2 o p _ Hp Hfs2), read_lines_app in Honce.
    destruct (read_lines l1 []) as [m1 | e]; [| discriminate].
    rewrite read_lines_acc in Honce.
    destruct (read_lines l2 []) as [m2 | e]; [| discriminate].
    eauto. }
  destruct Hparts as (m1 & m2 & Hr1 & Hr2).
  assert (R1 : forall o', transcript_path o' = Some p ->
             _read_transcript fs1 o' = (Ret m1, o', [])).
  { intros o' Hp'. rewrite (read_regular fs1 o' p _ Hp' Hfs1), Hr1.
    reflexivity. }
  assert (R2 : forall o', transcript_path o' = Some p ->
             _read_transcript fs2 o' = (Ret (m1 ++ m2), o', [])).
  { intros o' Hp'. rewrite (read_regular fs2 o' p _ Hp' Hfs2).
    rewrite read_lines_app, Hr1, read_lines_acc, Hr2. reflexivity. }
  assert (Hlen : len (m1 ++ m2) = len m1 + len m2)
    by (unfold len; rewrite length_app; lia).
  assert (Hlen1 : 0 <= len m1) by (unfold len; lia).
  assert (Hlen2 : 0 <= len m2) by (unfold len; lia).
  unfold result_of, state_of in *.
  rewrite calculate_new_tokens_run, (R2 o Hp) in Honce.
  rewrite (calculate_new_tokens_run fs1 o), (R1 o Hp).
  rewrite (calculate_new_tokens_run fs2 o), (R2 o Hp).
  destruct (len m1 <=? last_transcript_length o) eqn:H1.
  - (* the first call sees nothing new: the second is the single call *)
    apply Z.leb_le in H1. simpl.
    rewrite (calculate_new_tokens_run fs2 o), (R2 o Hp).
    destruct (len (m1 ++ m2) <=? last_transcript_length o) eqn:H2;
      simpl in *.
    + inversion Honce; subst n. exists 0, 0. auto.
    + exists 0, n. rewrite Honce. repeat split; lia.
  - (* the first call counts the tail of [m1] *)
    apply Z.leb_gt in H1.
    replace (len (m1 ++ m2) <=? last_transcript_length o) with false in *
      by (symmetry; apply Z.leb_gt; lia).
    simpl in Honce. simpl.
    rewrite slice_from_app in Honce by lia.
    rewrite sum_message_tokens_app in Honce.
    destruct (sum_message_tokens (slice_from (last_transcript_length o) m1) 0)
      as [n1 | e]; [| discriminate].
    rewrite sum_message_tokens_shift in Honce.
    destruct (sum_message_tokens m2 0) as [n2 | e] eqn:Hn2; [| discriminate].
    inversion Honce; subst n. simpl.
    rewrite calculate_new_tokens_run, R2 by exact Hp. simpl.
    destruct (len (m1 ++ m2) <=? len m1) eqn:H2; simpl.
    + apply Z.leb_le in H2.
      assert (m2 = []) by (destruct m2; [reflexivity | unfold len in *;
                                         simpl in *; lia]).
      subst m2. simpl in Hn2. inversion Hn2; subst n2.
      exists n1, 0. rewrite app_nil_r. repeat split; lia.
    + rewrite slice_from_app by lia. rewrite slice_from_all. simpl.
      rewrite Hn2. exists n1, n2. auto.
Qed.

End Counting.

(* ================================================================= *)
(** ** The worker dispatcher *)

Section Dispatcher.

Context {rt : PyRuntime}.

(** [_spawn_agent] once the transcript window has been read: the body of
    the [try] statement, run on the context. *)
Lemma spawn_agent_body (env : Env) (o : Overseer) (messages : list json)
  (t : list Effect) :
  _read_transcript (fs env) o = (Ret messages, o, t) ->
  _spawn_agent env o
  = match
      try_finally
        (try_except
           (emit Popen;;
            lift (sp_popen (worker env));;
            modify (set_active_agent true);;
            emit (WriteStdin (context_of o messages));;
            lift (sp_stdin (worker env));;
            out <- lift (sp_communicate (worker env));;
            modify (set_tokens_since_last_trigger 0);;
            modify (set_prompt_count 0);;
            _log (LogAgentReturncode (sp_returncode (worker env)));;
            if sp_returncode (worker env) =? 0 then
              text <- lift (decode (fst out));;
              _log (LogAgentStdout (Z.of_nat (String.length (strip text)))
                      (if nonempty (strip text)
                       then substring 0 1000 (strip text)
                       else "(empty)"));;
              ret (Some (strip text))
            else
              text <- lift (decode (snd out));;
              _log (LogAgentFailed (sp_returncode (worker env))
                      (substring 0 500 (strip text)));;
              ret None)
           (fun e =>
              if is_class TimeoutExpired e then
                o <- get;;
                (if active_agent o then emit Kill else ret tt);;
                ret None
              else ret None))
        (modify (set_active_agent false)) o
    with
    | (r, o', t') => (r, o', t ++ t')
    end.
Proof.
  intro Hread.
  unfold _spawn_agent, _build_agent_context, _read_transcript_window.
  rewrite bind_assoc, bind_get, !bind_assoc.
  rewrite (bind_run _ _ _ _ _ _ Hread). rewrite !bind_ret_l.
  reflexivity.
Qed.

Lemma read_transcript_triple (fs : Path -> FsEntry) (o : Overseer)
  (messages : list json) :
  result_of (_read_transcript fs o) = Ret messages ->
  _read_transcript fs o
  = (Ret messages, o, trace_of (_read_transcript fs o)).
Proof.
  intro H. pose proof (read_transcript_state fs o) as Hst.
  unfold result_of, state_of, trace_of in *.
  destruct (_read_transcript fs o) as [[r o1] t]. simpl in *.
  subst. reflexivity.
Qed.

Ltac spawn_cases env :=
  unfold try_finally, try_except, bind, emit, lift, modify, _log, emit, get,
    ret;
  simpl;
  destruct (sp_popen (worker env)) as [[] | ?e] eqn:?Hpopen;
  destruct (sp_stdin (worker env)) as [[] | ?e] eqn:?Hstdin;
  destruct (sp_communicate (worker env)) as [?out | ?e] eqn:?Hcomm;
  simpl;
  try (destruct (sp_returncode (worker env) =? 0) eqn:?Hrc; simpl;
       [ match goal with
         | out : (bytes * bytes)%type |- _ =>
             destruct (decode (fst out)) as [?text | ?e] eqn:?Hdec
         end
       | match goal with
         | out : (bytes * bytes)%type |- _ =>
             destruct (decode (snd out)) as [?text | ?e] eqn:?Hdec
         end ]; simpl);
  repeat match goal with
         | |- context [if is_class TimeoutExpired ?e then _ else _] =>
             destruct (is_class TimeoutExpired e) eqn:?Hcls; simpl
         end.

(** The object [_spawn_agent] leaves: the counters at 0 and no active
    worker when the worker ran to its end, and otherwise the object as it
    was but for the cleared worker handle. *)
Lemma spawn_agent_state (env : Env) (o : Overseer) (messages : list json) :
  result_of (_read_transcript (fs env) o) = Ret messages ->
  (worker_completed (worker env) ->
   state_of (_spawn_agent env o)
   = set_active_agent false
       (set_prompt_count 0 (set_tokens_since_last_trigger 0 o)))
  /\ (~ worker_completed (worker env) ->
      state_of (_spawn_agent env o) = set_active_agent false o).
Proof.
  intro Hread. apply read_transcript_triple in Hread.
  rewrite (spawn_agent_body env o messages _ Hread).
  unfold worker_completed, state_of.
  spawn_cases env;
    repeat match goal with
           | |- context [if active_agent ?x then _ else _] =>
               destruct (active_agent x); simpl
           end;
    (split;
     [ intros (H1 & H2 & out' & H3); try discriminate; reflexivity
     | intro Hn; try reflexivity; exfalso; apply Hn; eauto ]).
Qed.

(** X4: [_spawn_agent] returns the trimmed standard output of the worker
    exactly when the worker was started, was fed its context, terminated
    within the timeout with exit status 0, and its output decodes; in
    every other case it returns [None].  It never raises once the
    transcript window could be read. *)
Theorem spawn_agent_result (env : Env) (o : Overseer)
  (messages : list json) :
  result_of (_read_transcript (fs env) o) = Ret messages ->
  (forall s,
      result_of (_spawn_agent env o) = Ret (Some s)
      <-> sp_popen (worker env) = Ret tt
          /\ sp_stdin (worker env) = Ret tt
          /\ sp_returncode (worker env) = 0
          /\ exists out text,
               sp_communicate (worker env) = Ret out
               /\ decode (fst out) = Ret text /\ s = strip text)
  /\ (result_of (_spawn_agent env o) = Ret None
      \/ exists s, result_of (_spawn_agent env o) = Ret (Some s)).
Proof.
  intro Hread. apply read_transcript_triple in Hread.
  rewrite (spawn_agent_body env o messages _ Hread).
  unfold result_of.
  spawn_cases env;
    repeat match goal with
           | |- context [if active_agent ?x then _ else _] =>
               destruct (active_agent x); simpl
           end;
    (split;
     [ intro s; split;
       [ intro H; inversion H; subst;
         repeat split; try (apply Z.eqb_eq; assumption); eauto
       | intros (H1 & H2 & H3 & out' & text' & H4 & H5 & H6);
         try discriminate;
         try (apply Z.eqb_neq in Hrc; contradiction);
         inversion H4; subst; rewrite Hdec in H5; inversion H5; subst;
         reflexivity ]
     | eauto ]).
Qed.

(** Reading the transcript only logs. *)
Lemma read_transcript_logs (fs : Path -> FsEntry) (o : Overseer)
  (t' : list Effect) :
  filter is_kill (trace_of (_read_transcript fs o) ++ t') = filter is_kill t'
  /\ written_contexts (trace_of (_read_transcript fs o) ++ t')
     = written_contexts t'.
Proof.
  unfold _read_transcript, bind, get, _log, emit, ret, raise, lift, trace_of.
  simpl.
  destruct (transcript_path o) as [p |]; [destruct (fs p) |]; simpl; auto.
Qed.

(** X5: the worker handle.  After [_spawn_agent] no worker is active,
    whatever happened.  The worker is killed, once, when [communicate]
    ran into the 300 second timeout; it is not killed when [communicate]
    raised anything else, nor when the worker terminated and its output
    decodes. *)
Theorem spawn_agent_handle (env : Env) (o : Overseer)
  (messages : list json) :
  result_of (_read_transcript (fs env) o) = Ret messages ->
  sp_popen (worker env) = Ret tt ->
  sp_stdin (worker env) = Ret tt ->
  let run := _spawn_agent env o in
  active_agent (state_of run) = false
  /\ (forall e,
         sp_communicate (worker env) = Raise e ->
         length (filter is_kill (trace_of run))
         = if is_class TimeoutExpired e then 1%nat else 0%nat)
  /\ (forall out text,
         sp_communicate (worker env) = Ret out ->
         decode (if sp_returncode (worker env) =? 0 then fst out else snd out)
         = Ret text ->
         length (filter is_kill (trace_of run)) = 0%nat).
Proof.
  intros Hread Hp Hs. cbv zeta.
  apply read_transcript_triple in Hread.
  rewrite (spawn_agent_body env o messages _ Hread).
  assert (Hk : forall t', length (filter is_kill
                                    (trace_of (_read_transcript (fs env) o) ++ t'))
                          = length (filter is_kill t')).
  { intro t'. destruct (read_transcript_logs (fs env) o t') as [H _].
    rewrite H. reflexivity. }
  unfold state_of, trace_of in *.
  unfold try_finally, try_except, bind, emit, lift, modify, _log, emit, get,
    ret.
  simpl. rewrite Hp, Hs. simpl.
  split; [| split].
  - destruct (sp_communicate (worker env)) as [out | e]; simpl.
    + destruct (sp_returncode (worker env) =? 0); simpl;
        [destruct (decode (fst out)) as [text | e]
        | destruct (decode (snd out)) as [text | e]]; simpl;
        try (destruct (is_class TimeoutExpired e); simpl); reflexivity.
    + destruct (is_class TimeoutExpired e); reflexivity.
  - intros e Hc. rewrite Hc. simpl.
    destruct (is_class TimeoutExpired e); simpl; rewrite Hk; reflexivity.
  - intros out text Hc Hd. rewrite Hc. simpl.
    destruct (sp_returncode (worker env) =? 0); simpl; rewrite Hd; simpl;
      rewrite Hk; reflexivity.
Qed.

(** X6: what the worker is given.  When the worker can be started, exactly
    one context is written to its standard input: the working directory
    of the session (["."] when none is known), the session id, and a
    window that holds at most 50 entries and is the end of the transcript,
    in transcript order.  When the worker cannot be started nothing is
    written. *)
Theorem spawn_agent_context (env : Env) (o : Overseer)
  (messages : list json) :
  result_of (_read_transcript (fs env) o) = Ret messages ->
  let run := _spawn_agent env o in
  (sp_popen (worker env) = Ret tt ->
   written_contexts (trace_of run) = [context_of o messages])
  /\ (forall e, sp_popen (worker env) = Raise e ->
                written_contexts (trace_of run) = [])
  /\ len (ctx_transcript_window (context_of o messages)) <= 50
  /\ (exists older,
         messages = older ++ ctx_transcript_window (context_of o messages))
  /\ (len messages <= 50 ->
      ctx_transcript_window (context_of o messages) = messages)
  /\ ctx_cwd (context_of o messages)
     = match cwd o with Some p => path_str p | None => "." end
  /\ ctx_session_id (context_of o messages) = session_id o.
Proof.
  intro Hread. cbv zeta.
  apply read_transcript_triple in Hread.
  rewrite (spawn_agent_body env o messages _ Hread).
  assert (Hk : forall t', written_contexts
                            (trace_of (_read_transcript (fs env) o) ++ t')
                          = written_contexts t').
  { intro t'. apply (read_transcript_logs (fs env) o t'). }
  unfold trace_of in *.
  split; [| split; [| split; [| split; [| split; [| split]]]]].
  - intro Hp.
    unfold try_finally, try_except, bind, emit, lift, modify, _log, emit,
      get, ret.
    simpl. rewrite Hp. simpl.
    destruct (sp_stdin (worker env)) as [[] | e1]; simpl.
    + destruct (sp_communicate (worker env)) as [out | e2]; simpl.
      * destruct (sp_returncode (worker env) =? 0); simpl;
          [destruct (decode (fst out)) as [text | e]
          | destruct (decode (snd out)) as [text | e]]; simpl;
          try (destruct (is_class TimeoutExpired e); simpl);
          rewrite Hk; reflexivity.
      * destruct (is_class TimeoutExpired e2); simpl; rewrite Hk;
          reflexivity.
    + destruct (is_class TimeoutExpired e1); simpl; rewrite Hk; reflexivity.
  - intros e Hp.
    unfold try_finally, try_except, bind, emit, lift, modify, _log, emit,
      get, ret.
    simpl. rewrite Hp. simpl.
    destruct (is_class TimeoutExpired e); simpl;
      [destruct (active_agent o); simpl |]; rewrite Hk; reflexivity.
  - unfold context_of, slice_from, len. simpl.
    rewrite length_skipn. lia.
  - unfold context_of. simpl. apply slice_from_suffix.
  - intro Hle. unfold context_of, slice_from, len in *. simpl.
    replace (Z.to_nat (Z.max 0 (Z.of_nat (length messages) + -50)))
      with 0%nat by lia.
    reflexivity.
  - reflexivity.
  - reflexivity.
Qed.

End Dispatcher.

(* ================================================================= *)
(** ** Events, one by one and in a run *)

Section Events.

Context {rt : PyRuntime}.

Lemma respects_bind_post (R : Overseer -> Overseer -> Prop) {A B : Type}
  (Q : A -> Prop) (m : M A) (f : A -> M B) :
  (forall a b c, R a b -> R b c -> R a c) ->
  respects R m ->
  (forall o a o1 t, m o = (Ret a, o1, t) -> Q a) ->
  (forall a, Q a -> respects R (f a)) ->
  respects R (bind m f).
Proof.
  intros Htrans Hm Hq Hf o. unfold state_of, bind.
  specialize (Hm o). unfold respects, state_of in Hm, Hf.
  destruct (m o) as [[[a | e] o1] t1] eqn:Hrun; simpl in *; auto.
  specialize (Hf a (Hq _ _ _ _ Hrun) o1).
  destruct (f a o1) as [[r2 o2] t2]. simpl in *. eauto.
Qed.

Lemma calculate_new_tokens_nonneg (fs : Path -> FsEntry) (o o1 : Overseer)
  (n : Z) (t : list Effect) :
  _calculate_new_tokens fs o = (Ret n, o1, t) -> 0 <= n.
Proof.
  rewrite calculate_new_tokens_run.
  destruct (_read_transcript fs o) as [[[messages | e] o'] t'];
    [| discriminate].
  destruct (len messages <=? last_transcript_length o); intro H;
    inversion H as [[Hn Ho Ht]]; [lia |].
  apply sum_message_tokens_nonneg in Hn. exact Hn.
Qed.








Lemma process_event_head_grows_tokens (env : Env) (event : json) :
  respects (grows tokens_since_last_trigger) (process_event_head env event).
Proof.
  unfold process_event_head.
  apply respects_bind; [frame_side | apply respects_lift; frame_side |].
  intro event_name.
  apply respects_bind; [frame_side | apply respects_lift; frame_side |].
  intro sid.
  apply respects_bind; [frame_side | apply respects_modify; frame_side |].
  intros _.
  apply respects_bind; [frame_side | respects_auto |].
  intros _.
  apply respects_bind; [frame_side | respects_auto |].
  intros _.
  apply (respects_bind_post _ (fun n => 0 <= n));
    [ frame_side
    | apply calculate_new_tokens_frame; frame_side
    | intros o a o1 t H; exact (calculate_new_tokens_nonneg _ _ _ _ _ H)
    | ].
  intros new_tokens Hn.
  apply respects_bind; [frame_side | apply respects_modify; frame_side |].
  intros _. respects_auto.
Qed.

(** An event handled without exception: the first half returned the
    event name, having only added tokens to the counter, and the branch
    ran. *)
Lemma process_event_ok (env : Env) (event : json) (o o2 : Overseer)
  (t : list Effect) :
  _process_event env event o = (Ret tt, o2, t) ->
  exists event_name o1 t1 t2 messages,
    py_get event "hook_event_name" (JStr "") = Ret event_name
    /\ process_event_branch env event_name o1 = (Ret tt, o2, t2)
    /\ t = t1 ++ t2
    /\ forallb plain t1 = true
    /\ tokens_since_last_trigger o <= tokens_since_last_trigger o1
    /\ prompt_count o1 = prompt_count o
    /\ response_count o1 = response_count o
    /\ running o1 = running o
    /\ config o1 = config o
    /\ result_of (_read_transcript (fs env) o1) = Ret messages.
Proof.
  rewrite process_event_split. intro H.
  apply bind_ret_inv in H.
  destruct H as (name & o1 & t1 & t2 & Hhead & Hbranch & Ht).
  destruct (process_event_head_returns _ _ _ _ _ _ Hhead)
    as (Hname & messages & Hread).
  pose proof (process_event_head_plain env event o) as Hplain.
  pose proof (process_event_head_grows_tokens env event o) as Htok.
  assert (Hpc : respects (keeps prompt_count) (process_event_head env event))
    by (apply process_event_head_frame; frame_side).
  assert (Hrc : respects (keeps response_count) (process_event_head env event))
    by (apply process_event_head_frame; frame_side).
  assert (Hrun : respects (keeps running) (process_event_head env event))
    by (apply process_event_head_frame; frame_side).
  assert (Hcfg : respects (keeps config) (process_event_head env event))
    by (apply process_event_head_frame; frame_side).
  specialize (Hpc o). specialize (Hrc o). specialize (Hrun o).
  specialize (Hcfg o).
  unfold keeps, grows, state_of, trace_of in *. rewrite Hhead in *.
  simpl in *.
  exists name, o1, t1, t2, messages. auto 12.
Qed.

(** X8: an event whose name is neither [Stop] nor [SessionEnd] (a
    [UserPromptSubmit], any other name, or no name at all), when handled
    without exception, never dispatches the worker, never consults the
    trigger policy and never stops the daemon; it leaves the response
    count alone, can only add to the tokens since the last trigger, and
    changes the prompt count by exactly one for [UserPromptSubmit] and
    not at all otherwise. *)
Theorem other_events_only_count (env : Env) (event : json) (o : Overseer)
  (event_name : json) :
  py_get event "hook_event_name" (JStr "") = Ret event_name ->
  json_eq_str event_name "SessionEnd" = false ->
  json_eq_str event_name "Stop" = false ->
  result_of (_process_event env event o) = Ret tt ->
  let run := _process_event env event o in
  dispatched (trace_of run) = false
  /\ consulted (trace_of run) = false
  /\ running (state_of run) = running o
  /\ response_count (state_of run) = response_count o
  /\ prompt_count (state_of run)
     = prompt_count o
       + (if json_eq_str event_name "UserPromptSubmit" then 1 else 0)
  /\ tokens_since_last_trigger o <= tokens_since_last_trigger (state_of run).
Proof.
  intros Hname Hse Hst Hok. cbv zeta.
  unfold result_of, state_of, trace_of in *.
  destruct (_process_event env event o) as [[r o2] t] eqn:Hrun.
  simpl in *. subst r.
  destruct (process_event_ok _ _ _ _ _ Hrun)
    as (name & o1 & t1 & t2 & messages & Hname' & Hbranch & Ht & Hplain
        & Htok & Hpc & Hrc & Hrunning & _ & _).
  rewrite Hname in Hname'. inversion Hname'; subst name. subst t.
  destruct (plain_prefix t1 t2 Hplain) as (Hd & Hc & _ & _).
  rewrite Hd, Hc.
  unfold process_event_branch in Hbranch. rewrite Hse, Hst in Hbranch.
  destruct (json_eq_str event_name "UserPromptSubmit");
    inversion Hbranch; subst; simpl; repeat split; auto; lia.
Qed.

(** The object the [Stop] branch leaves. *)
Lemma branch_stop_state (env : Env) (event_name : json) (o1 : Overseer) :
  json_eq_str event_name "Stop" = true ->
  let counted := set_response_count (response_count o1 + 1) o1 in
  state_of (process_event_branch env event_name o1)
  = if trigger_policy event_name (response_count o1 + 1) (prompt_count o1)
         (tokens_since_last_trigger o1) (config o1)
    then state_of (_spawn_agent env counted)
    else counted.
Proof.
  intro Hname. cbv zeta. unfold process_event_branch.
  pose proof (json_eq_str_true _ _ Hname) as Hn. subst event_name.
  change (json_eq_str (JStr "Stop") "SessionEnd") with false.
  change (json_eq_str (JStr "Stop") "UserPromptSubmit") with false.
  change (json_eq_str (JStr "Stop") "Stop") with true.
  cbv iota. rewrite bind_modify.
  destruct (should_trigger_agent_run (JStr "Stop")
              (set_response_count (response_count o1 + 1) o1))
    as (logs & Hrun & _).
  rewrite (bind_run _ _ _ _ _ _ Hrun). simpl.
  destruct (trigger_policy (JStr "Stop") (response_count o1 + 1)
              (prompt_count o1) (tokens_since_last_trigger o1) (config o1)).
  - unfold state_of, bind, ret.
    destruct (_spawn_agent env _) as [[[r | e] o2] t]; reflexivity.
  - reflexivity.
Qed.


(** X21: a threshold that is reached stays reached until a worker runs to
    its end.  In tokens mode, when the tokens since the last trigger have
    reached the threshold, and in prompts mode when the prompt count has,
    every [Stop] event handled without exception dispatches the worker;
    and if that worker does not run to its end (it times out, say) the
    threshold is still reached afterwards, so the next [Stop] event
    dispatches again. *)
Theorem reached_threshold_fires (env : Env) (event : json) (o : Overseer)
  (event_name : json) :
  py_get event "hook_event_name" (JStr "") = Ret event_name ->
  json_eq_str event_name "Stop" = true ->
  result_of (_process_event env event o) = Ret tt ->
  (trigger_mode (config o) = "tokens"
   /\ token_threshold (config o) <= tokens_since_last_trigger o)
  \/ (trigger_mode (config o) <> "tokens"
      /\ prompt_threshold (config o) <= prompt_count o) ->
  let run := _process_event env event o in
  dispatched (trace_of run) = true
  /\ config (state_of run) = config o
  /\ (~ worker_completed (worker env) ->
      tokens_since_last_trigger o <= tokens_since_last_trigger (state_of run)
      /\ prompt_count (state_of run) = prompt_count o).
Proof.
  intros Hname Hst Hok Hreached. cbv zeta.
  pose proof (process_event_config env event o) as Hconfig.
  unfold keeps in Hconfig.
  unfold result_of, state_of, trace_of in *.
  destruct (_process_event env event o) as [[r o2] t] eqn:Hrun.
  simpl in *. subst r.
  destruct (process_event_ok _ _ _ _ _ Hrun)
    as (name & o1 & t1 & t2 & messages & Hname' & Hbranch & Ht & Hplain
        & Htok & Hpc & Hrc & Hrunning & Hcfg & Hread).
  rewrite Hname in Hname'. inversion Hname'; subst name. subst t.
  destruct (plain_prefix t1 t2 Hplain) as (Hd & _ & _ & _).
  rewrite Hd.
  destruct (branch_stop env _ _ _ Hst Hread)
    as (o2' & t2' & Hb & _ & _ & _ & _ & H5).
  rewrite Hbranch in Hb. inversion Hb; subst o2' t2'.
  assert (Hpol : trigger_policy event_name (response_count o1 + 1)
                   (prompt_count o1) (tokens_since_last_trigger o1)
                   (config o1) = true).
  { unfold trigger_policy, tokenThreshold_reached, promptThreshold_reached.
    rewrite Hcfg, Hpc.
    destruct (trigger_on_first_response (config o)
              && json_eq_str event_name "Stop"
              && (response_count o1 + 1 =? 1)); [reflexivity |].
    destruct Hreached as [[Hm Hthr] | [Hm Hthr]].
    - rewrite Hm. simpl. apply Z.leb_le. lia.
    - apply String.eqb_neq in Hm. rewrite Hm. apply Z.leb_le. exact Hthr. }
  split; [rewrite H5; exact Hpol |].
  split; [symmetry; exact Hconfig |].
  intro Hw.
  pose proof (branch_stop_state env _ o1 Hst) as Hstate.
  cbv zeta in Hstate. unfold state_of in Hstate.
  rewrite Hbranch, Hpol in Hstate. simpl in Hstate.
  assert (Hread' : result_of (_read_transcript (fs env)
                                (set_response_count (response_count o1 + 1) o1))
                   = Ret messages).
  { rewrite <- Hread. apply read_transcript_path. reflexivity. }
  destruct (spawn_agent_state env _ messages Hread') as [_ Hnot].
  unfold state_of in Hnot. rewrite Hstate, (Hnot Hw). simpl.
  split; [lia | exact Hpc].
Qed.

(** X10: over any run of the server the configuration never changes and
    the response count of the daemon is the number of [Stop] events it
    answered ["ok"]: it counts every one of them, counts nothing else,
    and is never reset. *)
Theorem response_count_counts_stops (conns : list (Env * bytes))
  (o : Overseer) :
  config (final_state o (serve conns o)) = config o
  /\ response_count (final_state o (serve conns o))
     = response_count o
       + Z.of_nat (length (filter stop_acknowledged (serve conns o)))
  /\ Forall (fun r => response_count (sv_before r)
                      <= response_count (sv_after r))
            (serve conns o).
Proof.
  revert o. induction conns as [| c rest IH]; intro o.
  - simpl. repeat split; [lia | constructor].
  - destruct (IH (sv_after (serve_one c o))) as (IHc & IHr & IHf).
    destruct (serve_one_cases c o) as (Hcfg & Hack & Hnack).
    cbv zeta in *.
    unfold final_state in *. simpl.
    rewrite IHc, IHr. split; [exact Hcfg |].
    destruct (stop_acknowledged (serve_one c o)) eqn:Hs.
    + destruct (Hack eq_refl) as (H1 & _). rewrite H1. simpl length.
      split; [lia |]. constructor; [| exact IHf].
      rewrite serve_one_before. lia.
    + destruct (Hnack eq_refl) as (H1 & _). rewrite H1.
      split; [lia |]. constructor; [| exact IHf].
      rewrite serve_one_before. lia.
Qed.

End Events.

(* ================================================================= *)
(** ** The singleton marker *)

Section SingletonFacts.

Context {rt : PyRuntime} {os : OsRuntime}.

(** X11: [is_running] and the stale marker.  When it answers [True] the
    PID file names a process that accepted the probe and nothing was
    touched.  When it answers [False] no PID file is left; if there was
    one (a stale marker: the text is no number or names no process) the
    socket is removed with it; if there was none nothing was touched.
    When the probe fails in another way the exception leaves the method
    and nothing was touched. *)
Theorem is_running_purges_stale (w : Marker) :
  let answer := fst (is_running w) in
  let w' := snd (is_running w) in
  (answer = Ret true ->
   w' = w
   /\ exists text pid,
        pid_file w = Some text /\ py_int (strip text) = Some pid
        /\ os_kill0 pid = KillOk)
  /\ (answer = Ret false ->
      pid_file w' = None
      /\ (pid_file w = None -> w' = w)
      /\ (pid_file w <> None -> socket_file w' = false))
  /\ (forall e, answer = Raise e -> w' = w).
Proof.
  cbv zeta. unfold is_running.
  destruct (pid_file w) as [text |] eqn:Hpid.
  - destruct (py_int (strip text)) as [pid |] eqn:Hint.
    + destruct (os_kill0 pid) eqn:Hkill; simpl;
        repeat split; intros; try discriminate; eauto; congruence.
    + simpl. repeat split; intros; try discriminate; congruence.
  - simpl. repeat split; intros; try discriminate; auto; congruence.
Qed.

(** X12: asking again changes nothing: once [is_running] has answered,
    a second call (with the same processes alive) gives the same answer
    and leaves the files as the first call left them. *)
Theorem is_running_idempotent (w : Marker) :
  is_running (snd (is_running w)) = (fst (is_running w), snd (is_running w)).
Proof.
  unfold is_running.
  destruct (pid_file w) as [text |] eqn:Hpid; simpl.
  - destruct (py_int (strip text)) as [pid |] eqn:Hint; simpl.
    + destruct (os_kill0 pid) eqn:Hkill; simpl; rewrite ?Hpid, ?Hint, ?Hkill;
        reflexivity.
    + reflexivity.
  - rewrite Hpid. reflexivity.
Qed.

(** X13: the marker round trip.  If [int] reads back the decimal text of
    the process id, then after [_write_pid] the recorded PID is that
    process id, [is_running] answers [True] and touches nothing as long as
    the process lives, and answers [False] and removes PID file and socket
    once it is gone. *)
Theorem write_pid_then_check (pid : Z) (w : Marker) :
  py_int (strip (str_of_int pid)) = Some pid ->
  get_pid (_write_pid pid w) = Ret (Some pid)
  /\ socket_file (_write_pid pid w) = socket_file w
  /\ (os_kill0 pid = KillOk ->
      is_running (_write_pid pid w) = (Ret true, _write_pid pid w))
  /\ (os_kill0 pid = KillNoProcess ->
      is_running (_write_pid pid w)
      = (Ret false, {| pid_file := None; socket_file := false |})).
Proof.
  intro Hint. unfold get_pid, is_running, _write_pid. simpl.
  rewrite Hint. repeat split; intro Hk; rewrite Hk; reflexivity.
Qed.

(** X14: [_cleanup].  Whenever it returns, PID file and socket are gone.
    A worker is asked to terminate exactly when one is active and has not
    exited yet, and it is killed after that exactly when waiting 5 seconds
    for it timed out.  With no active worker it cannot raise and signals
    nothing. *)
Theorem cleanup_removes_marker (proc : AgentProc) (o : Overseer)
  (w : Marker) :
  let result := fst (fst (_cleanup proc o w)) in
  let w' := snd (fst (_cleanup proc o w)) in
  let signals := snd (_cleanup proc o w) in
  (result = Ret tt -> w' = {| pid_file := None; socket_file := false |})
  /\ (In AgentTerminate signals
      <-> active_agent o = true /\ ap_poll proc = None)
  /\ (In AgentKill signals
      <-> active_agent o = true /\ ap_poll proc = None
          /\ exists e, ap_wait proc = Raise e
                       /\ is_class TimeoutExpired e = true)
  /\ (active_agent o = false -> result = Ret tt /\ signals = []).
Proof.
  cbv zeta. unfold _cleanup.
  destruct (active_agent o); simpl;
    [ destruct (ap_poll proc) as [rc |]; simpl;
      [| destruct (ap_wait proc) as [rc | e]; simpl;
         [| destruct (is_class TimeoutExpired e) eqn:Hcls; simpl ] ] |];
    repeat split; intros;
    repeat match goal with
           | H : _ /\ _ |- _ => destruct H
           | H : exists _, _ |- _ => destruct H
           | H : In _ _ |- _ => simpl in H; destruct H
           | H : _ \/ _ |- _ => destruct H
           | H : False |- _ => destruct H
           end;
    try discriminate; try congruence; simpl; eauto 6.
Qed.


(** X16: [send_event] and a daemon that is not there.  When the PID file
    is missing, unreadable as a number, or names no process, [send_event]
    returns [None] whatever a connection would have given, and leaves no
    PID file; when the daemon runs, the answer is [None] for a refused
    connection and the decoded response otherwise, and the files are
    untouched. *)
Theorem send_event_needs_daemon (conn : Connection) (w : Marker) :
  (fst (is_running w) = Ret false ->
   fst (send_event conn w) = Ret None
   /\ pid_file (snd (send_event conn w)) = None)
  /\ (fst (is_running w) = Ret true ->
      snd (send_event conn w) = w
      /\ (conn = ConnRefused -> fst (send_event conn w) = Ret None)
      /\ (forall response text,
             conn = ConnAnswered response -> decode response = Ret text ->
             fst (send_event conn w) = Ret (Some text))).
Proof.
  unfold send_event, is_running.
  destruct (pid_file w) as [text |] eqn:Hpid; simpl.
  - destruct (py_int (strip text)) as [pid |]; simpl.
    + destruct (os_kill0 pid); simpl.
      * split; [discriminate |]. intros _.
        split; [| split].
        -- destruct conn; [| destruct (decode response) |]; reflexivity.
        -- intro Hc. subst conn. reflexivity.
        -- intros response text' Hc Hd. subst conn. rewrite Hd. reflexivity.
      * split; [auto | discriminate].
      * split; discriminate.
    + split; [auto | discriminate].
  - split; [auto | discriminate].
Qed.

End SingletonFacts.

(* ================================================================= *)
(** ** The configuration file *)

Section ConfigFacts.

Context {rt : PyRuntime} {os : OsRuntime}.

Lemma dict_get_set (d : list (string * json)) (k k' : string) (v : json) :
  dict_get (dict_set d k v) k'
  = if String.eqb k k' then Some v else dict_get d k'.
Proof.
  induction d as [| [k0 v0] d IH]; simpl.
  - destruct (String.eqb k k'); reflexivity.
  - destruct (String.eqb k0 k) eqn:H0; simpl.
    + apply String.eqb_eq in H0. subst k0.
      destruct (String.eqb k k'); reflexivity.
    + rewrite IH. destruct (String.eqb k0 k') eqn:H1; [| reflexivity].
      apply String.eqb_eq in H1. subst k0. rewrite String.eqb_sym, H0.
      reflexivity.
Qed.

Lemma dict_get_absent (d : list (string * json)) (k : string) :
  ~ In k (map fst d) -> dict_get d k = None.
Proof.
  induction d as [| [k0 v0] d IH]; simpl; [reflexivity |].
  intro H. destruct (String.eqb k0 k) eqn:H0.
  - apply String.eqb_eq in H0. exfalso. apply H. left. exact H0.
  - apply IH. intro Hin. apply H. right. exact Hin.
Qed.

Lemma dict_get_merge (a b : list (string * json)) (k : string) :
  NoDup (map fst b) ->
  dict_get (dict_merge a b) k
  = match dict_get b k with Some v => Some v | None => dict_get a k end.
Proof.
  unfold dict_merge. revert a.
  induction b as [| [k1 v1] b IH]; intros a Hnd; simpl; [reflexivity |].
  inversion Hnd as [| x l Hnotin Hnd']; subst.
  rewrite (IH _ Hnd'). rewrite dict_get_set.
  destruct (String.eqb k1 k) eqn:H1.
  - apply String.eqb_eq in H1. subst k1.
    rewrite (dict_get_absent b k Hnotin). reflexivity.
  - reflexivity.
Qed.

(** X17: loading the configuration.  With no file the configuration is
    the defaults.  With a file that holds a JSON object (each key once),
    every key the file gives has the file's value, every other key has
    its default, and so the four keys the daemon reads are always there.
    A file that holds another JSON value makes [_load_config] raise
    [TypeError], and a file that is not JSON makes it raise what
    [json.load] raises: the daemon does not start. *)
Theorem load_config_merges_defaults :
  _load_config None = Ret DEFAULT_CONFIG_dict
  /\ config_of_dict DEFAULT_CONFIG_dict = Some DEFAULT_CONFIG
  /\ (forall text d,
         json_loads text = Ret (JObj d) -> NoDup (map fst d) ->
         exists config,
           _load_config (Some text) = Ret config
           /\ (forall k,
                  dict_get config k
                  = match dict_get d k with
                    | Some v => Some v
                    | None => dict_get DEFAULT_CONFIG_dict k
                    end)
           /\ (forall k,
                  In k ["trigger_mode"; "token_threshold"; "prompt_threshold";
                        "trigger_on_first_response"] ->
                  dict_get config k <> None))
  /\ (forall text v,
         json_loads text = Ret v -> (forall d, v <> JObj d) ->
         exists e, _load_config (Some text) = Raise e
                   /\ exn_class e = TypeError)
  /\ (forall text e,
         json_loads text = Raise e -> _load_config (Some text) = Raise e).
Proof.
  split; [reflexivity |]. split; [reflexivity |].
  split; [| split].
  - intros text d Hloads Hnd. exists (dict_merge DEFAULT_CONFIG_dict d).
    unfold _load_config. rewrite Hloads. simpl.
    split; [reflexivity |]. split.
    + intro k. apply dict_get_merge. exact Hnd.
    + intros k Hk. rewrite (dict_get_merge _ _ _ Hnd).
      destruct (dict_get d k); [discriminate |].
      simpl in Hk.
      destruct Hk as [H | [H | [H | [H | []]]]]; subst k; discriminate.
  - intros text v Hloads Hv. unfold _load_config. rewrite Hloads. simpl.
    destruct v; try (eexists; split; reflexivity).
    exfalso. apply (Hv members). reflexivity.
  - intros text e Hloads. unfold _load_config. rewrite Hloads. reflexivity.
Qed.

(** X18: [config set].  Whatever the key and the value, when [config set]
    saves a configuration the key is one of the four known ones, only
    that key has changed, a saved [trigger_mode] is ["tokens"] or
    ["prompts"], a saved threshold is the integer [int] read, and a
    configuration whose four values were well typed still is.  An unknown
    key and a trigger mode other than the two save nothing. *)
Theorem config_set_keeps_config_typed (config : list (string * json))
  (key value : string) :
  (forall config' printed,
      Cli.config_set config key value = Cli.Saved config' printed ->
      In key ["trigger_mode"; "token_threshold"; "prompt_threshold";
              "trigger_on_first_response"]
      /\ (forall k, k <> key -> dict_get config' k = dict_get config k)
      /\ (key = "trigger_mode" ->
          dict_get config' key = Some (JStr value)
          /\ (value = "tokens" \/ value = "prompts"))
      /\ (key = "token_threshold" \/ key = "prompt_threshold" ->
          exists n, py_int value = Some n
                    /\ dict_get config' key = Some (JInt n))
      /\ (forall c, config_of_dict config = Some c ->
                    exists c', config_of_dict config' = Some c'))
  /\ (~ In key ["trigger_mode"; "token_threshold"; "prompt_threshold";
                "trigger_on_first_response"] ->
      exists printed, Cli.config_set config key value = Cli.Rejected printed)
  /\ (key = "trigger_mode" -> value <> "tokens" -> value <> "prompts" ->
      exists printed, Cli.config_set config key value = Cli.Rejected printed).
Proof.
  assert (Htyped : forall k v c,
             config_of_dict config = Some c ->
             (k = "trigger_mode" /\ (exists s, v = JStr s)
              \/ k = "token_threshold" /\ (exists n, v = JInt n)
              \/ k = "prompt_threshold" /\ (exists n, v = JInt n)
              \/ k = "trigger_on_first_response" /\ (exists b, v = JBool b)) ->
             exists c', config_of_dict (dict_set config k v) = Some c').
  { intros k v c Hc Hk. unfold config_of_dict in *.
    rewrite !dict_get_set.
    destruct (dict_get config "trigger_mode") as [[] |]; try discriminate.
    destruct (dict_get config "token_threshold") as [[] |]; try discriminate.
    destruct (dict_get config "prompt_threshold") as [[] |]; try discriminate.
    destruct (dict_get config "trigger_on_first_response") as [[] |];
      try discriminate.
    destruct Hk as [[Hk [x Hv]] | [[Hk [x Hv]] | [[Hk [x Hv]] | [Hk [x Hv]]]]];
      subst k v; simpl; eauto. }
  unfold Cli.config_set, Cli.to_int.
  split; [| split].
  - intros config' printed.
    destruct (String.eqb key "trigger_mode") eqn:K1.
    { apply String.eqb_eq in K1. subst key.
      destruct (String.eqb value "tokens") eqn:V1; simpl.
      - apply String.eqb_eq in V1. subst value. intro H. inversion H; subst.
        split; [simpl; auto |].
        split; [intros k Hk; rewrite dict_get_set;
                destruct (String.eqb "trigger_mode" k) eqn:E;
                [apply String.eqb_eq in E; congruence | reflexivity] |].
        split; [intros _; rewrite dict_get_set; simpl; auto |].
        split; [intros [H0 | H0]; discriminate |].
        intros c Hc. eapply Htyped; eauto.
      - destruct (String.eqb value "prompts") eqn:V2; simpl; [| discriminate].
        apply String.eqb_eq in V2. subst value. intro H. inversion H; subst.
        split; [simpl; auto |].
        split; [intros k Hk; rewrite dict_get_set;
                destruct (String.eqb "trigger_mode" k) eqn:E;
                [apply String.eqb_eq in E; congruence | reflexivity] |].
        split; [intros _; rewrite dict_get_set; simpl; auto |].
        split; [intros [H0 | H0]; discriminate |].
        intros c Hc. eapply Htyped; eauto. }
    destruct (String.eqb key "token_threshold") eqn:K2.
    { apply String.eqb_eq in K2. subst key.
      destruct (py_int value) as [n |]; [| discriminate].
      intro H. inversion H; subst.
      split; [simpl; auto |].
      split; [intros k Hk; rewrite dict_get_set;
              destruct (String.eqb "token_threshold" k) eqn:E;
              [apply String.eqb_eq in E; congruence | reflexivity] |].
      split; [discriminate |].
      split; [intros _; exists n; rewrite dict_get_set; simpl; auto |].
      intros c Hc. eapply Htyped; eauto 6. }
    destruct (String.eqb key "prompt_threshold") eqn:K3.
    { apply String.eqb_eq in K3. subst key.
      destruct (py_int value) as [n |]; [| discriminate].
      intro H. inversion H; subst.
      split; [simpl; auto |].
      split; [intros k Hk; rewrite dict_get_set;
              destruct (String.eqb "prompt_threshold" k) eqn:E;
              [apply String.eqb_eq in E; congruence | reflexivity] |].
      split; [discriminate |].
      split; [intros _; exists n; rewrite dict_get_set; simpl; auto |].
      intros c Hc. eapply Htyped; eauto 8. }
    destruct (String.eqb key "trigger_on_first_response") eqn:K4;
      [| discriminate].
    apply String.eqb_eq in K4. subst key.
    intro H. inversion H; subst.
    split; [simpl; auto |].
    split; [intros k Hk; rewrite dict_get_set;
            destruct (String.eqb "trigger_on_first_response" k) eqn:E;
            [apply String.eqb_eq in E; congruence | reflexivity] |].
    split; [discriminate |].
    split; [intros [H0 | H0]; discriminate |].
    intros c Hc. eapply Htyped; eauto 10.
  - intro Hkey. simpl in Hkey.
    destruct (String.eqb key "trigger_mode") eqn:K1;
      [apply String.eqb_eq in K1; exfalso; apply Hkey; subst key; auto 6 |].
    destruct (String.eqb key "token_threshold") eqn:K2;
      [apply String.eqb_eq in K2; exfalso; apply Hkey; subst key; auto 6 |].
    destruct (String.eqb key "prompt_threshold") eqn:K3;
      [apply String.eqb_eq in K3; exfalso; apply Hkey; subst key; auto 6 |].
    destruct (String.eqb key "trigger_on_first_response") eqn:K4;
      [apply String.eqb_eq in K4; exfalso; apply Hkey; subst key; auto 6 |].
    eauto.
  - intros Hk Hv1 Hv2. subst key. simpl.
    apply String.eqb_neq in Hv1, Hv2. rewrite Hv1, Hv2. simpl. eauto.
Qed.

End ConfigFacts.

(* ================================================================= *)
(** ** Installing the hooks *)

Lemma dict_get_set_same (d : list (string * json)) (k : string) (v : json) :
  dict_get (dict_set d k v) k = Some v.
Proof. rewrite dict_get_set, String.eqb_refl. reflexivity. Qed.

Lemma dict_set_twice (d : list (string * json)) (k : string) (v v' : json) :
  dict_set (dict_set d k v) k v' = dict_set d k v'.
Proof.
  induction d as [| [k0 v0] d IH]; simpl.
  - rewrite String.eqb_refl. reflexivity.
  - destruct (String.eqb k0 k) eqn:H0; simpl; rewrite H0; [reflexivity |].
    rewrite IH. reflexivity.
Qed.

Lemma dict_set_present (d : list (string * json)) (k : string) (v : json) :
  dict_get d k = Some v -> dict_set d k v = d.
Proof.
  induction d as [| [k0 v0] d IH]; simpl; [discriminate |].
  destruct (String.eqb k0 k) eqn:H0.
  - intro H. inversion H. reflexivity.
  - intro H. rewrite (IH H). reflexivity.
Qed.

(** X22: [init] on a settings object.  When the settings have no
    ["hooks"] or have an object there, the saved settings hold, under
    ["hooks"], the start command for [SessionStart] and the notify command
    for [UserPromptSubmit], [Stop] and [SessionEnd]; every other settings
    key and every other hook is kept as it was; and running [init] again
    on what was saved saves the same settings.  When ["hooks"] holds
    anything but an object, [init] raises [TypeError] and saves nothing. *)
Theorem init_settings_installs_hooks (settings : list (string * json)) :
  (forall saved,
      Cli.init_settings settings = Ret saved ->
      (exists hooks,
          dict_get saved "hooks" = Some (JObj hooks)
          /\ dict_get hooks "SessionStart"
             = Some (Cli.hook_entry "skills daemon start")
          /\ dict_get hooks "UserPromptSubmit"
             = Some (Cli.hook_entry "skills daemon notify")
          /\ dict_get hooks "Stop"
             = Some (Cli.hook_entry "skills daemon notify")
          /\ dict_get hooks "SessionEnd"
             = Some (Cli.hook_entry "skills daemon notify")
          /\ (forall before k,
                 dict_get settings "hooks" = Some (JObj before) ->
                 k <> "SessionStart" -> k <> "UserPromptSubmit" ->
                 k <> "Stop" -> k <> "SessionEnd" ->
                 dict_get hooks k = dict_get before k))
      /\ (forall k, k <> "hooks" -> dict_get saved k = dict_get settings k)
      /\ Cli.init_settings saved = Ret saved)
  /\ (forall other,
         dict_get settings "hooks" = Some other ->
         (forall hooks, other <> JObj hooks) ->
         exists e, Cli.init_settings settings = Raise e
                   /\ exn_class e = TypeError).
Proof.
  split.
  - intros saved Hinit. unfold Cli.init_settings in Hinit.
    set (settings1 := match dict_get settings "hooks" with
                      | None => dict_set settings "hooks" (JObj [])
                      | Some _ => settings
                      end) in *.
    assert (Hother : forall k, k <> "hooks" ->
                       dict_get settings1 k = dict_get settings k).
    { intros k Hk. subst settings1.
      destruct (dict_get settings "hooks"); [reflexivity |].
      rewrite dict_get_set.
      destruct (String.eqb "hooks" k) eqn:E; [| reflexivity].
      apply String.eqb_eq in E. congruence. }
    destruct (dict_get settings1 "hooks") as [[] |] eqn:Hhooks;
      try discriminate.
    cbv zeta in Hinit. inversion Hinit as [Hsaved]. clear Hinit.
    set (hooks' := dict_set
                     (dict_set
                        (dict_set
                           (dict_set members "SessionStart"
                              (Cli.hook_entry "skills daemon start"))
                           "UserPromptSubmit"
                           (Cli.hook_entry "skills daemon notify"))
                        "Stop" (Cli.hook_entry "skills daemon notify"))
                     "SessionEnd" (Cli.hook_entry "skills daemon notify"))
      in *.
    split; [| split].
    + exists hooks'. split; [apply dict_get_set_same |].
      subst hooks'.
      repeat split; try (rewrite !dict_get_set; reflexivity).
      intros before k Hbefore K1 K2 K3 K4.
      assert (members = before).
      { subst settings1. rewrite Hbefore in Hhooks. congruence. }
      subst before.
      apply not_eq_sym in K1, K2, K3, K4.
      apply String.eqb_neq in K1, K2, K3, K4.
      rewrite !dict_get_set, K1, K2, K3, K4. reflexivity.
    + intros k Hk. rewrite dict_get_set.
      destruct (String.eqb "hooks" k) eqn:E;
        [apply String.eqb_eq in E; congruence | apply Hother; exact Hk].
    + unfold Cli.init_settings.
      rewrite dict_get_set_same. rewrite dict_get_set_same. cbv zeta.
      f_equal. rewrite dict_set_twice. f_equal. f_equal.
      fold hooks'.
      assert (G1 : dict_get hooks' "SessionStart"
                   = Some (Cli.hook_entry "skills daemon start"))
        by (subst hooks'; rewrite !dict_get_set; reflexivity).
      rewrite (dict_set_present _ _ _ G1).
      assert (G2 : dict_get hooks' "UserPromptSubmit"
                   = Some (Cli.hook_entry "skills daemon notify"))
        by (subst hooks'; rewrite !dict_get_set; reflexivity).
      rewrite (dict_set_present _ _ _ G2).
      assert (G3 : dict_get hooks' "Stop"
                   = Some (Cli.hook_entry "skills daemon notify"))
        by (subst hooks'; rewrite !dict_get_set; reflexivity).
      rewrite (dict_set_present _ _ _ G3).
      assert (G4 : dict_get hooks' "SessionEnd"
                   = Some (Cli.hook_entry "skills daemon notify"))
        by (subst hooks'; rewrite !dict_get_set; reflexivity).
      rewrite (dict_set_present _ _ _ G4). reflexivity.
  - intros other Hsome Hnot. unfold Cli.init_settings. rewrite Hsome.
    rewrite Hsome.
    destruct other; try (eexists; split; [reflexivity |]; reflexivity).
    exfalso. apply (Hnot members). reflexivity.
Qed.

(* ================================================================= *)
(** ** The worker's view of the transcript window *)

Section AgentFacts.

Context {rt : PyRuntime}.

Lemma format_lines_acc (window : list json) (acc : list string) :
  Agent.format_lines window acc
  = match Agent.format_lines window [] with
    | Ret ls => Ret (acc ++ ls)
    | Raise e => Raise e
    end.
Proof.
  revert acc. induction window as [| msg window IH]; intro acc; simpl.
  - rewrite app_nil_r. reflexivity.
  - destruct (Agent.format_entry msg) as [[l |] | e]; simpl;
      [| apply IH | reflexivity].
    rewrite (IH (acc ++ [l])), (IH [l]).
    destruct (Agent.format_lines window []); [| reflexivity].
    rewrite <- app_assoc. reflexivity.
Qed.

Lemma format_lines_app (a b : list json) (acc : list string) :
  Agent.format_lines (a ++ b) acc
  = match Agent.format_lines a acc with
    | Ret ls => Agent.format_lines b ls
    | Raise e => Raise e
    end.
Proof.
  revert acc. induction a as [| msg a IH]; intro acc; simpl; [reflexivity |].
  destruct (Agent.format_entry msg) as [[l |] | e]; simpl;
    [apply IH | apply IH | reflexivity].
Qed.

Lemma substring_length (n : nat) (s : string) :
  (String.length (substring 0 n s) <= n)%nat.
Proof.
  revert s. induction n as [| n IH]; intro s.
  - destruct s; simpl; lia.
  - destruct s as [| c s]; simpl; [lia |]. specialize (IH s). lia.
Qed.

Lemma string_length_app (a b : string) :
  String.length (a ++ b)%string = (String.length a + String.length b)%nat.
Proof. induction a as [| c a IH]; simpl; [reflexivity | rewrite IH; lia]. Qed.

Lemma text_parts_items (parts : list string) :
  Agent.text_parts (map text_item parts) = Ret (map JStr parts).
Proof.
  induction parts as [| s parts IH]; simpl; [reflexivity |].
  rewrite IH. reflexivity.
Qed.

Lemma join_space_strings (parts : list string) (index : Z) :
  Agent.join_space (map JStr parts) index = Ret (String.concat " " parts).
Proof.
  revert index. induction parts as [| s parts IH]; intro index; simpl;
    [reflexivity |].
  rewrite IH. simpl. destruct parts; reflexivity.
Qed.

Lemma format_window_lines (window : list json) :
  Agent._format_transcript_window window
  = match Agent.format_lines window [] with
    | Ret [] => Ret "(no conversation context)"
    | Ret lines => Ret (String.concat Agent.blank_line lines)
    | Raise e => Raise e
    end.
Proof.
  destruct window as [| msg window]; [reflexivity |].
  unfold Agent._format_transcript_window.
  destruct (Agent.format_lines (msg :: window) []) as [[| l ls] | e];
    reflexivity.
Qed.

(** X19: entries the worker does not show.  An entry that is an object
    whose [type] is neither ["human"] nor ["assistant"] leaves the text
    that [_format_transcript_window] builds exactly as it is without the
    entry, wherever it stands; and a window that is empty or holds only
    such entries gives ["(no conversation context)"]. *)
Theorem format_window_skips_other_entries :
  (forall a b d,
      json_eq_str (match dict_get d "type" with
                   | Some v => v
                   | None => JStr "unknown"
                   end) "human" = false ->
      json_eq_str (match dict_get d "type" with
                   | Some v => v
                   | None => JStr "unknown"
                   end) "assistant" = false ->
      Agent._format_transcript_window (a ++ JObj d :: b)
      = Agent._format_transcript_window (a ++ b))
  /\ Agent._format_transcript_window [] = Ret "(no conversation context)".
Proof.
  split; [| reflexivity].
  intros a b d Hh Ha.
  assert (Hlines : Agent.format_lines (a ++ JObj d :: b) []
                   = Agent.format_lines (a ++ b) []).
  { rewrite !format_lines_app.
    destruct (Agent.format_lines a []) as [ls | e]; [| reflexivity].
    simpl. unfold Agent.format_entry. cbn [py_get rbind].
    rewrite Hh, Ha. reflexivity. }
  rewrite !format_window_lines, Hlines. reflexivity.
Qed.

(** X20: what the worker shows of a turn.  A human entry with a text
    gives the line ["USER: "] followed by the first 500 characters of the
    text; an assistant entry whose content is a list of text items gives
    ["ASSISTANT: "] followed by the first 500 characters of the texts
    joined by single spaces; so a line never is longer than 506, or 511,
    characters.  The lines of a window are the lines of its entries, in
    the order of the window. *)
Theorem format_entry_truncates (s : string) (parts : list string) :
  Agent.format_entry (human_entry s)
  = Ret (Some ("USER: " ++ substring 0 500 s)%string)
  /\ Agent.format_entry (assistant_entry (JArr (map text_item parts)))
     = Ret (Some ("ASSISTANT: "
                    ++ substring 0 500 (String.concat " " parts))%string)
  /\ (String.length ("USER: " ++ substring 0 500 s)%string <= 506)%nat
  /\ (String.length
        ("ASSISTANT: " ++ substring 0 500 (String.concat " " parts))%string
      <= 511)%nat
  /\ (forall a b la lb,
         Agent.format_lines a [] = Ret la ->
         Agent.format_lines b [] = Ret lb ->
         Agent.format_lines (a ++ b) [] = Ret (la ++ lb)).
Proof.
  split; [reflexivity |].
  split.
  { unfold Agent.format_entry, assistant_entry.
    cbv -[Agent.text_parts Agent.join_space map text_item substring
          String.concat String.append].
    rewrite text_parts_items, join_space_strings. reflexivity. }
  split.
  { rewrite string_length_app.
    pose proof (substring_length 500 s). simpl String.length at 1. lia. }
  split.
  { rewrite string_length_app.
    pose proof (substring_length 500 (String.concat " " parts)).
    simpl String.length at 1. lia. }
  intros a b la lb Hla Hlb.
  rewrite format_lines_app, Hla, format_lines_acc, Hlb. reflexivity.
Qed.

End AgentFacts.

(* ================================================================= *)
(** ** The further theorems at work on concrete runs *)

Ltac by_run := vm_compute; repeat split; try reflexivity; try discriminate.

Lemma other_entries_count_zero_witness :
  @sum_message_tokens Sample.runtime
    ([human_entry "hi"] ++ JObj [("type", JStr "system")] :: []) 0
  = @sum_message_tokens Sample.runtime ([human_entry "hi"] ++ []) 0.
Proof.
  apply (@other_entries_count_zero Sample.runtime); reflexivity.
Defined.

Lemma counting_in_two_steps_witness :
  exists n1 n2,
    result_of (@_calculate_new_tokens Sample.runtime SampleOs.disk_before
                 (Sample.at_path "/t/log.jsonl" Sample.fresh)) = Ret n1
    /\ result_of
         (@_calculate_new_tokens Sample.runtime SampleOs.disk_after
            (state_of (@_calculate_new_tokens Sample.runtime
                         SampleOs.disk_before
                         (Sample.at_path "/t/log.jsonl" Sample.fresh))))
       = Ret n2
    /\ 7 = n1 + n2.
Proof.
  assert (Honce : result_of (@_calculate_new_tokens Sample.runtime
                               SampleOs.disk_after
                               (Sample.at_path "/t/log.jsonl" Sample.fresh))
                  = Ret 7) by by_run.
  destruct (@counting_in_two_steps Sample.runtime SampleOs.disk_before
              SampleOs.disk_after (Sample.at_path "/t/log.jsonl" Sample.fresh)
              (MkPath "/t/log.jsonl") SampleOs.first_lines SampleOs.more_lines
              7 eq_refl ltac:(by_run) eq_refl eq_refl Honce)
    as (n1 & n2 & H1 & H2 & H3 & _).
  exists n1, n2. auto.
Defined.

Lemma spawn_agent_result_witness :
  result_of (@_spawn_agent Sample.runtime Sample.env_ok Sample.fresh)
  = Ret (Some "summary").
Proof.
  assert (Hread : result_of (@_read_transcript Sample.runtime
                               (fs Sample.env_ok) Sample.fresh) = Ret [])
    by by_run.
  destruct (@spawn_agent_result Sample.runtime Sample.env_ok Sample.fresh []
              Hread) as [H _].
  apply H. repeat split. exists ("summary", ""), "summary". by_run.
Defined.

Lemma spawn_agent_handle_witness :
  active_agent
    (state_of (@_spawn_agent Sample.runtime Sample.env_timeout Sample.busy))
  = false
  /\ length (filter is_kill
               (trace_of (@_spawn_agent Sample.runtime Sample.env_timeout
                            Sample.busy))) = 1%nat.
Proof.
  assert (Hread : result_of (@_read_transcript Sample.runtime
                               (fs Sample.env_timeout) Sample.busy) = Ret [])
    by by_run.
  pose proof (@spawn_agent_handle Sample.runtime Sample.env_timeout
                Sample.busy [] Hread eq_refl eq_refl) as H.
  cbv zeta in H. destruct H as (H1 & H2 & _).
  split; [exact H1 |].
  apply (H2 (mkExn TimeoutExpired "Command timed out after 300 seconds")).
  reflexivity.
Defined.

Lemma spawn_agent_context_witness :
  written_contexts
    (trace_of (@_spawn_agent Sample.runtime Sample.env_ok
                 (Sample.at_path "/t/log.jsonl" Sample.fresh)))
  = [ {| ctx_cwd := ".";
         ctx_session_id := JNull;
         ctx_transcript_window :=
           [human_entry "hi"; assistant_entry (JArr [text_item "hello"])] |} ].
Proof.
  assert (Hread : result_of (@_read_transcript Sample.runtime
                               (fs Sample.env_ok)
                               (Sample.at_path "/t/log.jsonl" Sample.fresh))
                  = Ret [human_entry "hi";
                         assistant_entry (JArr [text_item "hello"])])
    by by_run.
  pose proof (@spawn_agent_context Sample.runtime Sample.env_ok
                (Sample.at_path "/t/log.jsonl" Sample.fresh) _ Hread) as H.
  cbv zeta in H. destruct H as (H & _).
  rewrite (H eq_refl). reflexivity.
Defined.


Lemma other_events_only_count_witness :
  dispatched (trace_of (@_process_event Sample.runtime Sample.env_ok
                          (ev "UserPromptSubmit" []) Sample.fresh)) = false
  /\ prompt_count (state_of (@_process_event Sample.runtime Sample.env_ok
                               (ev "UserPromptSubmit" []) Sample.fresh))
     = 0 + 1.
Proof.
  pose proof (@other_events_only_count Sample.runtime Sample.env_ok
                (ev "UserPromptSubmit" []) Sample.fresh
                (JStr "UserPromptSubmit") eq_refl eq_refl eq_refl
                ltac:(by_run)) as H.
  cbv zeta in H. destruct H as (H1 & _ & _ & _ & H5 & _).
  split; [exact H1 | exact H5].
Defined.


Lemma reached_threshold_fires_witness :
  dispatched (trace_of (@_process_event Sample.runtime Sample.env_timeout
                          (ev "Stop" []) Sample.busy)) = true
  /\ 120 <= tokens_since_last_trigger
              (state_of (@_process_event Sample.runtime Sample.env_timeout
                           (ev "Stop" []) Sample.busy)).
Proof.
  pose proof (@reached_threshold_fires Sample.runtime Sample.env_timeout
                (ev "Stop" []) Sample.busy (JStr "Stop") eq_refl eq_refl
                ltac:(by_run)) as H.
  cbv zeta in H.
  destruct H as (H1 & _ & H3).
  { left. split; [reflexivity | by_run]. }
  split; [exact H1 |].
  apply H3. intros (_ & _ & out & Hc). discriminate Hc.
Defined.

Lemma write_pid_then_check_witness :
  @get_pid SampleOs.runtime
    (_write_pid 4242 {| pid_file := None; socket_file := true |})
  = Ret (Some 4242)
  /\ @is_running SampleOs.runtime
       (_write_pid 4242 {| pid_file := None; socket_file := true |})
     = (Ret true, _write_pid 4242 {| pid_file := None; socket_file := true |})
  /\ @is_running SampleOs.runtime
       (_write_pid 17 {| pid_file := None; socket_file := true |})
     = (Ret false, {| pid_file := None; socket_file := false |}).
Proof.
  destruct (@write_pid_then_check SampleOs.runtime 4242
              {| pid_file := None; socket_file := true |} ltac:(by_run))
    as (H1 & _ & H3 & _).
  destruct (@write_pid_then_check SampleOs.runtime 17
              {| pid_file := None; socket_file := true |} ltac:(by_run))
    as (_ & _ & _ & H4).
  split; [exact H1 |]. split; [apply H3; reflexivity | apply H4; reflexivity].
Defined.


Lemma is_running_purges_stale_witness :
  @is_running SampleOs.runtime SampleOs.live = (Ret true, SampleOs.live)
  /\ pid_file (snd (@is_running SampleOs.runtime SampleOs.stale)) = None
  /\ socket_file (snd (@is_running SampleOs.runtime SampleOs.garbled)) = false.
Proof.
  pose proof (@is_running_purges_stale SampleOs.runtime SampleOs.stale) as H1.
  pose proof (@is_running_purges_stale SampleOs.runtime SampleOs.garbled)
    as H2.
  cbv zeta in H1, H2.
  destruct H1 as (_ & H1 & _). destruct H2 as (_ & H2 & _).
  split; [reflexivity |].
  split; [apply H1; reflexivity |].
  apply H2; [reflexivity | discriminate].
Defined.

Lemma load_config_merges_defaults_witness :
  exists config,
    @_load_config SampleOs.config_runtime (Some SampleOs.config_text)
    = Ret config
    /\ dict_get config "trigger_mode" = Some (JStr "prompts")
    /\ dict_get config "token_threshold" = Some (JInt 10000)
    /\ config_of_dict config
       = Some {| trigger_mode := "prompts"; token_threshold := 10000;
                 prompt_threshold := 3; trigger_on_first_response := true |}.
Proof.
  destruct (@load_config_merges_defaults SampleOs.config_runtime)
    as (_ & _ & H & _).
  assert (Hnd : NoDup (map fst SampleOs.config_object)).
  { simpl. constructor; [simpl; intros [H0 | []]; discriminate |].
    constructor; [simpl; tauto | constructor]. }
  destruct (H SampleOs.config_text SampleOs.config_object
              ltac:(by_run) Hnd) as (config & Hload & Hget & _).
  exists config. split; [exact Hload |].
  split; [rewrite Hget; reflexivity |].
  split; [rewrite Hget; reflexivity |].
  unfold config_of_dict. rewrite !Hget. reflexivity.
Defined.

Lemma config_set_keeps_config_typed_witness :
  (exists config' printed,
      @Cli.config_set SampleOs.runtime DEFAULT_CONFIG_dict
        "token_threshold" "250"
      = Cli.Saved config' printed
      /\ dict_get config' "token_threshold" = Some (JInt 250)
      /\ dict_get config' "trigger_mode" = Some (JStr "tokens"))
  /\ exists printed,
       @Cli.config_set SampleOs.runtime DEFAULT_CONFIG_dict
         "trigger_mode" "sometimes"
       = Cli.Rejected printed.
Proof.
  destruct (@config_set_keeps_config_typed SampleOs.runtime
              DEFAULT_CONFIG_dict "token_threshold" "250") as (H & _).
  destruct (@config_set_keeps_config_typed SampleOs.runtime
              DEFAULT_CONFIG_dict "trigger_mode" "sometimes") as (_ & _ & H').
  split.
  - destruct (H (dict_set DEFAULT_CONFIG_dict "token_threshold" (JInt 250))
                "Set token_threshold = 250" ltac:(by_run))
      as (_ & Hsame & _ & Hint & _).
    eexists. eexists. split; [by_run |].
    destruct (Hint (or_introl eq_refl)) as (n & Hn & Hget).
    vm_compute in Hn. inversion Hn; subst n.
    split; [exact Hget |].
    rewrite Hsame by discriminate. reflexivity.
  - apply H'; [reflexivity | discriminate | discriminate].
Defined.

Lemma init_settings_installs_hooks_witness :
  exists saved,
    Cli.init_settings [("model", JStr "opus")] = Ret saved
    /\ dict_get saved "model" = Some (JStr "opus")
    /\ Cli.init_settings saved = Ret saved.
Proof.
  destruct (init_settings_installs_hooks [("model", JStr "opus")])
    as [H _].
  eexists. split; [reflexivity |].
  match goal with
  | |- dict_get ?s _ = _ /\ _ =>
      destruct (H s eq_refl) as (_ & Hkeep & Hagain)
  end.
  split; [rewrite Hkeep by discriminate; reflexivity | exact Hagain].
Defined.
